(** * tax_web_app: the browser-side controllers and the tax core

    A shallow embedding of the JavaScript controllers of the tax advisory
    application (the AI advisor page, the review form and the document
    uploader) together with the comparison core that the specification
    describes, followed by the properties established about them.

    Conventions.  A JavaScript number is a value of [num]: a not-a-number
    marker, a signed infinity or the rational that a finite double
    denotes; the parsers round to the nearest double.  A DOM string is a
    [string] holding its UTF-8 encoding.  A method that
    performs effects returns the new object state together with the list
    of effects it performed, in program order; writing to the console is
    not an effect of interest and is left out. *)

From Stdlib Require Import String Ascii List ZArith QArith Bool Lia Lqa.
From Stdlib Require Import DecimalString Qminmax Qabs Sorting.Sorted.
Import ListNotations.
Local Open Scope string_scope.
Local Open Scope Z_scope.

(* ================================================================== *)
(** * Part I: definitions *)
(* ================================================================== *)

(** ** JavaScript primitives used by the controllers *)

Module Js.

(** *** Numbers

    A finite number is held as the rational it denotes; the numbers that
    the parsers produce are IEEE 754 doubles, rounded by [to_double].
    The two zeros are not told apart: nothing in the controllers
    distinguishes them. *)

Inductive num : Type :=
| NaN
| Inf (negative : bool)
| Fin (q : Q).

Definition of_Z (z : Z) : num := Fin (inject_Z z).

(** [n / d] rounded to the nearest integer, a tie going to the even
    neighbour; for [0 <= n] and [0 < d]. *)
Definition round_half_even (n d : Z) : Z :=
  let q := n / d in
  match 2 * (n mod d) ?= d with
  | Lt => q
  | Gt => q + 1
  | Eq => if Z.even q then q else q + 1
  end.

(** The Number value for a rational: the nearest double, a tie going to
    the one with the even significand.  The significand [m] has 53 bits
    and the exponent [e] is at least -1074 (below that the doubles are
    subnormal); a result of [2^1024] or more is an infinity. *)
Definition to_double (q : Q) : num :=
  let n := Z.abs (Qnum q) in
  let d := Z.pos (Qden q) in
  if n =? 0 then Fin 0
  else
    let scaled_num e := n * 2 ^ Z.max 0 (- e) in
    let scaled_den e := d * 2 ^ Z.max 0 e in
    let e0 := Z.log2 n - Z.log2 d - 52 in
    let e1 :=
      if scaled_num e0 <? scaled_den e0 * 2 ^ 52 then e0 - 1 else e0 in
    let e := Z.max e1 (-1074) in
    let m := round_half_even (scaled_num e) (scaled_den e) in
    if 2 ^ 1024 <=? m * 2 ^ Z.max 0 e then Inf (Qnum q <? 0)
    else Fin (Qred (Qmake ((if Qnum q <? 0 then - m else m) * 2 ^ Z.max 0 e)
                          (Z.to_pos (2 ^ Z.max 0 (- e))))).

(** [a < b]; every comparison with NaN is false. *)
Definition lt (a b : num) : bool :=
  match a, b with
  | NaN, _ | _, NaN => false
  | Inf true, Inf true => false
  | Inf true, _ => true
  | _, Inf true => false
  | Inf false, _ => false
  | Fin _, Inf false => true
  | Fin x, Fin y =>
      match Qcompare x y with Lt => true | _ => false end
  end.

Definition gt (a b : num) : bool := lt b a.

(** [a <= b] in the sense of the [<=] operator. *)
Definition le (a b : num) : bool :=
  match a, b with
  | NaN, _ | _, NaN => false
  | _, _ => negb (lt b a)
  end.

(** ToBoolean on numbers: NaN and zero are falsy. *)
Definition truthy (a : num) : bool :=
  match a with
  | NaN => false
  | Inf _ => true
  | Fin q => negb (Qeq_bool q 0)
  end.

(** [a || 0]. *)
Definition or_zero (a : num) : num := if truthy a then a else Fin 0.

(** [a === 0]. *)
Definition is_zero (a : num) : bool :=
  match a with Fin q => Qeq_bool q 0 | _ => false end.

(** *** Strings

    A string is held in UTF-8.  The white space that [trim] removes and
    that the number parsers skip is the WhiteSpace and LineTerminator
    classes: U+0009 to U+000D and U+0020 (one byte), U+00A0 (two bytes),
    and U+1680, U+2000 to U+200A, U+2028, U+2029, U+202F, U+205F, U+3000
    and U+FEFF (three bytes). *)

Definition is_space1 (a : ascii) : bool :=
  let n := nat_of_ascii a in
  ((9 <=? n) && (n <=? 13))%nat || (n =? 32)%nat.

Definition is_space2 (a b : ascii) : bool :=
  let '(x, y) := (nat_of_ascii a, nat_of_ascii b) in
  ((x =? 194) && (y =? 160))%nat.

Definition is_space3 (a b c : ascii) : bool :=
  let '(x, y, z) := (nat_of_ascii a, nat_of_ascii b, nat_of_ascii c) in
  ((x =? 225) && (y =? 154) && (z =? 128))%nat ||
  ((x =? 226) && (y =? 128) &&
   ((128 <=? z) && (z <=? 138) || (z =? 168) || (z =? 169) ||
    (z =? 175)))%nat ||
  ((x =? 226) && (y =? 129) && (z =? 159))%nat ||
  ((x =? 227) && (y =? 128) && (z =? 128))%nat ||
  ((x =? 239) && (y =? 187) && (z =? 191))%nat.

Fixpoint trim_start (s : string) : string :=
  match s with
  | String a rest =>
      if is_space1 a then trim_start rest
      else
        match rest with
        | String b rest2 =>
            if is_space2 a b then trim_start rest2
            else
              match rest2 with
              | String c rest3 =>
                  if is_space3 a b c then trim_start rest3 else s
              | EmptyString => s
              end
        | EmptyString => s
        end
  | EmptyString => s
  end.

(** Cuts the string where only white space follows. *)
Fixpoint trim_end (s : string) : string :=
  match s with
  | String a rest =>
      match trim_start s with
      | EmptyString => EmptyString
      | String _ _ => String a (trim_end rest)
      end
  | EmptyString => EmptyString
  end.

Definition trim (s : string) : string := trim_end (trim_start s).

(** ToBoolean on strings: only the empty string is falsy. *)
Definition str_truthy (s : string) : bool :=
  match s with EmptyString => false | _ => true end.

Fixpoint starts_with (p s : string) : bool :=
  match p, s with
  | EmptyString, _ => true
  | String a p', String b s' => Ascii.eqb a b && starts_with p' s'
  | String _ _, EmptyString => false
  end.

(** [s.includes(p)]. *)
Fixpoint includes (p s : string) : bool :=
  starts_with p s ||
  match s with
  | EmptyString => false
  | String _ s' => includes p s'
  end.

Fixpoint drop (n : nat) (s : string) : string :=
  match n, s with
  | O, _ => s
  | S n', String _ s' => drop n' s'
  | S _, EmptyString => EmptyString
  end.

(** The no-break space U+00A0, which is white space without being an
    ASCII character. *)
Definition nbsp : string :=
  String (ascii_of_nat 194) (String (ascii_of_nat 160) EmptyString).

(** *** parseFloat and parseInt *)

Definition digit_of (c : ascii) : option Z :=
  let n := nat_of_ascii c in
  if ((48 <=? n) && (n <=? 57))%nat then Some (Z.of_nat n - 48) else None.

Definition hex_digit_of (c : ascii) : option Z :=
  let n := nat_of_ascii c in
  if ((48 <=? n) && (n <=? 57))%nat then Some (Z.of_nat n - 48)
  else if ((97 <=? n) && (n <=? 102))%nat then Some (Z.of_nat n - 87)
  else if ((65 <=? n) && (n <=? 70))%nat then Some (Z.of_nat n - 55)
  else None.

(** Reads the longest prefix of digits in the given base: the value read
    so far, the number of digits read, and the rest of the string. *)
Fixpoint read_digits (digit : ascii -> option Z) (base : Z)
         (acc : Z) (count : nat) (s : string) : Z * nat * string :=
  match s with
  | String c rest =>
      match digit c with
      | Some d => read_digits digit base (acc * base + d) (S count) rest
      | None => (acc, count, s)
      end
  | EmptyString => (acc, count, s)
  end.

Definition read_sign (s : string) : bool * string :=
  match s with
  | String "-" rest => (true, rest)
  | String "+" rest => (false, rest)
  | _ => (false, s)
  end.

Definition pow10 (e : Z) : Q :=
  if 0 <=? e then inject_Z (10 ^ e) else / inject_Z (10 ^ (- e)).

(** The optional exponent part of a decimal literal; an [e] that is not
    followed by digits is not part of the literal. *)
Definition read_exponent (s : string) : Z :=
  match s with
  | String c rest =>
      if Ascii.eqb c "e" || Ascii.eqb c "E" then
        let '(neg, rest') := read_sign rest in
        let '(e, n, _) := read_digits digit_of 10 0 O rest' in
        match n with
        | O => 0
        | _ => if neg then - e else e
        end
      else 0
  | EmptyString => 0
  end.

(** [parseFloat(s)]: leading white space is skipped; the longest prefix
    of what follows that is a decimal literal is read, and its value is
    rounded to a double; NaN when there is no such prefix. *)
Definition parseFloat (s : string) : num :=
  let '(neg, body) := read_sign (trim_start s) in
  if starts_with "Infinity" body then Inf neg
  else
    let '(ip, ni, after_int) := read_digits digit_of 10 0 O body in
    let '(fp, nf, after_frac) :=
      match after_int with
      | String "." rest => read_digits digit_of 10 0 O rest
      | _ => (0, O, after_int)
      end in
    match ni, nf with
    | O, O => NaN
    | _, _ =>
        let mantissa :=
          (inject_Z ip + inject_Z fp * pow10 (- Z.of_nat nf))%Q in
        let magnitude := (mantissa * pow10 (read_exponent after_frac))%Q in
        to_double (if neg then - magnitude else magnitude)
    end.

(** [parseInt(s)] with no radix argument: leading white space is
    skipped, a prefix [0x] selects base 16, and the integer read is
    rounded to a double. *)
Definition parseInt (s : string) : num :=
  let '(neg, body) := read_sign (trim_start s) in
  let hex := starts_with "0x" body || starts_with "0X" body in
  let '(v, n, _) :=
    if hex then read_digits hex_digit_of 16 0 O (drop 2 body)
    else read_digits digit_of 10 0 O body in
  match n with
  | O => NaN
  | _ => to_double (inject_Z (if neg then - v else v))
  end.

(** *** Values and their conversion to strings *)

(** The values that JSON data and the fields of the page objects hold. *)
Inductive value : Type :=
| Undefined
| Null
| Bool (b : bool)
| Number (n : num)
| Text (s : string).

(** ToBoolean. *)
Definition value_truthy (v : value) : bool :=
  match v with
  | Undefined | Null => false
  | Bool b => b
  | Number n => truthy n
  | Text s => str_truthy s
  end.

(** [v === 'literal']. *)
Definition is_text (literal : string) (v : value) : bool :=
  match v with Text s => String.eqb s literal | _ => false end.

Definition show_nat (z : Z) : string :=
  NilZero.string_of_uint (N.to_uint (Z.to_N z)).

(** [a] and [b] are the same number. *)
Definition same (a b : num) : bool :=
  match a, b with
  | Fin x, Fin y => Qeq_bool x y
  | Inf s, Inf s' => Bool.eqb s s'
  | NaN, NaN => true
  | _, _ => false
  end.

(** The decimal exponent [n] of a positive rational [x]:
    [10^(n-1) <= x < 10^n]. *)
Definition decimal_exponent (x : Q) : Z :=
  let a := Qnum x in
  let b := Z.pos (Qden x) in
  let n0 := Z.of_nat (String.length (show_nat a)) -
            Z.of_nat (String.length (show_nat b)) in
  if b * 10 ^ Z.max 0 n0 <=? a * 10 ^ Z.max 0 (- n0) then n0 + 1 else n0.

(** The decimals [s * 10^(n-k)] of [k] digits next to the positive
    double [x], below and above it, that denote [x]; when both do, the
    nearer one, and the even one when they are equally near.  The result
    is [(s, k, n)]; the decimal above may be the power of ten [10^n],
    which has one digit. *)
Definition digits_at (x : Q) (n k : Z) : option (Z * Z * Z) :=
  let sn := Qnum x * 10 ^ Z.max 0 (k - n) in
  let sd := Z.pos (Qden x) * 10 ^ Z.max 0 (n - k) in
  let below := sn / sd in
  let above := below + 1 in
  let denoted s :=
    Qmake (s * 10 ^ Z.max 0 (n - k)) (Z.to_pos (10 ^ Z.max 0 (k - n))) in
  let fits s := same (to_double (denoted s)) (Fin x) in
  let up := if above =? 10 ^ k then (1, 1, n + 1) else (above, k, n) in
  let down := (below, k, n) in
  match fits below, fits above with
  | true, true =>
      match 2 * (sn mod sd) ?= sd with
      | Lt => Some down
      | Gt => Some up
      | Eq => Some (if Z.even below then down else up)
      end
  | true, false => Some down
  | false, true => Some up
  | false, false => None
  end.

(** The digits of Number::toString: the least [k] for which a decimal of
    [k] digits denotes [x]; 17 digits always do. *)
Fixpoint shortest_digits (x : Q) (n : Z) (fuel : nat) (k : Z) : Z * Z * Z :=
  match fuel with
  | O => (Qnum x * 10 ^ Z.max 0 (k - n) /
          (Z.pos (Qden x) * 10 ^ Z.max 0 (n - k)), k, n)
  | S fuel' =>
      match digits_at x n k with
      | Some found => found
      | None => shortest_digits x n fuel' (k + 1)
      end
  end.

Fixpoint zeros (n : nat) : string :=
  match n with O => EmptyString | S n' => String "0" (zeros n') end.

(** Number::toString for a positive double: plain digits when the
    decimal exponent [n] is in 1..21, a leading [0.] when it is in
    -5..0, and the exponent form otherwise. *)
Definition show_positive (x : Q) : string :=
  let '(s, k, n) := shortest_digits x (decimal_exponent x) 17 1 in
  let digits := show_nat s in
  if (k <=? n) && (n <=? 21) then digits ++ zeros (Z.to_nat (n - k))
  else if (0 <? n) && (n <=? 21) then
    substring 0 (Z.to_nat n) digits ++ "." ++ drop (Z.to_nat n) digits
  else if (-6 <? n) && (n <=? 0) then
    "0." ++ zeros (Z.to_nat (- n)) ++ digits
  else
    let exponent :=
      (if n - 1 <? 0 then "-" else "+") ++ show_nat (Z.abs (n - 1)) in
    if k =? 1 then digits ++ "e" ++ exponent
    else substring 0 1 digits ++ "." ++ drop 1 digits ++ "e" ++ exponent.

(** Number to string.  A rational that is not a double is read as the
    double nearest to it, as a numeric literal is. *)
Definition show_num (n : num) : string :=
  match n with
  | NaN => "NaN"
  | Inf neg => if neg then "-Infinity" else "Infinity"
  | Fin q =>
      match to_double q with
      | NaN => "NaN"
      | Inf neg => if neg then "-Infinity" else "Infinity"
      | Fin x =>
          if Qeq_bool x 0 then "0"
          else if Qnum x <? 0 then "-" ++ show_positive (- x)
          else show_positive x
      end
  end.

(** ToString. *)
Definition show (v : value) : string :=
  match v with
  | Undefined => "undefined"
  | Null => "null"
  | Bool b => if b then "true" else "false"
  | Number n => show_num n
  | Text s => s
  end.

(** *** Exceptions


    A computation that may throw; the state reached and the effects
    performed so far are kept in either case. *)

Inductive completion (S E A : Type) : Type :=
| Normal (st : S) (log : list E) (result : A)
| Thrown (st : S) (log : list E) (error : string).

Arguments Normal {S E A} st log result.
Arguments Thrown {S E A} st log error.

Definition M (S E A : Type) : Type := S -> completion S E A.

Definition ret {S E A} (a : A) : M S E A := fun s => Normal s [] a.

Definition bind {S E A B} (m : M S E A) (k : A -> M S E B) : M S E B :=
  fun s =>
    match m s with
    | Normal s1 l1 a =>
        match k a s1 with
        | Normal s2 l2 b => Normal s2 (l1 ++ l2) b
        | Thrown s2 l2 e => Thrown s2 (l1 ++ l2) e
        end
    | Thrown s1 l1 e => Thrown s1 l1 e
    end.

Definition throw {S E A} (e : string) : M S E A := fun s => Thrown s [] e.

Definition emit {S E} (e : E) : M S E unit := fun s => Normal s [e] tt.

Definition get {S E} : M S E S := fun s => Normal s [] s.

Definition put {S E} (s' : S) : M S E unit := fun _ => Normal s' [] tt.

(** [try { body } catch (error) { handler }]. *)
Definition try_catch {S E A} (body : M S E A) (handler : string -> M S E A)
  : M S E A :=
  fun s =>
    match body s with
    | Normal s1 l1 a => Normal s1 l1 a
    | Thrown s1 l1 e =>
        match handler e s1 with
        | Normal s2 l2 a => Normal s2 (l1 ++ l2) a
        | Thrown s2 l2 e' => Thrown s2 (l1 ++ l2) e'
        end
    end.

(** [try { body } finally { final }]. *)
Definition try_finally {S E A} (body : M S E A) (final : M S E unit)
  : M S E A :=
  fun s =>
    match body s with
    | Normal s1 l1 a =>
        match final s1 with
        | Normal s2 l2 _ => Normal s2 (l1 ++ l2) a
        | Thrown s2 l2 e => Thrown s2 (l1 ++ l2) e
        end
    | Thrown s1 l1 e =>
        match final s1 with
        | Normal s2 l2 _ => Thrown s2 (l1 ++ l2) e
        | Thrown s2 l2 e' => Thrown s2 (l1 ++ l2) e'
        end
    end.

Definition modify {S E} (f : S -> S) : M S E unit :=
  fun s => Normal (f s) [] tt.

(** [l.forEach(body)] and [for (const x of l) body]. *)
Fixpoint for_each {S E A} (l : list A) (body : A -> M S E unit)
  : M S E unit :=
  match l with
  | [] => ret tt
  | x :: rest => bind (body x) (fun _ => for_each rest body)
  end.

Definition state_of {S E A} (c : completion S E A) : S :=
  match c with Normal s _ _ | Thrown s _ _ => s end.

Definition log_of {S E A} (c : completion S E A) : list E :=
  match c with Normal _ l _ | Thrown _ l _ => l end.

(** The result of [await fetch(...)] followed by [await response.json()]:
    the promise rejects, or a response arrives with its [ok] flag and its
    decoded body. *)
Inductive fetched (A : Type) : Type :=
| Rejected
| Response (ok : bool) (body : A).

Arguments Rejected {A}.
Arguments Response {A} ok body.

(** The body of an OK response, as [await response.json()] followed by
    the read of one property of the result sees it: the body is not JSON
    and the promise rejects; the body is [null] and the read throws; or
    the read gives a value, [Undefined] when the decoded value has no
    property of that name. *)
Inductive decoded (A : Type) : Type :=
| NotJson
| JsonNull
| Json (read : A).

Arguments NotJson {A}.
Arguments JsonNull {A}.
Arguments Json {A} read.

End Js.

Declare Scope js_scope.
Delimit Scope js_scope with js.
Notation "x <- m ;; k" := (Js.bind m (fun x => k))
(at level 61, m at next level, right associativity) : js_scope.
Notation "m ;;; k" := (Js.bind m (fun _ => k))
(at level 61, right associativity) : js_scope.

Local Open Scope js_scope.

(* ------------------------------------------------------------------ *)
(** ** The AI advisor page: class [AIAdvisor] *)
(* ------------------------------------------------------------------ *)

Module AIAdvisor.

(** The fields of the object that the conversation logic reads or
    writes; [questionText] and [userResponse] are the text of the
    question element and the value of the answer box. *)
Record t : Type := {
  sessionId : option string;
  currentRound : Z;
  maxRounds : Z;
  isProcessing : bool;
  conversationStarted : bool;
  questionText : string;
  userResponse : string
}.

(** Body of the reply of [/api/ai-advisor/start-conversation]. *)
Record StartReply : Type := {
  start_success : bool;
  start_round : Z;
  start_question : string
}.

(** Body of the reply of [/api/ai-advisor/process-response]. *)
Record ProcessReply : Type := {
  success : bool;
  is_final : bool;
  round : Z;
  question : string;
  conversation_summary : string
}.

Inductive effect : Type :=
| ShowError (message : string)
| ShowProcessingScreen (message : string)
| HideProcessingScreen
| DisplayFinancialSummary
| DisplayQuestion (text : string) (round_shown : Z)
| ScheduleRecommendations (delay_ms : Z) (summary : string)
| SetSubmitButtonLoading (loading : bool)
| PostStartConversation (session : string)
| PostProcessResponse (session : option string) (asked answered : string)
                      (round_sent : Z).

Definition act (A : Type) : Type := Js.M t effect A.

Definition constructor : t :=
  {| sessionId := None;
     currentRound := 1;
     maxRounds := 4;
     isProcessing := false;
     conversationStarted := false;
     questionText := "";
     userResponse := "" |}.

Definition set_sessionId (v : option string) (a : t) : t :=
  {| sessionId := v; currentRound := currentRound a;
     maxRounds := maxRounds a; isProcessing := isProcessing a;
     conversationStarted := conversationStarted a;
     questionText := questionText a; userResponse := userResponse a |}.

Definition set_currentRound (v : Z) (a : t) : t :=
  {| sessionId := sessionId a; currentRound := v;
     maxRounds := maxRounds a; isProcessing := isProcessing a;
     conversationStarted := conversationStarted a;
     questionText := questionText a; userResponse := userResponse a |}.

Definition set_isProcessing (v : bool) (a : t) : t :=
  {| sessionId := sessionId a; currentRound := currentRound a;
     maxRounds := maxRounds a; isProcessing := v;
     conversationStarted := conversationStarted a;
     questionText := questionText a; userResponse := userResponse a |}.

Definition set_conversationStarted (v : bool) (a : t) : t :=
  {| sessionId := sessionId a; currentRound := currentRound a;
     maxRounds := maxRounds a; isProcessing := isProcessing a;
     conversationStarted := v;
     questionText := questionText a; userResponse := userResponse a |}.

Definition set_questionText (v : string) (a : t) : t :=
  {| sessionId := sessionId a; currentRound := currentRound a;
     maxRounds := maxRounds a; isProcessing := isProcessing a;
     conversationStarted := conversationStarted a;
     questionText := v; userResponse := userResponse a |}.

Definition set_userResponse (v : string) (a : t) : t :=
  {| sessionId := sessionId a; currentRound := currentRound a;
     maxRounds := maxRounds a; isProcessing := isProcessing a;
     conversationStarted := conversationStarted a;
     questionText := questionText a; userResponse := v |}.

Definition unavailable : string :=
  "AI Advisor service is temporarily unavailable. Please try again later.".

Definition showError (message : string) : act unit :=
  Js.emit (ShowError message).

Definition displayQuestion (text : string) (r : Z) : act unit :=
  Js.modify (set_questionText text) ;;;
  Js.emit (DisplayQuestion text r).

Definition clearResponse : act unit :=
  Js.modify (set_userResponse "").

(** [startConversation]; [found] is what [getSessionId] returns and
    [reply] what the service answers. *)
Definition startConversation (found : option string)
           (reply : Js.fetched StartReply) : act unit :=
  Js.try_catch
    (Js.modify (set_sessionId found) ;;;
     match found with
     | Some sid =>
         if Js.str_truthy sid then
           Js.emit (ShowProcessingScreen "Starting conversation...") ;;;
           Js.emit (PostStartConversation sid) ;;;
           match reply with
           | Js.Rejected => Js.throw "TypeError: Failed to fetch"
           | Js.Response false _ => Js.throw "HTTP error"
           | Js.Response true data =>
               if start_success data then
                 Js.modify (set_conversationStarted true) ;;;
                 Js.modify (set_currentRound (start_round data)) ;;;
                 Js.emit DisplayFinancialSummary ;;;
                 displayQuestion (start_question data) (start_round data) ;;;
                 Js.emit HideProcessingScreen
               else Js.throw "Failed to start conversation"
           end
         else
           showError
             "Session ID not found. Please start from the tax results page."
     | None =>
         showError
           "Session ID not found. Please start from the tax results page."
     end)
    (fun error => showError unavailable).

(** [submitUserResponse]; [reply] is what the service answers to the
    request, if one is sent. *)
Definition submitUserResponse (reply : Js.fetched ProcessReply) : act unit :=
  a <- Js.get ;;
  if isProcessing a then Js.ret tt
  else
    let response := Js.trim (userResponse a) in
    if negb (Js.str_truthy response) then Js.ret tt
    else
      Js.try_finally
        (Js.try_catch
           (Js.modify (set_isProcessing true) ;;;
            Js.emit (SetSubmitButtonLoading true) ;;;
            Js.emit (PostProcessResponse (sessionId a) (questionText a)
                                         response (currentRound a)) ;;;
            match reply with
            | Js.Rejected => Js.throw "TypeError: Failed to fetch"
            | Js.Response false _ => Js.throw "HTTP error"
            | Js.Response true data =>
                if success data then
                  if is_final data then
                    Js.emit (ShowProcessingScreen
                      "Generating your personalized recommendations...") ;;;
                    Js.emit (ScheduleRecommendations 2000
                               (conversation_summary data))
                  else
                    Js.modify (set_currentRound (round data)) ;;;
                    displayQuestion (question data) (round data) ;;;
                    clearResponse
                else Js.throw "Failed to process response"
            end)
           (fun error => showError unavailable))
        (Js.modify (set_isProcessing false) ;;;
         Js.emit (SetSubmitButtonLoading false)).

(** One user turn: the user types [text] into the answer box and
    submits; the service answers [reply]. *)
Definition turn (a : t) (text : string) (reply : Js.fetched ProcessReply)
  : t :=
  Js.state_of (submitUserResponse reply (set_userResponse text a)).

(** The reply is an accepted answer: it arrived, with an OK status and
    [success] set. *)
Definition accepted (reply : Js.fetched ProcessReply) : bool :=
  match reply with
  | Js.Response true data => success data
  | _ => false
  end.

Definition final (reply : Js.fetched ProcessReply) : bool :=
  match reply with
  | Js.Response _ data => is_final data
  | Js.Rejected => false
  end.

Definition round_of (reply : Js.fetched ProcessReply) : Z :=
  match reply with
  | Js.Response _ data => round data
  | Js.Rejected => 0
  end.

(** A conversation: the page is constructed, the conversation is
    started, and the user takes the given turns. *)
Definition started (found : option string) (first : Js.fetched StartReply)
  : t :=
  Js.state_of (startConversation found first constructor).

Fixpoint conversation (a : t)
         (turns : list (string * Js.fetched ProcessReply)) : t :=
  match turns with
  | [] => a
  | (text, reply) :: rest => conversation (turn a text reply) rest
  end.

(** [P] holds of every turn of the conversation, in the state in which
    the turn is taken. *)
Fixpoint each_turn (P : t -> string -> Js.fetched ProcessReply -> Prop)
         (a : t) (turns : list (string * Js.fetched ProcessReply)) : Prop :=
  match turns with
  | [] => True
  | (text, reply) :: rest =>
      P a text reply /\ each_turn P (turn a text reply) rest
  end.

(** The advisory service follows the round protocol when it answers a
    request for round [r] either with the final recommendations or,
    as long as [r] is below the bound, with question [r + 1]. *)
Definition follows_protocol (a : t) (text : string)
           (reply : Js.fetched ProcessReply) : Prop :=
  accepted reply = true -> final reply = false ->
  currentRound a < maxRounds a /\ round_of reply = currentRound a + 1.

(** The round counter is between 1 and the bound of 4 when the turn is
    taken, and an answer that is sent and accepted leaves it unchanged
    when it is the final one and raises it by one otherwise. *)
Definition advances_by_one (a : t) (text : string)
           (reply : Js.fetched ProcessReply) : Prop :=
  1 <= currentRound a <= 4 /\
  (Js.trim text <> "" -> accepted reply = true ->
   currentRound (turn a text reply) =
     if final reply then currentRound a else currentRound a + 1).

(** The questions that a run shows. *)
Definition is_question (e : effect) : bool :=
  match e with DisplayQuestion _ _ => true | _ => false end.

Definition questions_in {A} (run : Js.completion t effect A) : nat :=
  length (filter is_question (Js.log_of run)).

Fixpoint questions_asked (a : t)
         (turns : list (string * Js.fetched ProcessReply)) : nat :=
  match turns with
  | [] => O
  | (text, reply) :: rest =>
      (questions_in (submitUserResponse reply (set_userResponse text a)) +
       questions_asked (turn a text reply) rest)%nat
  end.

(** The number of questions shown in a conversation, the first one
    included. *)
Definition questions_shown (found : option string)
           (first : Js.fetched StartReply)
           (turns : list (string * Js.fetched ProcessReply)) : nat :=
  (questions_in (startConversation found first constructor) +
   questions_asked (started found first) turns)%nat.

(** *** A sample conversation *)

Definition sample_start : Js.fetched StartReply :=
  Js.Response true {| start_success := true; start_round := 1;
                      start_question := "Do you pay rent?" |}.

Definition sample_question (r : Z) : Js.fetched ProcessReply :=
  Js.Response true {| success := true; is_final := false; round := r;
                      question := "And what else?";
                      conversation_summary := "" |}.

Definition sample_final : Js.fetched ProcessReply :=
  Js.Response true {| success := true; is_final := true; round := 4;
                      question := "";
                      conversation_summary := "Rent and a home loan." |}.

Definition sample_turns : list (string * Js.fetched ProcessReply) :=
  [ ("Yes, in Pune", sample_question 2); ("No home loan", sample_question 3);
    ("I invest in PPF", sample_question 4); ("Nothing else", sample_final) ].

End AIAdvisor.

(* ------------------------------------------------------------------ *)
(** ** The review form page: class [FinancialDataReview] *)
(* ------------------------------------------------------------------ *)

Module FinancialDataReview.

(** *** The part of the document that the class works on

    Every form control is listed with its [id], [name], [value] and
    class list, and with the element that [closest('.form-field')]
    finds for it, if any; of that element the class list and the
    [.field-help] child, if any, are kept.  Of the help element only
    the text and the colour of its inline style matter.  The script
    does not fix the markup of the page: a control is taken to hold
    whatever string is typed or assigned, as a text input does, and
    whether it has a form field and a help element is left open, as it
    is by the tests that the class makes before it uses them. *)

Record HelpText : Type := {
  textContent : string;
  color : string
}.

Record FormField : Type := {
  wrapperClasses : list string;
  fieldHelp : option HelpText
}.

Record Field : Type := {
  id : string;
  name : string;
  value : string;
  classList : list string;
  formField : option FormField
}.

Record t : Type := {
  sessionId : Js.value;
  extractedData : option (list (string * Js.value));
  isDraft : bool;
  fields : list Field;
  submitDisabled : bool;
  validationList : list string;
  validationShown : bool
}.

Inductive notification : Type := Success | Failure.

Inductive effect : Type :=
| Notify (kind : notification) (message : string)
| SetTimeout (delay_ms : Z) (navigate_to : string)
| Fetch (method url : string) (body : list (string * Js.value))
| SessionStorageSet (key item : string)
| Navigate (url : string).

Definition act (A : Type) : Type := Js.M t effect A.
Definition field_act (A : Type) : Type := Js.M Field effect A.

(** *** Class lists *)

Definition has_class (c : string) (l : list string) : bool :=
  existsb (String.eqb c) l.

Definition add_class (c : string) (l : list string) : list string :=
  if has_class c l then l else l ++ [c].

Definition remove_class (c : string) (l : list string) : list string :=
  filter (fun x => negb (String.eqb c x)) l.

(** Reading back [style.color] after an assignment gives the colour in
    its serialized form. *)
Definition css_color (assigned : string) : string :=
  if String.eqb assigned "#dc3545" then "rgb(220, 53, 69)" else assigned.

(** *** Field updates *)

Definition set_value (v : string) (f : Field) : Field :=
  {| id := id f; name := name f; value := v;
     classList := classList f; formField := formField f |}.

Definition set_classList (l : list string) (f : Field) : Field :=
  {| id := id f; name := name f; value := value f;
     classList := l; formField := formField f |}.

Definition set_formField (w : option FormField) (f : Field) : Field :=
  {| id := id f; name := name f; value := value f;
     classList := classList f; formField := w |}.

Definition map_wrapper (g : FormField -> FormField) (f : Field) : Field :=
  set_formField (option_map g (formField f)) f.

Definition set_wrapperClasses (g : list string -> list string)
           (w : FormField) : FormField :=
  {| wrapperClasses := g (wrapperClasses w); fieldHelp := fieldHelp w |}.

Definition set_help (text colour : string) (w : FormField) : FormField :=
  {| wrapperClasses := wrapperClasses w;
     fieldHelp :=
       option_map (fun _ => {| textContent := text;
                               color := css_color colour |})
                  (fieldHelp w) |}.

Definition set_sessionId (v : Js.value) (s : t) : t :=
  {| sessionId := v; extractedData := extractedData s;
     isDraft := isDraft s; fields := fields s;
     submitDisabled := submitDisabled s;
     validationList := validationList s;
     validationShown := validationShown s |}.

Definition set_fields (l : list Field) (s : t) : t :=
  {| sessionId := sessionId s; extractedData := extractedData s;
     isDraft := isDraft s; fields := l;
     submitDisabled := submitDisabled s;
     validationList := validationList s;
     validationShown := validationShown s |}.

Definition set_submitDisabled (b : bool) (s : t) : t :=
  {| sessionId := sessionId s; extractedData := extractedData s;
     isDraft := isDraft s; fields := fields s;
     submitDisabled := b;
     validationList := validationList s;
     validationShown := validationShown s |}.

Definition set_validation (shown : bool) (l : list string) (s : t) : t :=
  {| sessionId := sessionId s; extractedData := extractedData s;
     isDraft := isDraft s; fields := fields s;
     submitDisabled := submitDisabled s;
     validationList := l;
     validationShown := shown |}.

(** *** Looking elements up *)

Fixpoint find_index {A} (p : A -> bool) (l : list A) : option nat :=
  match l with
  | [] => None
  | x :: rest =>
      if p x then Some O else option_map S (find_index p rest)
  end.

Fixpoint replace_nth {A} (i : nat) (x : A) (l : list A) : list A :=
  match l, i with
  | [], _ => []
  | _ :: rest, O => x :: rest
  | y :: rest, S i' => y :: replace_nth i' x rest
  end.

(** [document.getElementById(i)]. *)
Definition getElementById (i : string) (s : t) : option Field :=
  find (fun f => String.eqb (id f) i) (fields s).

(** [document.querySelector('[name="n"]')]. *)
Definition queryByName (n : string) (s : t) : option Field :=
  find (fun f => String.eqb (name f) n) (fields s).

(** Runs an action on the [i]-th control of the document. *)
Definition with_field {A} (i : nat) (m : field_act A) : act A :=
  fun s =>
    match nth_error (fields s) i with
    | None =>
        Js.Thrown s [] "TypeError: Cannot read properties of null"
    | Some f =>
        match m f with
        | Js.Normal f' l a =>
            Js.Normal (set_fields (replace_nth i f' (fields s)) s) l a
        | Js.Thrown f' l e =>
            Js.Thrown (set_fields (replace_nth i f' (fields s)) s) l e
        end
    end.

(** *** validateField *)

Definition is_digit (c : ascii) : bool :=
  match Js.digit_of c with Some _ => true | None => false end.

(** The test of [/^\d{4}-\d{2}$/]. *)
Definition fyPattern (s : string) : bool :=
  match s with
  | String a (String b (String c (String d (String "-"
      (String e (String f EmptyString)))))) =>
      is_digit a && is_digit b && is_digit c && is_digit d &&
      is_digit e && is_digit f
  | _ => false
  end.

(** The [switch] of [validateField]: [None] when the value passes, the
    error message otherwise.  [gross] is the value of the element with
    id [grossSalary], if the document has one. *)
Definition field_rule (gross : option string) (f : Field)
  : field_act (option string) :=
  let v := Js.or_zero (Js.parseFloat (value f)) in
  let fieldName := name f in
  let over (limit : Z) (message : string) :=
    Js.ret (if Js.gt v (Js.of_Z limit) then Some message else None) in
  if String.eqb fieldName "age" then
    Js.ret (if Js.lt v (Js.of_Z 18) || Js.gt v (Js.of_Z 100)
            then Some "Age must be between 18 and 100 years" else None)
  else if String.eqb fieldName "financial_year" then
    Js.ret (if negb (fyPattern (value f))
            then Some "Financial year must be in format YYYY-YY" else None)
  else if String.eqb fieldName "gross_salary" then
    Js.ret (if Js.lt v (Js.of_Z 300000)
            then Some "Gross salary seems too low for salaried employee"
            else None)
  else if String.eqb fieldName "basic_salary" then
    match gross with
    | None => Js.throw "TypeError: Cannot read properties of null"
    | Some g =>
        let grossSalary := Js.or_zero (Js.parseFloat g) in
        Js.ret (if Js.gt v grossSalary
                then Some "Basic salary cannot be greater than gross salary"
                else None)
    end
  else if String.eqb fieldName "deduction_80c" then
    over 150000 "80C deduction cannot exceed ₹1,50,000"
  else if String.eqb fieldName "deduction_80d" then
    over 25000 "80D deduction cannot exceed ₹25,000"
  else if String.eqb fieldName "deduction_80dd" then
    over 125000 "80DD deduction cannot exceed ₹1,25,000"
  else if String.eqb fieldName "deduction_80e" then
    over 40000 "80E deduction cannot exceed ₹40,000"
  else if String.eqb fieldName "deduction_80tta" then
    over 10000 "80TTA deduction cannot exceed ₹10,000"
  else if String.eqb fieldName "home_loan_interest" then
    over 200000 "Home loan interest cannot exceed ₹2,00,000"
  else Js.ret None.

Definition clear_marks (l : list string) : list string :=
  remove_class "success" (remove_class "error" l).

(** [validateField(field)], acting on the control and on its form
    field; the result is [isValid]. *)
Definition validateField (gross : option string) : field_act bool :=
  Js.modify (fun f => set_classList (clear_marks (classList f)) f) ;;;
  Js.modify (map_wrapper (set_wrapperClasses clear_marks)) ;;;
  f <- Js.get ;;
  verdict <- field_rule gross f ;;
  match verdict with
  | None =>
      Js.modify (fun f => set_classList (add_class "success" (classList f)) f) ;;;
      Js.modify (map_wrapper (set_wrapperClasses (add_class "success"))) ;;;
      Js.modify (map_wrapper (set_help "" "")) ;;;
      Js.ret true
  | Some errorMessage =>
      Js.modify (fun f => set_classList (add_class "error" (classList f)) f) ;;;
      Js.modify (map_wrapper (set_wrapperClasses (add_class "error"))) ;;;
      f' <- Js.get ;;
      match formField f' with
      | None => Js.throw "TypeError: Cannot read properties of null"
      | Some _ =>
          Js.modify (map_wrapper (set_help errorMessage "#dc3545")) ;;;
          Js.ret false
      end
  end.

(** The conditions under which [validateField] rejects a value, read off
    its messages: the age is outside 18..100, the financial year is not
    of the form YYYY-YY, the gross salary is below 300000, the basic
    salary is above the gross salary [g], or a deduction is above its
    cap. *)
Definition rejects (g : string) (f : Field) : bool :=
  let v := Js.or_zero (Js.parseFloat (value f)) in
  let named n := String.eqb (name f) n in
  named "age" && (Js.lt v (Js.of_Z 18) || Js.gt v (Js.of_Z 100)) ||
  named "financial_year" && negb (fyPattern (value f)) ||
  named "gross_salary" && Js.lt v (Js.of_Z 300000) ||
  named "basic_salary" && Js.gt v (Js.or_zero (Js.parseFloat g)) ||
  named "deduction_80c" && Js.gt v (Js.of_Z 150000) ||
  named "deduction_80d" && Js.gt v (Js.of_Z 25000) ||
  named "deduction_80dd" && Js.gt v (Js.of_Z 125000) ||
  named "deduction_80e" && Js.gt v (Js.of_Z 40000) ||
  named "deduction_80tta" && Js.gt v (Js.of_Z 10000) ||
  named "home_loan_interest" && Js.gt v (Js.of_Z 200000).

(** The range constraints that the data model declares: the age within
    18..100, the basic salary at most the gross salary [g], and the caps
    of the deductions. *)
Definition violates_declared_range (g : string) (f : Field) : bool :=
  let v := Js.or_zero (Js.parseFloat (value f)) in
  let named n := String.eqb (name f) n in
  named "age" && (Js.lt v (Js.of_Z 18) || Js.gt v (Js.of_Z 100)) ||
  named "basic_salary" && Js.gt v (Js.or_zero (Js.parseFloat g)) ||
  named "deduction_80c" && Js.gt v (Js.of_Z 150000) ||
  named "deduction_80d" && Js.gt v (Js.of_Z 25000) ||
  named "deduction_80dd" && Js.gt v (Js.of_Z 125000) ||
  named "deduction_80e" && Js.gt v (Js.of_Z 40000) ||
  named "deduction_80tta" && Js.gt v (Js.of_Z 10000) ||
  named "home_loan_interest" && Js.gt v (Js.of_Z 200000).

(** [this.validateField(field)] for the [i]-th control of the page. *)
Definition validateFieldAt (i : nat) : act bool :=
  s <- Js.get ;;
  with_field i (validateField (option_map value (getElementById "grossSalary" s))).

(** *** updateFormValidation *)

Definition is_error_field (f : Field) : bool :=
  match formField f with
  | Some w => has_class "error" (wrapperClasses w)
  | None => false
  end.

(** The elements matched by [.form-field.error]. *)
Definition errorFields (s : t) : list FormField :=
  flat_map (fun f => match formField f with
                     | Some w => if has_class "error" (wrapperClasses w)
                                 then [w] else []
                     | None => []
                     end) (fields s).

Definition required_missing (s : t) (fieldName : string) : bool :=
  match queryByName fieldName s with
  | Some field =>
      negb (Js.str_truthy (value field)) ||
      Js.le (Js.parseFloat (value field)) (Js.of_Z 0)
  | None => false
  end.

Definition updateFormValidation : act unit :=
  s <- Js.get ;;
  let isValid :=
    negb (existsb (required_missing s)
            ["financial_year"; "age"; "gross_salary"; "basic_salary"]) &&
    (length (errorFields s) =? 0)%nat in
  Js.modify (set_submitDisabled (negb isValid)).

(** A user edit of the [i]-th control: the handlers installed by
    [addInputValidation]. *)
Definition inputEvent (i : nat) (typed : string) : act unit :=
  with_field i (Js.modify (set_value typed)) ;;;
  _ <- validateFieldAt i ;;
  updateFormValidation.

(** *** showValidationMessages *)

Definition getFieldLabel (fieldName : string) : string :=
  if String.eqb fieldName "gross_salary" then "Gross Salary"
  else if String.eqb fieldName "basic_salary" then "Basic Salary"
  else if String.eqb fieldName "hra_received" then "HRA Received"
  else if String.eqb fieldName "rent_paid" then "Rent Paid"
  else if String.eqb fieldName "deduction_80c" then "80C Deduction"
  else if String.eqb fieldName "deduction_80d" then "80D Deduction"
  else if String.eqb fieldName "professional_tax" then "Professional Tax"
  else if String.eqb fieldName "tds" then "TDS"
  else fieldName.

(** The messages pushed by the loop over the error fields. *)
Definition field_errors (s : t) : list string :=
  flat_map (fun w => match fieldHelp w with
                     | Some helpText =>
                         if String.eqb (color helpText) "rgb(220, 53, 69)"
                         then [textContent helpText] else []
                     | None => []
                     end) (errorFields s).

(** The messages pushed by the loop over the required fields. *)
Definition required_errors (s : t) : list string :=
  flat_map (fun fieldName =>
              match queryByName fieldName s with
              | Some field =>
                  if negb (Js.str_truthy (Js.trim (value field)))
                  then [getFieldLabel fieldName ++ " is required"] else []
              | None => [getFieldLabel fieldName ++ " is required"]
              end) ["gross_salary"; "basic_salary"].

Definition showValidationMessages : act bool :=
  s <- Js.get ;;
  let errors := (field_errors s ++ required_errors s)%list in
  if (0 <? length errors)%nat then
    Js.modify (set_validation true errors) ;;;
    Js.ret false
  else
    Js.modify (fun s => set_validation false (validationList s) s) ;;;
    Js.ret true.

(** *** populateForm *)

Definition fieldMappings : list (string * string) :=
  [ ("financial_year", "financialYear"); ("age", "age");
    ("gross_salary", "grossSalary"); ("basic_salary", "basicSalary");
    ("hra_received", "hraReceived"); ("rent_paid", "rentPaid");
    ("lta_received", "ltaReceived");
    ("other_exemptions", "otherExemptions");
    ("deduction_80c", "deduction80c"); ("deduction_80d", "deduction80d");
    ("deduction_80dd", "deduction80dd"); ("deduction_80e", "deduction80e");
    ("deduction_80tta", "deduction80tta");
    ("home_loan_interest", "homeLoanInterest");
    ("other_deductions", "otherDeductions");
    ("other_income", "otherIncome");
    ("standard_deduction", "standardDeduction");
    ("professional_tax", "professionalTax"); ("tds", "tds") ].

(** [object[key]]: the first binding of the key, [Undefined] if none. *)
Fixpoint property (key : string) (object : list (string * Js.value))
  : Js.value :=
  match object with
  | [] => Js.Undefined
  | (k, v) :: rest => if String.eqb k key then v else property key rest
  end.

Definition is_undefined (v : Js.value) : bool :=
  match v with Js.Undefined => true | _ => false end.

(** [v === 0]. *)
Definition is_number_zero (v : Js.value) : bool :=
  match v with Js.Number n => Js.is_zero n | _ => false end.

(** The string that a control holds after [field.value = v]; assigning
    [null] empties the control. *)
Definition assigned (v : Js.value) : string :=
  match v with Js.Null => "" | _ => Js.show v end.

Definition is_optional (key : string) : bool :=
  String.eqb key "other_deductions" || String.eqb key "other_income".

(** What [populateForm] writes into the control for [key]. *)
Definition rendered (key : string) (v : Js.value) : string :=
  if is_optional key && is_number_zero v then "" else assigned v.

(** The body of the loop of [populateForm] for one entry of the
    mapping. *)
Definition populate_entry (data : list (string * Js.value))
           (entry : string * string) : act unit :=
  let '(key, fieldId) := entry in
  s <- Js.get ;;
  match find_index (fun f => String.eqb (id f) fieldId) (fields s) with
  | Some i =>
      if negb (is_undefined (property key data)) then
        with_field i
          (Js.modify (set_value (rendered key (property key data)))) ;;;
        _ <- validateFieldAt i ;;
        Js.ret tt
      else Js.ret tt
  | None => Js.ret tt
  end.

Definition populateForm : act unit :=
  s <- Js.get ;;
  match extractedData s with
  | None => Js.ret tt
  | Some data =>
      Js.for_each fieldMappings (populate_entry data) ;;;
      updateFormValidation
  end.

(** The value of the [i]-th control of the page. *)
Definition value_at (i : nat) (s : t) : option string :=
  option_map value (nth_error (fields s) i).

(** *** getFormData *)

Definition fieldNames : list string :=
  [ "financial_year"; "age"; "gross_salary"; "basic_salary";
    "hra_received"; "rent_paid"; "lta_received"; "other_exemptions";
    "deduction_80c"; "deduction_80d"; "deduction_80dd"; "deduction_80e";
    "deduction_80tta"; "home_loan_interest"; "other_deductions";
    "other_income"; "standard_deduction"; "professional_tax"; "tds" ].

(** [n || null]. *)
Definition or_null (n : Js.num) : Js.value :=
  if Js.truthy n then Js.Number n else Js.Null.

(** The value stored under [fieldName] by the loop of [getFormData]. *)
Definition serialized (s : t) (fieldName : string) : Js.value :=
  match queryByName fieldName s with
  | Some field =>
      if String.eqb fieldName "financial_year" then Js.Text (value field)
      else if String.eqb fieldName "age" then
        or_null (Js.parseInt (value field))
      else if String.eqb fieldName "other_deductions" ||
              String.eqb fieldName "other_income" then
        if String.eqb (Js.trim (value field)) "" then Js.Null
        else Js.Number (Js.or_zero (Js.parseFloat (value field)))
      else Js.Number (Js.or_zero (Js.parseFloat (value field)))
  | None =>
      if String.eqb fieldName "financial_year" then Js.Text "2024-25"
      else if String.eqb fieldName "age" then Js.Null
      else Js.Number (Js.Fin 0)
  end.

(** The test applied to the session id by [getFormData] and, negated,
    by [submitForm]. *)
Definition usable_session (v : Js.value) : bool :=
  Js.value_truthy v && negb (Js.is_text "undefined" v) &&
  negb (Js.is_text "null" v).

Definition getFormData (s : t) : list (string * Js.value) :=
  (map (fun fieldName => (fieldName, serialized s fieldName)) fieldNames ++
   (if usable_session (sessionId s)
    then [("session_id", sessionId s)] else []) ++
   [("status", Js.Text "completed"); ("is_draft", Js.Bool false)])%list.

(** *** Notifications

    The methods of the class that show a message to the user.  The class
    defines [showSuccessMessage] and [showError]; a call of any other
    name on [this] finds [undefined] and throws. *)

Definition message_methods : list (string * (string -> act unit)) :=
  [ ("showSuccessMessage", fun message => Js.emit (Notify Success message));
    ("showError", fun message => Js.emit (Notify Failure message)) ].

Fixpoint method (name : string)
         (table : list (string * (string -> act unit)))
  : option (string -> act unit) :=
  match table with
  | [] => None
  | (n, body) :: rest =>
      if String.eqb n name then Some body else method name rest
  end.

(** [this.name(message)]. *)
Definition call (name message : string) : act unit :=
  match method name message_methods with
  | Some body => body message
  | None => Js.throw ("TypeError: this." ++ name ++ " is not a function")
  end.

(** *** saveDraft and submitForm *)

(** The reply of [/api/save-draft] or [/api/submit-financials]; of the
    body of an OK reply the identifier is read ([draft_id] or
    [session_id]). *)
Definition reply : Type := Js.fetched (Js.decoded Js.value).

Definition saveDraft (r : reply) : act unit :=
  Js.try_catch
    (s <- Js.get ;;
     Js.emit (Fetch "POST" "/api/save-draft" (getFormData s)) ;;;
     match r with
     | Js.Rejected => Js.throw "TypeError: Failed to fetch"
     | Js.Response true Js.NotJson =>
         Js.throw "SyntaxError: Unexpected token in JSON"
     | Js.Response true Js.JsonNull =>
         Js.throw "TypeError: Cannot read properties of null"
     | Js.Response true (Js.Json draft_id) =>
         Js.modify (set_sessionId draft_id) ;;;
         Js.emit (SessionStorageSet "session_id" (Js.show draft_id)) ;;;
         call "showSuccessMessage" "Draft saved successfully!"
     | Js.Response false _ => Js.throw "Failed to save draft"
     end)
    (fun error => call "showError" "Failed to save draft. Please try again.").

Definition submitForm (r : reply) : act unit :=
  Js.try_catch
    (ok <- showValidationMessages ;;
     if negb ok then Js.ret tt
     else
       s <- Js.get ;;
       if negb (Js.value_truthy (sessionId s)) ||
          Js.is_text "undefined" (sessionId s) ||
          Js.is_text "null" (sessionId s)
       then
         call "showErrorMessage"
              "Session expired. Please start over from the upload page." ;;;
         Js.emit (SetTimeout 2000 "/")
       else
         Js.emit (Fetch "POST" "/api/submit-financials" (getFormData s)) ;;;
         match r with
         | Js.Rejected => Js.throw "TypeError: Failed to fetch"
         | Js.Response true Js.NotJson =>
             Js.throw "SyntaxError: Unexpected token in JSON"
         | Js.Response true Js.JsonNull =>
             Js.throw "TypeError: Cannot read properties of null"
         | Js.Response true (Js.Json session_id) =>
             Js.modify (set_sessionId session_id) ;;;
             Js.emit (SessionStorageSet "session_id" (Js.show session_id)) ;;;
             Js.emit (Navigate "/tax-results")
         | Js.Response false _ => Js.throw "Failed to submit financial data"
         end)
    (fun error => call "showError" "Failed to submit form. Please try again.").

(** The request that [submitForm] exists to send. *)
Definition is_submission (e : effect) : bool :=
  match e with
  | Fetch _ url _ => String.eqb url "/api/submit-financials"
  | _ => false
  end.

(** The redirect to the start page, immediate or scheduled. *)
Definition is_redirect_to_start (e : effect) : bool :=
  match e with
  | SetTimeout _ url | Navigate url => String.eqb url "/"
  | _ => false
  end.

(** The stored session id is null, absent, or one of the strings
    ['undefined'] and ['null']. *)
Definition session_missing (v : Js.value) : bool :=
  match v with
  | Js.Null | Js.Undefined => true
  | Js.Text s => String.eqb s "undefined" || String.eqb s "null"
  | _ => false
  end.

(** Some form field is marked as an error and shows its message: its
    help element exists and has the error colour. *)
Definition shows_error (f : Field) : bool :=
  match formField f with
  | Some w =>
      has_class "error" (wrapperClasses w) &&
      match fieldHelp w with
      | Some helpText => String.eqb (color helpText) "rgb(220, 53, 69)"
      | None => false
      end
  | None => false
  end.

(** *** Auxiliary notions and sample pages *)

Definition is_some {A} (o : option A) : bool :=
  match o with Some _ => true | None => false end.

Definition help_element : HelpText := {| textContent := ""; color := "" |}.

Definition plain_wrapper : FormField :=
  {| wrapperClasses := ["form-field"]; fieldHelp := Some help_element |}.

(** A control inside a form field that has a help element. *)
Definition control (i n v : string) : Field :=
  {| id := i; name := n; value := v; classList := [];
     formField := Some plain_wrapper |}.

Definition blocked (s : t) : bool :=
  (0 <? length (field_errors s ++ required_errors s))%nat.


(** A page whose controls all have a help element. *)
Definition page_with_help (session : Js.value) : t :=
  {| sessionId := session;
     extractedData := None;
     isDraft := false;
     fields :=
       [ control "grossSalary" "gross_salary" "1200000";
         control "basicSalary" "basic_salary" "600000";
         control "deduction80c" "deduction_80c" "" ];
     submitDisabled := false;
     validationList := [];
     validationShown := false |}.


Definition ids (s : t) : list string := map id (fields s).

(** A page with the controls that the examples need; every control has
    a form field with a help element. *)
Definition sample_form (age_typed deductions_typed income_typed tds_typed
                        : string) (data : option (list (string * Js.value)))
  : t :=
  {| sessionId := Js.Text "3f2a";
     extractedData := data;
     isDraft := false;
     fields :=
       [ control "financialYear" "financial_year" "2024-25";
         control "age" "age" age_typed;
         control "grossSalary" "gross_salary" "1200000";
         control "basicSalary" "basic_salary" "600000";
         control "otherDeductions" "other_deductions" deductions_typed;
         control "otherIncome" "other_income" income_typed;
         control "tds" "tds" tds_typed ];
     submitDisabled := false;
     validationList := [];
     validationShown := false |}.

Definition stored_zero : list (string * Js.value) :=
  [ ("gross_salary", Js.Number (Js.of_Z 1200000));
    ("basic_salary", Js.Number (Js.of_Z 600000));
    ("other_deductions", Js.Number (Js.of_Z 0)) ].

End FinancialDataReview.

(* ------------------------------------------------------------------ *)
(** ** The upload page: class [DocumentUploader] *)
(* ------------------------------------------------------------------ *)

Module DocumentUploader.

(** A [File] object: its name, its MIME type and its size in bytes. *)
Record File : Type := {
  fileName : string;
  type : string;
  size : Z
}.

Record t : Type := {
  uploadedFiles : list File;
  documentType : string;
  maxFileSize : Z;
  maxFiles : Z;
  pdfPassword : string;
  isClearingFiles : bool;
  filePasswordStatus : list (string * bool)
}.

Inductive effect : Type :=
| ShowError (message : string)
| UpdateUploadInterface
| UpdateFileList
| UpdateSingleFileStatus
| UpdateProcessButton
| UpdatePasswordHelpMessage (message : string)
| ShowPasswordSection (names : list string)
| HidePasswordSection
| CheckPdfPassword (name : string)
| ClearInputs
| SetTimeout (delay_ms : Z).

Definition act (A : Type) : Type := Js.M t effect A.

Definition constructor : t :=
  {| uploadedFiles := [];
     documentType := "salary_slip_single";
     maxFileSize := 10 * 1024 * 1024;
     maxFiles := 4;
     pdfPassword := "";
     isClearingFiles := false;
     filePasswordStatus := [] |}.

Definition set_uploadedFiles (l : list File) (u : t) : t :=
  {| uploadedFiles := l; documentType := documentType u;
     maxFileSize := maxFileSize u; maxFiles := maxFiles u;
     pdfPassword := pdfPassword u; isClearingFiles := isClearingFiles u;
     filePasswordStatus := filePasswordStatus u |}.

Definition set_documentType (v : string) (u : t) : t :=
  {| uploadedFiles := uploadedFiles u; documentType := v;
     maxFileSize := maxFileSize u; maxFiles := maxFiles u;
     pdfPassword := pdfPassword u; isClearingFiles := isClearingFiles u;
     filePasswordStatus := filePasswordStatus u |}.

Definition set_pdfPassword (v : string) (u : t) : t :=
  {| uploadedFiles := uploadedFiles u; documentType := documentType u;
     maxFileSize := maxFileSize u; maxFiles := maxFiles u;
     pdfPassword := v; isClearingFiles := isClearingFiles u;
     filePasswordStatus := filePasswordStatus u |}.

Definition set_isClearingFiles (v : bool) (u : t) : t :=
  {| uploadedFiles := uploadedFiles u; documentType := documentType u;
     maxFileSize := maxFileSize u; maxFiles := maxFiles u;
     pdfPassword := pdfPassword u; isClearingFiles := v;
     filePasswordStatus := filePasswordStatus u |}.

Definition set_filePasswordStatus (m : list (string * bool)) (u : t) : t :=
  {| uploadedFiles := uploadedFiles u; documentType := documentType u;
     maxFileSize := maxFileSize u; maxFiles := maxFiles u;
     pdfPassword := pdfPassword u; isClearingFiles := isClearingFiles u;
     filePasswordStatus := m |}.

(** [map.set(key, v)] on the password status map. *)
Fixpoint map_set (key : string) (v : bool) (m : list (string * bool))
  : list (string * bool) :=
  match m with
  | [] => [(key, v)]
  | (k, w) :: rest =>
      if String.eqb k key then (k, v) :: rest
      else (k, w) :: map_set key v rest
  end.

Definition multiple (u : t) : bool :=
  String.eqb (documentType u) "salary_slip_multiple".

(** [validateFile(file)]: the checks and the message of a failed one. *)
Definition validateFile (file : File) : act bool :=
  u <- Js.get ;;
  if negb (Js.includes "pdf" (type file)) then
    Js.emit (ShowError (fileName file ++
               " is not a PDF file. Only PDF files are supported.")) ;;;
    Js.ret false
  else if maxFileSize u <? size file then
    Js.emit (ShowError (fileName file ++
               " is too large. Maximum file size is 10MB.")) ;;;
    Js.ret false
  else Js.ret true.

(** [files.filter(file => this.validateFile(file))]. *)
Fixpoint filter_valid (files : list File) : act (list File) :=
  match files with
  | [] => Js.ret []
  | file :: rest =>
      ok <- validateFile file ;;
      kept <- filter_valid rest ;;
      Js.ret (if ok then file :: kept else kept)
  end.

(** The loop of [checkPasswordProtection] over the files paired with
    the answers of [/api/check-pdf-password]; the result is the list of
    the names found protected. *)
Fixpoint check_each (work : list (File * Js.fetched bool))
  : act (list string) :=
  match work with
  | [] => Js.ret []
  | (file, answer) :: rest =>
      Js.emit (CheckPdfPassword (fileName file)) ;;;
      match answer with
      | Js.Rejected => Js.throw "TypeError: Failed to fetch"
      | Js.Response true is_password_protected =>
          u <- Js.get ;;
          Js.put (set_filePasswordStatus
                    (map_set (fileName file) is_password_protected
                             (filePasswordStatus u)) u) ;;;
          found <- check_each rest ;;
          Js.ret (if is_password_protected
                  then fileName file :: found else found)
      | Js.Response false _ => check_each rest
      end
  end.

(** Pairs every file with its answer; a file for which the list holds
    no answer gets a rejected request. *)
Fixpoint with_answers (files : list File) (answers : list (Js.fetched bool))
  : list (File * Js.fetched bool) :=
  match files, answers with
  | [], _ => []
  | file :: rest, [] => (file, Js.Rejected) :: with_answers rest []
  | file :: rest, a :: more => (file, a) :: with_answers rest more
  end.

Definition checkPasswordProtection (answers : list (Js.fetched bool))
  : act unit :=
  Js.emit (UpdatePasswordHelpMessage "Checking password protection...") ;;;
  Js.try_catch
    (u <- Js.get ;;
     found <- check_each (with_answers (uploadedFiles u) answers) ;;
     match found with
     | [] => Js.emit HidePasswordSection
     | _ => Js.emit (ShowPasswordSection found)
     end)
    (fun error => Js.emit (ShowPasswordSection ["Unknown files"])).

(** [array.slice(0, n)]. *)
Definition slice0 {A} (n : Z) (l : list A) : list A :=
  firstn (Z.to_nat n) l.

Definition processFiles (files : list File)
           (answers : list (Js.fetched bool)) : act unit :=
  u <- Js.get ;;
  if isClearingFiles u then Js.ret tt
  else
    validFiles <- filter_valid files ;;
    (if multiple u then
       Js.modify (fun u => set_uploadedFiles
                             (uploadedFiles u ++ validFiles) u) ;;;
       u1 <- Js.get ;;
       (if maxFiles u1 <? Z.of_nat (length (uploadedFiles u1)) then
          Js.modify (fun u => set_uploadedFiles
                                (slice0 (maxFiles u) (uploadedFiles u)) u) ;;;
          Js.emit (ShowError
            ("Maximum " ++ Js.show_nat (maxFiles u1) ++
             " files allowed. Only first " ++ Js.show_nat (maxFiles u1) ++
             " files will be processed."))
        else Js.ret tt) ;;;
       Js.emit UpdateFileList
     else
       Js.modify (set_uploadedFiles (slice0 1 validFiles)) ;;;
       Js.emit UpdateSingleFileStatus) ;;;
    u2 <- Js.get ;;
    (if (0 <? length (uploadedFiles u2))%nat
     then checkPasswordProtection answers
     else Js.emit HidePasswordSection) ;;;
    Js.emit UpdateProcessButton.

(** [array.splice(index, 1)]: a negative index counts from the end. *)
Definition splice1 {A} (index : Z) (l : list A) : list A :=
  let len := Z.of_nat (length l) in
  let start := if index <? 0 then Z.max (len + index) 0
               else Z.min index len in
  (firstn (Z.to_nat start) l ++ skipn (S (Z.to_nat start)) l)%list.

(** [map.get(key) === true]. *)
Fixpoint is_protected (key : string) (m : list (string * bool)) : bool :=
  match m with
  | [] => false
  | (k, v) :: rest => if String.eqb k key then v else is_protected key rest
  end.

Definition checkPasswordSectionVisibility : act unit :=
  u <- Js.get ;;
  if (length (uploadedFiles u) =? 0)%nat then Js.emit HidePasswordSection
  else if existsb (fun file => is_protected (fileName file)
                                            (filePasswordStatus u))
                  (uploadedFiles u)
  then Js.ret tt
  else Js.emit HidePasswordSection.

Definition removeFile (index : Z) : act unit :=
  Js.modify (fun u => set_uploadedFiles (splice1 index (uploadedFiles u)) u) ;;;
  Js.emit UpdateFileList ;;;
  Js.emit UpdateProcessButton ;;;
  checkPasswordSectionVisibility.

Definition clearSingleFile : act unit :=
  Js.modify (set_uploadedFiles []) ;;;
  Js.emit UpdateSingleFileStatus ;;;
  Js.emit UpdateProcessButton ;;;
  checkPasswordSectionVisibility ;;;
  Js.emit ClearInputs.

Definition clearFiles : act unit :=
  Js.modify (set_isClearingFiles true) ;;;
  Js.modify (set_uploadedFiles []) ;;;
  Js.emit UpdateFileList ;;;
  Js.emit UpdateSingleFileStatus ;;;
  Js.emit UpdateProcessButton ;;;
  Js.emit HidePasswordSection ;;;
  Js.modify (set_pdfPassword "") ;;;
  Js.modify (set_filePasswordStatus []) ;;;
  Js.emit ClearInputs ;;;
  Js.emit (SetTimeout 100).

(** The callback that [clearFiles] schedules. *)
Definition clearFilesTimer : act unit :=
  Js.modify (set_isClearingFiles false).

(** The change handler of the document type selector. *)
Definition documentTypeChange (selected : string) : act unit :=
  Js.modify (set_documentType selected) ;;;
  Js.emit UpdateUploadInterface ;;;
  clearFiles.

(** What can happen to an uploader after its construction. *)
Inductive event : Type :=
| DocumentTypeChange (selected : string)
| ProcessFiles (files : list File) (answers : list (Js.fetched bool))
| RemoveFile (index : Z)
| ClearSingleFile
| ClearFiles
| ClearFilesTimer.

Definition handle (e : event) : act unit :=
  match e with
  | DocumentTypeChange selected => documentTypeChange selected
  | ProcessFiles files answers => processFiles files answers
  | RemoveFile index => removeFile index
  | ClearSingleFile => clearSingleFile
  | ClearFiles => clearFiles
  | ClearFilesTimer => clearFilesTimer
  end.

Fixpoint run (u : t) (events : list event) : t :=
  match events with
  | [] => u
  | e :: rest => run (Js.state_of (handle e u)) rest
  end.

(** The file passes for a PDF: its MIME type mentions [pdf]. *)
Definition is_pdf (file : File) : bool := Js.includes "pdf" (type file).

Definition acceptable (file : File) : Prop :=
  is_pdf file = true /\ size file <= 10485760.

(** The bound on the number of files in the current mode. *)
Definition capacity (u : t) : Z := if multiple u then 4 else 1.

(** *** The invariant of the uploader *)

(** The upload limits are those set by the constructor, the number of
    files is within the capacity of the current mode, and every file is
    an acceptable PDF. *)
Definition invariant (u : t) : Prop :=
  maxFiles u = 4 /\ maxFileSize u = 10485760 /\
  Z.of_nat (length (uploadedFiles u)) <= capacity u /\
  Forall acceptable (uploadedFiles u).

(** [u'] differs from [u] at most in the password and its bookkeeping. *)
Definition same_setup (u u' : t) : Prop :=
  uploadedFiles u' = uploadedFiles u /\ documentType u' = documentType u /\
  maxFileSize u' = maxFileSize u /\ maxFiles u' = maxFiles u.

End DocumentUploader.

(* ------------------------------------------------------------------ *)
(** ** The comparison core described by the specification *)
(* ------------------------------------------------------------------ *)

Module TaxCore.

Local Open Scope Q_scope.

Inductive regime : Type := Old | New.

(** The financial inputs of a session.  Amounts are rupees. *)
Record FinancialProfile : Type := {
  financial_year : string;
  age : Z;
  gross_salary : Q;
  basic_salary : Q;
  hra_received : Q;
  rent_paid : Q;
  lta_received : Q;
  other_exemptions : Q;
  deduction_80c : Q;
  deduction_80d : Q;
  deduction_80dd : Q;
  deduction_80e : Q;
  deduction_80tta : Q;
  home_loan_interest : Q;
  other_deductions : option Q;
  other_income : option Q;
  standard_deduction : Q;
  professional_tax : Q;
  tds : Q
}.

(** An income bracket: its bounds (no upper bound for the last one) and
    its marginal rate. *)
Record Slab : Type := {
  lower : Q;
  upper : option Q;
  rate : Q
}.

(** Modelled from the spec: the Tax Rule Tables, the constants of one
    financial year, which the repository sources do not contain: the
    slabs of each regime, the income under which the rebate applies in
    each regime, and the share of the basic salary that bounds the HRA
    exemption (50% or 40%, by city). *)
Record TaxRules : Type := {
  slabs : regime -> list Slab;
  rebate_threshold : regime -> Q;
  hra_basic_share : Q
}.

(** The output of the Regime Calculator. *)
Record RegimeResult : Type := {
  gross_total_income : Q;
  total_deductions : Q;
  taxable_income : Q;
  slab_breakdown : list Q;
  tax_amount : Q;
  tax_after_rebate : Q;
  cess_amount : Q;
  total_tax : Q
}.

Definition Qmin3 (a b c : Q) : Q := Qmin a (Qmin b c).

Definition or_default (x : option Q) : Q :=
  match x with Some q => q | None => 0 end.

(** The part of [income] that falls into the slab. *)
Definition within (income : Q) (s : Slab) : Q :=
  let top := match upper s with
             | Some u => Qmin income u
             | None => income
             end in
  Qmax 0 (top - lower s).

Definition slab_tax (income : Q) (s : Slab) : Q := rate s * within income s.

Definition sum (l : list Q) : Q := fold_right Qplus 0 l.

(** Modelled from the spec: the HRA exemption of the old regime, the
    least of the HRA received, the rent paid less 10% of the basic
    salary, and the configured share of the basic salary. *)
Definition hra_exemption (rules : TaxRules) (p : FinancialProfile) : Q :=
  Qmin3 (hra_received p)
        (rent_paid p - (10 # 100) * basic_salary p)
        (hra_basic_share rules * basic_salary p).

(** Modelled from the spec: what each regime subtracts from the income.
    The old regime subtracts the HRA exemption, the standard deduction,
    the capped deductions and the professional tax; the new regime only
    the standard deduction and the professional tax. *)
Definition deductions (rules : TaxRules) (r : regime) (p : FinancialProfile)
  : Q :=
  match r with
  | Old =>
      hra_exemption rules p + standard_deduction p +
      Qmin (deduction_80c p) 150000 + Qmin (deduction_80d p) 25000 +
      Qmin (deduction_80dd p) 125000 + Qmin (deduction_80e p) 40000 +
      Qmin (deduction_80tta p) 10000 +
      Qmin (home_loan_interest p) 200000 + professional_tax p
  | New => standard_deduction p + professional_tax p
  end.

(** Modelled from the spec: the Regime Calculator, which the
    repository sources do not contain.  The slab rates of the regime
    are applied to the taxable income; the tax is rebated when the
    taxable income is below the configured threshold; the cess is 4% of
    the tax after the rebate; the total is the tax after the rebate
    plus the cess. *)
Definition calculate (rules : TaxRules) (r : regime) (p : FinancialProfile)
  : RegimeResult :=
  let gross := gross_salary p + or_default (other_income p) in
  let deducted := deductions rules r p in
  let taxable := gross - deducted in
  let per_slab := map (slab_tax taxable) (slabs rules r) in
  let tax := sum per_slab in
  let rebated :=
    if Qlt_le_dec taxable (rebate_threshold rules r) then 0 else tax in
  let cess := (4 # 100) * rebated in
  {| gross_total_income := gross;
     total_deductions := deducted;
     taxable_income := taxable;
     slab_breakdown := per_slab;
     tax_amount := tax;
     tax_after_rebate := rebated;
     cess_amount := cess;
     total_tax := rebated + cess |}.

(** The tables are well formed when no slab has a negative rate. *)
Definition well_formed (rules : TaxRules) : Prop :=
  forall r s, In s (slabs rules r) -> 0 <= rate s.

(** Modelled from the spec: the Comparator, which the repository
    sources do not contain.  The best regime is the one with the lower
    total tax, and the new regime on a tie; the savings are the
    distance between the two totals. *)
Definition best_regime (old new : RegimeResult) : regime :=
  if Qlt_le_dec (total_tax old) (total_tax new) then Old else New.

Definition tax_savings (old new : RegimeResult) : Q :=
  Qabs (total_tax old - total_tax new).

(** The name of a regime as stored in the [best_regime] column. *)
Definition regime_name (r : regime) : string :=
  match r with Old => "old" | New => "new" end.

(** *** The Session/Draft Store *)

Local Open Scope Z_scope.

Inductive status : Type := Draft | Completed.

(** A row of the [UserFinancials] table, as far as the listing of
    drafts looks at it, with the owner that the listing is asked for.
    Timestamps are seconds since the epoch. *)
Record Session : Type := {
  session_id : string;
  user_id : string;
  session_status : status;
  is_draft : bool;
  draft_expires_at : option Z;
  created_at : Z
}.

(** The expiry of the draft lies in the past. *)
Definition expired (now : Z) (s : Session) : bool :=
  match draft_expires_at s with
  | Some t => t <? now
  | None => false
  end.

Fixpoint insert_recent (s : Session) (l : list Session) : list Session :=
  match l with
  | [] => [s]
  | x :: rest =>
      if created_at x <=? created_at s then s :: l
      else x :: insert_recent s rest
  end.

(** Orders the rows by [created_at], the most recent first. *)
Definition most_recent_first (l : list Session) : list Session :=
  fold_right insert_recent [] l.

(** Modelled from the spec: [list_drafts], which the repository
    sources do not contain: the drafts of the user that are not yet
    expired, most recent first. *)
Definition list_drafts (now : Z) (user : string) (store : list Session)
  : list Session :=
  most_recent_first
    (filter (fun s => is_draft s && String.eqb (user_id s) user &&
                      negb (expired now s)) store).

(** [a] is at least as recent as [b]. *)
Definition not_older (a b : Session) : Prop := created_at b <= created_at a.

(** *** Sample tables, profile and store *)

Local Open Scope Q_scope.

(** The tables of the financial year 2024-25. *)
Definition rules_2024_25 : TaxRules :=
  {| slabs := fun r =>
       match r with
       | Old => [ {| lower := 0; upper := Some 250000; rate := 0 |};
                  {| lower := 250000; upper := Some 500000; rate := 5 # 100 |};
                  {| lower := 500000; upper := Some 1000000;
                     rate := 20 # 100 |};
                  {| lower := 1000000; upper := None; rate := 30 # 100 |} ]
       | New => [ {| lower := 0; upper := Some 300000; rate := 0 |};
                  {| lower := 300000; upper := Some 700000; rate := 5 # 100 |};
                  {| lower := 700000; upper := Some 1000000;
                     rate := 10 # 100 |};
                  {| lower := 1000000; upper := Some 1200000;
                     rate := 15 # 100 |};
                  {| lower := 1200000; upper := Some 1500000;
                     rate := 20 # 100 |};
                  {| lower := 1500000; upper := None; rate := 30 # 100 |} ]
       end;
     rebate_threshold := fun r =>
       match r with Old => 500000 | New => 700000 end;
     hra_basic_share := 50 # 100 |}.

(** The profile of the worked example. *)
Definition example_profile : FinancialProfile :=
  {| financial_year := "2024-25"; age := 30;
     gross_salary := 1200000; basic_salary := 600000;
     hra_received := 240000; rent_paid := 300000;
     lta_received := 0; other_exemptions := 0;
     deduction_80c := 150000; deduction_80d := 25000;
     deduction_80dd := 0; deduction_80e := 0; deduction_80tta := 0;
     home_loan_interest := 0;
     other_deductions := None; other_income := None;
     standard_deduction := 50000; professional_tax := 0; tds := 0 |}.

Local Open Scope Z_scope.

Definition draft (sid : string) (expires : option Z) (created : Z) : Session :=
  {| session_id := sid; user_id := "u-17"; session_status := Draft;
     is_draft := true; draft_expires_at := expires; created_at := created |}.

Definition sample_store : list Session :=
  [ draft "a" (Some 900) 100; draft "b" (Some 2000) 300;
    draft "c" None 200; draft "d" (Some 1500) 400 ].

End TaxCore.

(* ------------------------------------------------------------------ *)
(** ** The review form page: looking for a draft *)
(* ------------------------------------------------------------------ *)

Module FinancialDataReviewDrafts.

Import FinancialDataReview.

(** The methods of the class that take a draft.  The class defines none:
    [showDraftNotification], which [checkForDraft] calls, is a function
    of the upload page script and not a method of this class. *)
Definition draft_methods : list (string * (Js.value -> act unit)) := [].

Fixpoint draft_method (name : string)
         (table : list (string * (Js.value -> act unit)))
  : option (Js.value -> act unit) :=
  match table with
  | [] => None
  | (n, body) :: rest =>
      if String.eqb n name then Some body else draft_method name rest
  end.

(** [this.name(draft)]. *)
Definition call_with_draft (name : string) (draft : Js.value) : act unit :=
  match draft_method name draft_methods with
  | Some body => body draft
  | None => Js.throw ("TypeError: this." ++ name ++ " is not a function")
  end.

(** [checkForDraft]; the reply of [/api/drafts] is the array of drafts. *)
Definition checkForDraft (r : Js.fetched (list Js.value)) : act unit :=
  Js.try_catch
    (Js.emit (Fetch "GET" "/api/drafts" []) ;;;
     match r with
     | Js.Rejected => Js.throw "TypeError: Failed to fetch"
     | Js.Response true drafts =>
         match drafts with
         | first :: _ => call_with_draft "showDraftNotification" first
         | [] => Js.ret tt
         end
     | Js.Response false _ => Js.ret tt
     end)
    (fun error => Js.ret tt).

End FinancialDataReviewDrafts.

(* ------------------------------------------------------------------ *)
(** ** The upload page: drafts and the upload itself *)
(* ------------------------------------------------------------------ *)

Module DocumentUploaderPage.

Import DocumentUploader.

(** The uploader together with what its remaining methods read: the
    user id, the values of the two password inputs (absent when the
    page has no such input), and whether the page has an element for
    the date of a draft. *)
Record page : Type := {
  uploader : DocumentUploader.t;
  userId : string;
  singlePasswordInput : option string;
  multiplePasswordInput : option string;
  draftDateElement : bool
}.

(** A draft as listed by [/api/drafts]. *)
Record Draft : Type := {
  draft_id : Js.value;
  created_at : Js.value
}.

Inductive page_effect : Type :=
| ShowErrorBanner (message : string)
| ShowProgress
| HideProgress
| Upload (user document_type : string) (pdf_password : option string)
         (files : list File)
| GetDrafts (user : string)
| GetDraft (user : string) (draft : Js.value)
| DeleteDraft (user : string) (draft : Js.value)
| StorageSet (key item : string)
| GoTo (url : string)
| Alert (message : string)
| ShowLoadingState
| ShowUploadInterface
| ShowDraftDate (created : Js.value)
| ShowDraftOptionBanner (draft : option Draft)
| ShowSuccessMessage (message : string)
| ShowErrorMessage (message : string).

Definition page_act (A : Type) : Type := Js.M page page_effect A.

(** [getCurrentPassword]. *)
Definition getCurrentPassword (p : page) : string :=
  if multiple (uploader p) then
    match multiplePasswordInput p with Some v => v | None => "" end
  else
    match singlePasswordInput p with Some v => v | None => "" end.

(** What [/api/upload] answers: the request fails with a message, the
    status is not OK and has a status text, or a body arrives.  The
    extracted data and the processing summary of the body are given as
    the JSON texts that [JSON.stringify] makes of them. *)
Record UploadResult : Type := {
  upload_success : bool;
  upload_session_id : Js.value;
  extracted_data_json : string;
  processing_summary_json : string;
  upload_error : Js.value
}.

Inductive upload_reply : Type :=
| UploadRejected (message : string)
| UploadStatus (statusText : string)
| UploadBody (result : UploadResult).

Definition processDocuments (r : upload_reply) : page_act unit :=
  p <- Js.get ;;
  if (length (uploadedFiles (uploader p)) =? 0)%nat then
    Js.emit (ShowErrorBanner "Please select at least one file to process.")
  else
    Js.try_catch
      (Js.emit ShowProgress ;;;
       let password := getCurrentPassword p in
       Js.emit (Upload (userId p) (documentType (uploader p))
                       (if Js.str_truthy password then Some password
                        else None)
                       (uploadedFiles (uploader p))) ;;;
       match r with
       | UploadRejected message => Js.throw message
       | UploadStatus statusText => Js.throw ("Upload failed: " ++ statusText)
       | UploadBody result =>
           if upload_success result then
             Js.emit (StorageSet "session_id"
                                 (Js.show (upload_session_id result))) ;;;
             Js.emit (StorageSet "extracted_data"
                                 (extracted_data_json result)) ;;;
             Js.emit (StorageSet "processing_summary"
                                 (processing_summary_json result)) ;;;
             Js.emit (GoTo "/review-form")
           else
             Js.throw (if Js.value_truthy (upload_error result)
                       then Js.show (upload_error result)
                       else "Document processing failed")
       end)
      (fun message =>
         Js.emit (ShowErrorBanner ("Processing failed: " ++ message)) ;;;
         Js.emit HideProgress).

(** The body of the reply of [/api/drafts]: an array of drafts, some of
    which may be null, or a value that has no elements (null, or an
    object that is not an array). *)
Inductive drafts_body : Type :=
| NotAnArray
| Drafts (list_of : list (option Draft)).

Definition showDraftOptionBanner (draft : option Draft) : page_act unit :=
  p <- Js.get ;;
  (if draftDateElement p then
     match draft with
     | Some d => Js.emit (ShowDraftDate (created_at d))
     | None => Js.throw "TypeError: Cannot read properties of null"
     end
   else Js.ret tt) ;;;
  Js.emit (ShowDraftOptionBanner draft).

Definition checkForDrafts (r : Js.fetched drafts_body) : page_act unit :=
  Js.emit ShowLoadingState ;;;
  Js.try_catch
    (p <- Js.get ;;
     Js.emit (GetDrafts (userId p)) ;;;
     match r with
     | Js.Rejected => Js.throw "TypeError: Failed to fetch"
     | Js.Response true (Drafts (first :: _)) => showDraftOptionBanner first
     | Js.Response true _ => Js.emit ShowUploadInterface
     | Js.Response false _ => Js.emit ShowUploadInterface
     end)
    (fun error => Js.emit ShowUploadInterface).

(** [discardDraft]; [confirmed] is the answer to the confirmation
    dialog, and the reply that of the DELETE request. *)
Definition discardDraft (draftId : Js.value) (confirmed : bool)
           (r : Js.fetched unit) : page_act unit :=
  if negb confirmed then Js.ret tt
  else
    Js.try_catch
      (p <- Js.get ;;
       Js.emit (DeleteDraft (userId p) draftId) ;;;
       match r with
       | Js.Rejected => Js.throw "TypeError: Failed to fetch"
       | Js.Response true _ =>
           Js.emit ShowUploadInterface ;;;
           Js.emit (ShowSuccessMessage "Draft discarded successfully!")
       | Js.Response false _ => Js.throw "Failed to discard draft"
       end)
      (fun error =>
         Js.emit (ShowErrorMessage
                    "Failed to discard draft. Please try again.")).

(** The body of the reply of [/api/draft/{id}]: the id of the draft and
    the JSON text of its financial data. *)
Record LoadedDraft : Type := {
  loaded_draft_id : Js.value;
  financial_data_json : string
}.

Definition loadDraft (draftId : Js.value) (r : Js.fetched LoadedDraft)
  : page_act unit :=
  Js.try_catch
    (p <- Js.get ;;
     Js.emit (GetDraft (userId p) draftId) ;;;
     match r with
     | Js.Rejected => Js.throw "TypeError: Failed to fetch"
     | Js.Response true draft =>
         Js.emit (StorageSet "session_id" (Js.show (loaded_draft_id draft))) ;;;
         Js.emit (StorageSet "extracted_data" (financial_data_json draft)) ;;;
         Js.emit (StorageSet "is_draft" "true") ;;;
         Js.emit (GoTo "/review-form")
     | Js.Response false _ => Js.throw "Failed to load draft"
     end)
    (fun error => Js.emit (Alert "Failed to load draft. Please try again.")).

(** The effect makes the upload interface visible. *)
Definition shows_interface (e : page_effect) : bool :=
  match e with
  | ShowUploadInterface | ShowDraftOptionBanner _ => true
  | _ => false
  end.

Definition is_upload (e : page_effect) : bool :=
  match e with Upload _ _ _ _ => true | _ => false end.

Definition leaves_page (e : page_effect) : bool :=
  match e with GoTo _ => true | _ => false end.

(** The validity test of [validateFile] as a predicate on files. *)
Definition passes (limit : Z) (file : File) : bool :=
  is_pdf file && negb (limit <? size file).

Definition sample_pdf (n : string) (bytes : Z) : File :=
  {| fileName := n; type := "application/pdf"; size := bytes |}.

Definition sample_page (u : DocumentUploader.t) : page :=
  {| uploader := u; userId := "user_k3x9_m1";
     singlePasswordInput := Some ""; multiplePasswordInput := Some "s3cret";
     draftDateElement := true |}.

End DocumentUploaderPage.

(* ------------------------------------------------------------------ *)
(** ** The user id cookie: class [CookieManager] *)
(* ------------------------------------------------------------------ *)

Module CookieManager.

Definition COOKIE_NAME : string := "tax_app_user_id".
Definition COOKIE_EXPIRY_DAYS : Z := 30.

(** [s.split(sep)] for a separator of one character. *)
Fixpoint split (sep : ascii) (s : string) : list string :=
  match s with
  | EmptyString => [EmptyString]
  | String c rest =>
      if Ascii.eqb c sep then EmptyString :: split sep rest
      else
        match split sep rest with
        | piece :: pieces => String c piece :: pieces
        | [] => [String c EmptyString]
        end
  end.

(** The loop [while (c.charAt(0) === ' ') c = c.substring(1, c.length)]. *)
Fixpoint strip_spaces (c : string) : string :=
  match c with
  | String " " rest => strip_spaces rest
  | _ => c
  end.

(** The loop of [getCookie] over the pieces of the cookie string. *)
Fixpoint find_cookie (nameEQ : string) (ca : list string) : option string :=
  match ca with
  | [] => None
  | c :: rest =>
      let c' := strip_spaces c in
      if Js.starts_with nameEQ c'
      then Some (Js.drop (String.length nameEQ) c')
      else find_cookie nameEQ rest
  end.

(** [getCookie(name)], reading the given value of [document.cookie];
    [None] is null. *)
Definition getCookie (cookie name : string) : option string :=
  find_cookie (name ++ "=") (split ";" cookie).

(** [s.substr(start, count)]. *)
Fixpoint take (count : nat) (s : string) : string :=
  match count, s with
  | S n, String c rest => String c (take n rest)
  | _, _ => EmptyString
  end.

Definition substr (start count : nat) (s : string) : string :=
  take count (Js.drop start s).

(** [generateUserId]; [random36] is [Math.random().toString(36)] and
    [now36] is [Date.now().toString(36)]. *)
Definition generateUserId (random36 now36 : string) : string :=
  "user_" ++ substr 2 9 random36 ++ "_" ++ now36.

(** The assignments to [document.cookie]: a cookie with the time, in
    milliseconds, at which it expires. *)
Inductive write : Type :=
| WriteCookie (name item : string) (expires : Z).

(** [setCookie(name, value, days)] at the time [now]. *)
Definition setCookie (name item : string) (days now : Z) : write :=
  WriteCookie name item (now + days * 24 * 60 * 60 * 1000).

(** [deleteCookie(name)]: the cookie is written with an expiry at the
    epoch. *)
Definition deleteCookie (name : string) : write := WriteCookie name "" 0.

(** [getOrCreateUserId]: the id returned and the cookies written. *)
Definition getOrCreateUserId (cookie random36 now36 : string) (now : Z)
  : string * list write :=
  match getCookie cookie COOKIE_NAME with
  | Some userId =>
      if Js.str_truthy userId then (userId, [])
      else
        let fresh := generateUserId random36 now36 in
        (fresh, [setCookie COOKIE_NAME fresh COOKIE_EXPIRY_DAYS now])
  | None =>
      let fresh := generateUserId random36 now36 in
      (fresh, [setCookie COOKIE_NAME fresh COOKIE_EXPIRY_DAYS now])
  end.

Definition hasUserId (cookie : string) : bool :=
  match getCookie cookie COOKIE_NAME with Some _ => true | None => false end.

Definition getCurrentUserId (cookie : string) : option string :=
  getCookie cookie COOKIE_NAME.

Definition clearUserId : write := deleteCookie COOKIE_NAME.

(** *** The cookie string of a set of cookies *)

(** The character does not occur in the string. *)
Fixpoint free_of (c : ascii) (s : string) : Prop :=
  match s with
  | EmptyString => True
  | String d rest => d <> c /\ free_of c rest
  end.

Definition pair_text (p : string * string) : string :=
  fst p ++ "=" ++ snd p.

(** The value of [document.cookie] for the given cookies: the pairs
    [name=value], separated by a semicolon and a space. *)
Fixpoint cookie_string (jar : list (string * string)) : string :=
  match jar with
  | [] => EmptyString
  | [p] => pair_text p
  | p :: rest => pair_text p ++ "; " ++ cookie_string rest
  end.

(** The value of the first cookie of that name. *)
Fixpoint first_value (name : string) (jar : list (string * string))
  : option string :=
  match jar with
  | [] => None
  | (n, v) :: rest =>
      if String.eqb n name then Some v else first_value name rest
  end.

(** A cookie as the browser lists it: no semicolon in its name or
    value, no equals sign in its name, and no space at the start of
    its name. *)
Definition well_formed (p : string * string) : Prop :=
  free_of ";" (fst p) /\ free_of ";" (snd p) /\ free_of "=" (fst p) /\
  strip_spaces (fst p) = fst p.

End CookieManager.

(* ------------------------------------------------------------------ *)
(** ** The tax results page: class [TaxResults] *)
(* ------------------------------------------------------------------ *)

Module TaxResults.

(** The result of one regime, as far as the page reads it outside the
    procedures that only display and catch their own exceptions. *)
Record RegimeData : Type := {
  total_tax : Js.value;
  taxable_income : Js.value;
  tax_amount : Js.value;
  cess_amount : Js.value
}.

Record Comparison : Type := {
  best_regime : Js.value;
  tax_savings : Js.value
}.

(** [calculation_details]; a part that the reply lacks is [None]. *)
Record Details : Type := {
  old_regime : option RegimeData;
  new_regime : option RegimeData;
  comparison : option Comparison
}.

Record Recommendation : Type := {
  rec_type : string;
  rec_title : string;
  rec_priority : string
}.

(** The value of [recommendations.recommendations]: falsy (absent,
    null, false, 0 or the empty string); truthy without being an array,
    so that it has no [forEach]; or an array, of which an entry is
    [None] when it is null, so that reading a property of it throws. *)
Inductive RecommendationList : Type :=
| NoList
| NotAList
| ListOf (entries : list (option Recommendation)).

(** The body of the reply of [/api/calculate-tax], decoded to a value
    other than null; [recommendations] is [None] when that property is
    falsy. *)
Record Results : Type := {
  calculation_details : option Details;
  recommendations : option RecommendationList
}.

Record t : Type := {
  sessionId : Js.value;
  taxResults : option Results;
  selectedRegime : Js.value
}.

Inductive effect : Type :=
| ShowLoading
| HideLoading
| ShowErrorState (message : string)
| PostCalculateTax (session : Js.value)
| UpdateSummary (details : Details)
| UpdateRegimeCard (regime : string) (data : option RegimeData)
| SetOptionTax (element : string) (amount : Js.value)
| ClearRecommendations
| AppendRecommendation (title : string)
| AppendNoRecommendations
| CheckOption (element : string)
| AlertBox (message : string)
| PostSelectRegime (session regime : Js.value)
| SuccessMessage (message : string)
| ErrorMessage (message : string).

Definition act (A : Type) : Type := Js.M t effect A.

Definition constructor : t :=
  {| sessionId := Js.Null; taxResults := None; selectedRegime := Js.Null |}.

Definition set_sessionId (v : Js.value) (s : t) : t :=
  {| sessionId := v; taxResults := taxResults s;
     selectedRegime := selectedRegime s |}.

Definition set_taxResults (v : option Results) (s : t) : t :=
  {| sessionId := sessionId s; taxResults := v;
     selectedRegime := selectedRegime s |}.

Definition set_selectedRegime (v : Js.value) (s : t) : t :=
  {| sessionId := sessionId s; taxResults := taxResults s;
     selectedRegime := v |}.

(** [v.toLocaleString('en-IN')] exists unless [v] is null or absent. *)
Definition has_methods (v : Js.value) : bool :=
  match v with Js.Null | Js.Undefined => false | _ => true end.

(** [updateRegimeSelection(details)]: the two totals are written next to
    the options. *)
Definition updateRegimeSelection (details : Details) : act unit :=
  match old_regime details with
  | Some data =>
      if has_methods (total_tax data)
      then Js.emit (SetOptionTax "oldRegimeOptionTax" (total_tax data))
      else Js.throw "TypeError: Cannot read properties of undefined"
  | None => Js.throw "TypeError: Cannot read properties of undefined"
  end ;;;
  match new_regime details with
  | Some data =>
      if has_methods (total_tax data)
      then Js.emit (SetOptionTax "newRegimeOptionTax" (total_tax data))
      else Js.throw "TypeError: Cannot read properties of undefined"
  | None => Js.throw "TypeError: Cannot read properties of undefined"
  end.

(** The body of the loop of [updateRecommendations]. *)
Definition appendRecommendation (entry : option Recommendation) : act unit :=
  match entry with
  | Some rec => Js.emit (AppendRecommendation (rec_title rec))
  | None => Js.throw "TypeError: Cannot read properties of null"
  end.

Definition updateRecommendations (found : option RecommendationList)
  : act unit :=
  Js.emit ClearRecommendations ;;;
  match found with
  | Some (ListOf entries) => Js.for_each entries appendRecommendation
  | Some NotAList =>
      Js.throw "TypeError: recommendations.recommendations.forEach is not a function"
  | Some NoList | None => Js.emit AppendNoRecommendations
  end.

(** The radio buttons of the page: [oldRegimeOption] and
    [newRegimeOption]. *)
Definition regime_options : list string :=
  ["oldRegimeOption"; "newRegimeOption"].

(** [displayResults]. *)
Definition displayResults : act unit :=
  s <- Js.get ;;
  match taxResults s with
  | None => Js.ret tt
  | Some results =>
      match calculation_details results with
      | None => Js.throw "TypeError: Cannot read properties of undefined"
      | Some details =>
          Js.emit (UpdateSummary details) ;;;
          Js.emit (UpdateRegimeCard "old" (old_regime details)) ;;;
          Js.emit (UpdateRegimeCard "new" (new_regime details)) ;;;
          updateRegimeSelection details ;;;
          updateRecommendations (recommendations results) ;;;
          match comparison details with
          | None => Js.throw "TypeError: Cannot read properties of undefined"
          | Some c =>
              Js.modify (set_selectedRegime (best_regime c)) ;;;
              let element := Js.show (best_regime c) ++ "RegimeOption" in
              if existsb (String.eqb element) regime_options
              then Js.emit (CheckOption element)
              else Js.throw "TypeError: Cannot set properties of null"
          end
      end
  end.

(** What [/api/calculate-tax] answers: the request fails with a message;
    the status is not OK and has a status text; the status is OK and the
    body is not JSON, so that decoding it fails with a message; the body
    is [null]; or the body decodes to another value. *)
Inductive tax_reply : Type :=
| TaxRejected (message : string)
| TaxStatus (statusText : string)
| TaxNotJson (message : string)
| TaxNull
| TaxBody (results : Results).

Definition showError (message : string) : act unit :=
  Js.emit (ShowErrorState message).

Definition calculateTax (r : tax_reply) : act unit :=
  Js.try_catch
    (Js.emit ShowLoading ;;;
     s <- Js.get ;;
     Js.emit (PostCalculateTax (sessionId s)) ;;;
     match r with
     | TaxRejected message => Js.throw message
     | TaxStatus statusText =>
         Js.throw ("Tax calculation failed: " ++ statusText)
     | TaxNotJson message => Js.throw message
     | TaxNull =>
         Js.modify (set_taxResults None) ;;;
         Js.emit HideLoading ;;;
         Js.throw "TypeError: Cannot read properties of null"
     | TaxBody results =>
         Js.modify (set_taxResults (Some results)) ;;;
         Js.emit HideLoading ;;;
         match calculation_details results with
         | Some _ => displayResults
         | None =>
             Js.throw "Invalid response format: missing calculation_details"
         end
     end)
    (fun message => showError ("Tax calculation failed: " ++ message)).

(** [initializePage]; [stored] is the session id of the session
    storage. *)
Definition initializePage (stored : option string) (r : tax_reply)
  : act unit :=
  Js.try_catch
    (Js.modify (set_sessionId (match stored with
                               | Some sid => Js.Text sid
                               | None => Js.Null
                               end)) ;;;
     s <- Js.get ;;
     if negb (Js.value_truthy (sessionId s)) then
       showError "No session found. Please start from the beginning."
     else calculateTax r)
    (fun message =>
       showError "Failed to initialize page. Please try again.").

(** The change handler of the regime options. *)
Definition regimeChange (chosen : string) : act unit :=
  Js.modify (set_selectedRegime (Js.Text chosen)).

Definition saveRegimeSelection (r : Js.fetched unit) : act unit :=
  Js.try_catch
    (s <- Js.get ;;
     if negb (Js.value_truthy (selectedRegime s)) then
       Js.emit (AlertBox "Please select a tax regime first.")
     else
       Js.emit (PostSelectRegime (sessionId s) (selectedRegime s)) ;;;
       match r with
       | Js.Rejected => Js.throw "TypeError: Failed to fetch"
       | Js.Response true _ =>
           Js.emit (SuccessMessage "Regime selection saved successfully!")
       | Js.Response false _ => Js.throw "Failed to save regime selection"
       end)
    (fun message =>
       Js.emit (ErrorMessage
                  "Failed to save regime selection. Please try again.")).

Definition is_error_state (e : effect) : bool :=
  match e with ShowErrorState _ => true | _ => false end.

Definition is_request (e : effect) : bool :=
  match e with
  | PostCalculateTax _ | PostSelectRegime _ _ => true
  | _ => false
  end.

(** Both regimes are present with a total, and the comparison names
    the given regime as the best one. *)
Definition complete (results : Results) (best : Js.value) : Prop :=
  exists details old new c,
    calculation_details results = Some details /\
    old_regime details = Some old /\ has_methods (total_tax old) = true /\
    new_regime details = Some new /\ has_methods (total_tax new) = true /\
    comparison details = Some c /\ best_regime c = best.

Definition listed (entry : option Recommendation) : bool :=
  match entry with Some _ => true | None => false end.

(** The recommendations can be displayed: there are none, or they are
    an array without a null entry. *)
Definition presentable (results : Results) : bool :=
  match recommendations results with
  | Some NotAList => false
  | Some (ListOf entries) => forallb listed entries
  | Some NoList | None => true
  end.

(** What the loop of [updateRecommendations] appends for the entries
    that precede the first null one. *)
Fixpoint appended (entries : list (option Recommendation)) : list effect :=
  match entries with
  | Some rec :: rest => AppendRecommendation (rec_title rec) :: appended rest
  | _ => []
  end.

Definition sample_regime (total : Z) : RegimeData :=
  {| total_tax := Js.Number (Js.of_Z total);
     taxable_income := Js.Number (Js.of_Z 735000);
     tax_amount := Js.Number (Js.of_Z 59500);
     cess_amount := Js.Number (Js.of_Z 2380) |}.

Definition sample_results (best : Js.value) : Results :=
  {| calculation_details :=
       Some {| old_regime := Some (sample_regime 61880);
               new_regime := Some (sample_regime 75400);
               comparison := Some {| best_regime := best;
                                     tax_savings :=
                                       Js.Number (Js.of_Z 13520) |} |};
     recommendations :=
       Some (ListOf [ Some {| rec_type := "regime_choice";
                              rec_title := "Choose the old regime";
                              rec_priority := "high" |} ]) |}.

(** The same reply with a null entry among the recommendations. *)
Definition sample_results_null_entry (best : Js.value) : Results :=
  {| calculation_details := calculation_details (sample_results best);
     recommendations := Some (ListOf [None]) |}.

End TaxResults.

(* ================================================================== *)
(** * Part II: properties *)
(* ================================================================== *)

(** ** Computing with the exception monad *)

Section MonadFacts.

Context {S E : Type}.

Lemma state_of_bind {A B} (m : Js.M S E A) (k : A -> Js.M S E B) (s : S) :
  Js.state_of (Js.bind m k s) =
  match m s with
  | Js.Normal s1 _ a => Js.state_of (k a s1)
  | Js.Thrown s1 _ _ => s1
  end.
Proof.
  unfold Js.bind. destruct (m s) as [s1 l1 a | s1 l1 e]; [ | reflexivity ].
  destruct (k a s1); reflexivity.
Qed.

Lemma state_of_try_catch {A} (body : Js.M S E A)
      (handler : string -> Js.M S E A) (s : S) :
  Js.state_of (Js.try_catch body handler s) =
  match body s with
  | Js.Normal s1 _ _ => s1
  | Js.Thrown s1 _ e => Js.state_of (handler e s1)
  end.
Proof.
  unfold Js.try_catch. destruct (body s) as [s1 l1 a | s1 l1 e];
    [ reflexivity | ].
  destruct (handler e s1); reflexivity.
Qed.

Lemma state_of_try_finally {A} (body : Js.M S E A)
      (final : Js.M S E unit) (s : S) :
  Js.state_of (Js.try_finally body final s) =
  Js.state_of (final (Js.state_of (body s))).
Proof.
  unfold Js.try_finally.
  destruct (body s) as [s1 l1 a | s1 l1 e]; cbn;
    destruct (final s1); reflexivity.
Qed.

Lemma log_of_bind {A B} (m : Js.M S E A) (k : A -> Js.M S E B) (s : S) :
  Js.log_of (Js.bind m k s) =
  match m s with
  | Js.Normal s1 l1 a => (l1 ++ Js.log_of (k a s1))%list
  | Js.Thrown _ l1 _ => l1
  end.
Proof.
  unfold Js.bind. destruct (m s) as [s1 l1 a | s1 l1 e]; [ | reflexivity ].
  destruct (k a s1); reflexivity.
Qed.

Lemma log_of_try_catch {A} (body : Js.M S E A)
      (handler : string -> Js.M S E A) (s : S) :
  Js.log_of (Js.try_catch body handler s) =
  match body s with
  | Js.Normal _ l1 _ => l1
  | Js.Thrown s1 l1 e => (l1 ++ Js.log_of (handler e s1))%list
  end.
Proof.
  unfold Js.try_catch. destruct (body s) as [s1 l1 a | s1 l1 e];
    [ reflexivity | ].
  destruct (handler e s1); reflexivity.
Qed.

End MonadFacts.

(** ** The primitives at the edges of their domains *)

Section PrimitiveFacts.

(** The parsers round to the nearest double, overflow to an infinity
    and underflow to zero; they skip white space that is not ASCII. *)
Lemma parsers_round_to_doubles :
  Js.parseFloat "150000.00000000000000001" = Js.of_Z 150000 /\
  Js.parseFloat "299999.99999999999999999" = Js.of_Z 300000 /\
  Js.parseFloat "9007199254740993" = Js.of_Z 9007199254740992 /\
  Js.parseFloat "1e400" = Js.Inf false /\
  Js.parseFloat "1e-400" = Js.Fin 0 /\
  Js.parseFloat (Js.nbsp ++ "5") = Js.of_Z 5 /\
  Js.parseInt (Js.nbsp ++ "42") = Js.of_Z 42 /\
  Js.parseInt "0x1A" = Js.of_Z 26.
Proof. vm_compute. repeat split. Qed.

(** Number to string gives the shortest digits that denote the double,
    in exponent form from [1e21] on and below [1e-6]. *)
Lemma show_num_shortest_digits :
  Js.show_num (Js.parseFloat "1e21") = "1e+21" /\
  Js.show_num (Js.parseFloat "123456789012345680000") =
    "123456789012345680000" /\
  Js.show_num (Js.parseFloat "0.0000001") = "1e-7" /\
  Js.show_num (Js.parseFloat "0.000001") = "0.000001" /\
  Js.show_num (Js.parseFloat "0.1") = "0.1" /\
  Js.show_num (Js.parseFloat "0.30000000000000004") =
    "0.30000000000000004" /\
  Js.show_num (Js.parseFloat "-1200000.50") = "-1200000.5" /\
  Js.show_num (Js.parseFloat "5e-324") = "5e-324" /\
  Js.show_num (Js.parseFloat "1.7976931348623157e308") =
    "1.7976931348623157e+308".
Proof. vm_compute. repeat split. Qed.

(** [trim] removes the white space at both ends, whatever its encoded
    length, and nothing else. *)
Lemma trim_removes_white_space :
  Js.trim (Js.nbsp ++ " a b " ++ Js.nbsp) = "a b" /\
  Js.trim Js.nbsp = "" /\
  Js.trim "" = "".
Proof. vm_compute. repeat split. Qed.

End PrimitiveFacts.

(** ** The AI advisor *)

Section AdvisorFacts.

Import AIAdvisor.

(** What a turn does to the counter and to the two flags that guard it. *)
Lemma turn_outcome (a : t) (text : string) (reply : Js.fetched ProcessReply) :
  isProcessing a = false ->
  let a' := turn a text reply in
  isProcessing a' = false /\
  maxRounds a' = maxRounds a /\
  currentRound a' =
    if Js.str_truthy (Js.trim text) && accepted reply && negb (final reply)
    then round_of reply else currentRound a.
Proof.
  intros Hidle. unfold turn, submitUserResponse.
  rewrite state_of_bind. unfold Js.get.
  change (isProcessing (set_userResponse text a)) with (isProcessing a).
  rewrite Hidle.
  change (userResponse (set_userResponse text a)) with text.
  destruct (Js.str_truthy (Js.trim text)) eqn:Htext; cbn [negb andb].
  - rewrite state_of_try_finally, state_of_try_catch.
    destruct reply as [ | [ | ] data ]; cbn;
      try (destruct (success data), (is_final data)); cbn; auto.
  - cbn. auto.
Qed.

Lemma trim_nonempty_truthy (text : string) :
  Js.trim text <> "" -> Js.str_truthy (Js.trim text) = true.
Proof. destruct (Js.trim text); [ congruence | reflexivity ]. Qed.

Lemma started_outcome (found : option string)
      (first : Js.fetched StartReply) :
  isProcessing (started found first) = false /\
  maxRounds (started found first) = 4.
Proof.
  unfold started, startConversation.
  rewrite state_of_try_catch.
  destruct found as [ [ | c sid ] | ].
  - cbn. auto.
  - destruct first as [ | [ | ] data ]; cbn;
      try (destruct (start_success data)); cbn; auto.
  - cbn. auto.
Qed.

(** A turn shows a question exactly when it moves the counter. *)
Lemma turn_questions (a : t) (text : string)
      (reply : Js.fetched ProcessReply) :
  isProcessing a = false ->
  questions_in (submitUserResponse reply (set_userResponse text a)) =
    if Js.str_truthy (Js.trim text) && accepted reply && negb (final reply)
    then 1%nat else 0%nat.
Proof.
  intros Hidle. unfold questions_in, submitUserResponse, Js.bind.
  cbn [Js.get].
  change (isProcessing (set_userResponse text a)) with (isProcessing a).
  rewrite Hidle.
  change (userResponse (set_userResponse text a)) with text.
  destruct (Js.str_truthy (Js.trim text)) eqn:Htext; cbn [negb andb];
    [ | reflexivity ].
  destruct reply as [ | [ | ] data ]; cbn;
    try (destruct (success data), (is_final data)); reflexivity.
Qed.

Lemma start_questions (found : option string)
      (first : Js.fetched StartReply) :
  (questions_in (startConversation found first constructor) <= 1)%nat.
Proof.
  unfold questions_in, startConversation.
  destruct found as [ [ | c sid ] | ]; [ cbn; lia | | cbn; lia ].
  destruct first as [ | [ | ] data ]; cbn;
    try (destruct (start_success data)); cbn; lia.
Qed.

Lemma conversation_within_bound (a : t)
      (turns : list (string * Js.fetched ProcessReply)) :
  isProcessing a = false ->
  maxRounds a = 4 ->
  1 <= currentRound a <= 4 ->
  each_turn follows_protocol a turns ->
  each_turn advances_by_one a turns /\
  currentRound (conversation a turns) <= 4 /\
  maxRounds (conversation a turns) = 4 /\
  Z.of_nat (questions_asked a turns) =
    currentRound (conversation a turns) - currentRound a.
Proof.
  revert a. induction turns as [ | [text reply] rest IH ];
    intros a Hidle Hmax Hbound Hservice.
  - cbn. repeat split; lia.
  - destruct Hservice as [Hreply Hrest].
    destruct (turn_outcome a text reply Hidle) as (Hidle' & Hmax' & Hround).
    pose proof (turn_questions a text reply Hidle) as Hasked.
    rewrite Hmax in Hmax'.
    assert (Hstep : currentRound (turn a text reply) =
                    currentRound a +
                    Z.of_nat (questions_in (submitUserResponse reply
                                              (set_userResponse text a))) /\
                    1 <= currentRound (turn a text reply) <= 4).
    { rewrite Hround, Hasked.
      destruct (Js.str_truthy (Js.trim text) && accepted reply &&
                negb (final reply)) eqn:Hsent; [ | cbn; lia ].
      apply andb_prop in Hsent. destruct Hsent as [Hsent Hfinal].
      apply andb_prop in Hsent. destruct Hsent as [_ Haccepted].
      apply negb_true_iff in Hfinal.
      destruct (Hreply Haccepted Hfinal) as [Hlt Heq]. cbn. lia. }
    destruct Hstep as [Hstep Hnext].
    destruct (IH (turn a text reply) Hidle' Hmax' Hnext Hrest)
      as (Hsteps & Hend & Hmaxend & Hcount).
    cbn [each_turn conversation questions_asked].
    repeat split; try assumption; try lia.
    intros Htext Haccepted. rewrite Hround.
    rewrite (trim_nonempty_truthy text Htext), Haccepted. cbn [andb].
    destruct (final reply) eqn:Hfinal; cbn [negb]; [ reflexivity | ].
    destruct (Hreply Haccepted Hfinal) as [_ Heq]. exact Heq.
Qed.

(** C1, as stated, fails.  The page takes the number of the round from
    the reply of the advisory service: after the accepted answer to
    question 1, a reply that announces question 7 leaves the counter
    at 7, above the bound of 4 and not one more than before. *)
Lemma advisor_round_taken_from_reply :
  let a := started (Some "session-1")
             (Js.Response true {| start_success := true; start_round := 1;
                                  start_question := "Do you pay rent?" |}) in
  let reply := Js.Response true
             {| success := true; is_final := false; round := 7;
                question := "Any home loan?"; conversation_summary := "" |} in
  let a' := conversation a [("Yes, in Pune", reply)] in
  currentRound a = 1 /\ maxRounds a = 4 /\ accepted reply = true /\
  currentRound a' = 7 /\
  ~ currentRound a' <= maxRounds a' /\
  currentRound a' <> currentRound a + 1.
Proof.
  cbv zeta. repeat apply conj; try (vm_compute; reflexivity).
  - vm_compute. intro H. apply H. reflexivity.
  - vm_compute. intro H. discriminate H.
Qed.

(** C1, amended.  In every conversation that starts at a round between
    1 and 4 and in which the advisory service answers the request for
    round [r] either with the final recommendations or, while [r < 4],
    with question [r + 1], the round counter stays between 1 and 4 and
    no more than 4 questions are shown; each answer that is sent and
    accepted leaves the counter unchanged when it is the final one and
    raises it by exactly 1 otherwise. *)
Theorem advisor_rounds_follow_service (found : option string)
        (first : Js.fetched StartReply)
        (turns : list (string * Js.fetched ProcessReply)) :
  1 <= currentRound (started found first) <= 4 ->
  each_turn follows_protocol (started found first) turns ->
  each_turn advances_by_one (started found first) turns /\
  1 <= currentRound (conversation (started found first) turns) <= 4 /\
  maxRounds (conversation (started found first) turns) = 4 /\
  (questions_shown found first turns <= 4)%nat.
Proof.
  intros Hstart Hservice.
  destruct (started_outcome found first) as [Hidle Hmax].
  destruct (conversation_within_bound (started found first) turns
              Hidle Hmax Hstart Hservice)
    as (Hsteps & Hend & Hmaxend & Hcount).
  pose proof (start_questions found first) as Hfirst.
  unfold questions_shown. repeat split; try assumption; lia.
Qed.

Lemma advisor_rounds_follow_service_witness :
  (questions_shown (Some "session-1") sample_start sample_turns <= 4)%nat.
Proof.
  refine (proj2 (proj2 (proj2 (advisor_rounds_follow_service
                          (Some "session-1") sample_start sample_turns _ _)))).
  - vm_compute. split; intro H; discriminate H.
  - cbn [each_turn sample_turns]. unfold follows_protocol.
    repeat split; vm_compute; intros; try discriminate; auto.
Defined.

End AdvisorFacts.

(** ** The review form *)

Section ReviewFacts.

Import FinancialDataReview.

(** *** Class lists *)

Lemma has_class_add (c : string) (l : list string) :
  has_class c (add_class c l) = true.
Proof.
  unfold add_class. destruct (has_class c l) eqn:H; [ exact H | ].
  unfold has_class. rewrite existsb_app. cbn. rewrite String.eqb_refl.
  apply orb_true_iff. right. reflexivity.
Qed.

Lemma has_class_add_other (c d : string) (l : list string) :
  String.eqb c d = false -> has_class c (add_class d l) = has_class c l.
Proof.
  intros Hcd. unfold add_class. destruct (has_class d l); [ reflexivity | ].
  unfold has_class. rewrite existsb_app. cbn. rewrite Hcd.
  rewrite !orb_false_r. reflexivity.
Qed.

Lemma has_class_remove (c : string) (l : list string) :
  has_class c (remove_class c l) = false.
Proof.
  unfold has_class, remove_class. induction l as [ | x l IH ]; cbn.
  - reflexivity.
  - destruct (String.eqb c x) eqn:H; cbn; [ exact IH | ].
    rewrite H. exact IH.
Qed.

Lemma has_class_remove_other (c d : string) (l : list string) :
  String.eqb d c = false -> has_class c (remove_class d l) = has_class c l.
Proof.
  intros Hdc. unfold has_class, remove_class.
  induction l as [ | x l IH ]; cbn.
  - reflexivity.
  - destruct (String.eqb d x) eqn:H; cbn.
    + rewrite IH. apply String.eqb_eq in H. subst x.
      rewrite String.eqb_sym, Hdc. reflexivity.
    + rewrite IH. reflexivity.
Qed.

Lemma clear_marks_error (l : list string) :
  has_class "error" (clear_marks l) = false.
Proof.
  unfold clear_marks. rewrite has_class_remove_other by reflexivity.
  apply has_class_remove.
Qed.

Lemma clear_marks_success (l : list string) :
  has_class "success" (clear_marks l) = false.
Proof. unfold clear_marks. apply has_class_remove. Qed.

(** *** validateField *)

(** The [switch] completes whenever the page has a gross salary control;
    it leaves the control alone and produces a message exactly for the
    rejected values. *)
Lemma field_rule_verdict (g : string) (f s : Field) :
  exists verdict,
    field_rule (Some g) f s = Js.Normal s [] verdict /\
    is_some verdict = rejects g f.
Proof.
  unfold field_rule, rejects.
  repeat match goal with
  | |- context [String.eqb (name f) ?n] =>
      destruct (String.eqb (name f) n) eqn:?
  end; cbn [andb orb];
  repeat match goal with
  | H : String.eqb (name f) _ = true |- _ => apply String.eqb_eq in H
  end;
  try congruence;
  match goal with
  | |- exists v, Js.ret (if ?c then _ else _) _ = _ /\ _ =>
      destruct c; eexists; split; reflexivity
  | |- _ => eexists; split; reflexivity
  end.
Qed.

(** The control after [validateField], as far as its own class list
    goes. *)
Lemma validateField_classList (g : string) (f : Field) :
  classList (Js.state_of (validateField (Some g) f)) =
  add_class (if rejects g f then "error" else "success")
            (clear_marks (classList f)).
Proof.
  unfold validateField.
  repeat (rewrite state_of_bind; cbn [Js.modify Js.get]).
  set (f1 := map_wrapper _ _).
  destruct (field_rule_verdict g f1 f1) as (verdict & Hrun & Hverdict).
  rewrite Hrun.
  change (rejects g f1) with (rejects g f) in Hverdict.
  rewrite <- Hverdict.
  destruct verdict as [ message | ]; cbn [is_some].
  - repeat (rewrite state_of_bind; cbn [Js.modify Js.get]).
    destruct (formField f) as [ w | ] eqn:Hw; subst f1;
      unfold map_wrapper, set_formField, set_classList; cbn;
      rewrite ?Hw; cbn; reflexivity.
  - repeat (rewrite state_of_bind; cbn [Js.modify Js.get]).
    reflexivity.
Qed.

(** A rejected control whose form field has a help element ends up
    showing its error. *)
Lemma validateField_shows_error (g : string) (f : Field) (w : FormField)
      (h : HelpText) :
  formField f = Some w -> fieldHelp w = Some h -> rejects g f = true ->
  shows_error (Js.state_of (validateField (Some g) f)) = true.
Proof.
  intros Hw Hh Hrejected.
  destruct f as [ i n v cl ff ]. cbn in Hw. subst ff.
  destruct w as [ wc fh ]. cbn in Hh. subst fh.
  unfold validateField, Js.bind, Js.modify, Js.get.
  cbn -[field_rule add_class clear_marks has_class].
  match goal with
  | |- context [field_rule (Some g) ?x ?y] =>
      destruct (field_rule_verdict g x y) as (verdict & Hrun & Hverdict);
      rewrite Hrun;
      change (rejects g x) with
        (rejects g {| id := i; name := n; value := v; classList := cl;
                      formField := Some {| wrapperClasses := wc;
                                           fieldHelp := Some h |} |})
        in Hverdict
  end.
  rewrite Hrejected in Hverdict.
  destruct verdict as [ message | ]; [ | discriminate Hverdict ].
  unfold shows_error. cbn -[add_class clear_marks has_class].
  rewrite has_class_add. reflexivity.
Qed.

(** The values that [validateField] and [getFormData] compare and send
    are the doubles that the parsers read: a value that rounds to a cap
    is not above it, one that rounds to 300000 is not below it, one that
    underflows is zero, and one that overflows is an infinity. *)
Lemma controls_are_read_as_doubles :
  rejects "1200000"
    (control "deduction80c" "deduction_80c" "150000.00000000000000001")
    = false /\
  rejects "1200000"
    (control "deduction80c" "deduction_80c" "150000.0000000001") = true /\
  rejects "299999.99999999999999999"
    (control "grossSalary" "gross_salary" "299999.99999999999999999")
    = false /\
  required_missing
    (set_fields [control "basicSalary" "basic_salary" "1e-400"]
                (page_with_help (Js.Text "3f2a"))) "basic_salary" = true /\
  (let s := sample_form (Js.nbsp ++ "42") Js.nbsp "1e400" "1e-400" None in
   property "age" (getFormData s) = Js.Number (Js.of_Z 42) /\
   property "other_deductions" (getFormData s) = Js.Null /\
   property "other_income" (getFormData s) = Js.Number (Js.Inf false) /\
   property "tds" (getFormData s) = Js.Number (Js.Fin 0)).
Proof. vm_compute. repeat split. Qed.

(** C4, as stated, fails.  A gross salary of 250000 violates none of the
    declared range constraints, and [validateField] marks the control
    as an error, not as a success. *)
Lemma validateField_rejects_outside_declared_ranges :
  let f := control "grossSalary" "gross_salary" "250000" in
  let f' := Js.state_of (validateField (Some "250000") f) in
  violates_declared_range "250000" f = false /\
  has_class "error" (classList f') = true /\
  has_class "success" (classList f') = false.
Proof. vm_compute. repeat split. Qed.

(** C4, amended.  On a page that has a gross salary control,
    [validateField] marks the control as an error exactly when the age
    is outside 18..100, the financial year is not of the form YYYY-YY,
    the gross salary is below 300000, the basic salary is strictly
    greater than the gross salary, or a deduction is above its cap
    (80C 150000, 80D 25000, 80DD 125000, 80E 40000, 80TTA 10000, home
    loan interest 200000); otherwise it marks the control as a
    success. *)
Theorem validateField_marks_error_iff_rejected (g : string) (f : Field) :
  has_class "error" (classList (Js.state_of (validateField (Some g) f))) =
    rejects g f /\
  has_class "success" (classList (Js.state_of (validateField (Some g) f))) =
    negb (rejects g f).
Proof.
  rewrite validateField_classList.
  destruct (rejects g f); cbn [negb]; split.
  - apply has_class_add.
  - rewrite has_class_add_other by reflexivity. apply clear_marks_success.
  - rewrite has_class_add_other by reflexivity. apply clear_marks_error.
  - apply has_class_add.
Qed.

(** Whatever else is on the page, [validateField] marks a gross salary
    control whose value, as [parseFloat] reads it, is below 300000 as an
    error: the control gets the error class and not the success class,
    and so does its form field when it has one. *)
Lemma validateField_gross_salary_below_300000
        (gross : option string) (f : Field) :
  name f = "gross_salary" ->
  Js.lt (Js.or_zero (Js.parseFloat (value f))) (Js.of_Z 300000) = true ->
  has_class "error" (classList (Js.state_of (validateField gross f))) = true /\
  has_class "success" (classList (Js.state_of (validateField gross f)))
    = false /\
  (formField f <> None ->
   is_error_field (Js.state_of (validateField gross f)) = true).
Proof.
  intros Hname Hlow.
  destruct f as [ i n v cl ff ]. cbn in Hname, Hlow. subst n.
  unfold validateField, Js.bind, Js.modify, Js.get.
  cbn -[Js.parseFloat Js.lt Js.or_zero Js.of_Z add_class clear_marks
        has_class].
  rewrite Hlow.
  destruct ff as [ w | ];
    cbn -[Js.parseFloat Js.lt Js.or_zero Js.of_Z add_class clear_marks
          has_class].
  - repeat split.
    + apply has_class_add.
    + rewrite has_class_add_other by reflexivity. apply clear_marks_success.
    + intros _. unfold is_error_field. cbn -[add_class clear_marks has_class].
      apply has_class_add.
  - repeat split.
    + apply has_class_add.
    + rewrite has_class_add_other by reflexivity. apply clear_marks_success.
    + intros Habsent. contradiction Habsent. reflexivity.
Qed.

Lemma validateField_gross_salary_below_300000_witness :
  has_class "error"
    (classList
       (Js.state_of
          (validateField None
             (control "grossSalary" "gross_salary" "299999.99")))) = true.
Proof.
  refine (proj1 (validateField_gross_salary_below_300000 None
                   (control "grossSalary" "gross_salary" "299999.99") _ _)).
  - reflexivity.
  - vm_compute. reflexivity.
Defined.

(** *** submitForm *)

Lemma showValidationMessages_run (s : t) :
  showValidationMessages s =
  Js.Normal
    (if blocked s
     then set_validation true (field_errors s ++ required_errors s) s
     else set_validation false (validationList s) s)
    [] (negb (blocked s)).
Proof.
  unfold showValidationMessages, blocked, Js.bind, Js.get, Js.modify, Js.ret.
  destruct (0 <? length (field_errors s ++ required_errors s))%nat;
    reflexivity.
Qed.

(** When the validation messages are not empty, [submitForm] stops
    before doing anything else. *)
Lemma submitForm_blocked (r : reply) (s : t) :
  blocked s = true -> Js.log_of (submitForm r s) = [].
Proof.
  intros Hblocked. unfold submitForm, Js.try_catch, Js.bind.
  rewrite showValidationMessages_run, Hblocked. reflexivity.
Qed.

Lemma shows_error_collected (l : list Field) :
  existsb shows_error l = true ->
  (0 <? length
          (flat_map
             (fun w => match fieldHelp w with
                       | Some helpText =>
                           if String.eqb (color helpText) "rgb(220, 53, 69)"
                           then [textContent helpText] else []
                       | None => []
                       end)
             (flat_map
                (fun f => match formField f with
                          | Some w => if has_class "error" (wrapperClasses w)
                                      then [w] else []
                          | None => []
                          end) l)))%nat = true.
Proof.
  induction l as [ | f l IH ]; cbn [existsb flat_map]; [ discriminate | ].
  intros H. rewrite flat_map_app, length_app.
  apply orb_true_iff in H. destruct H as [H | H].
  - unfold shows_error in H.
    destruct (formField f) as [ w | ]; [ | discriminate H ].
    apply andb_prop in H. destruct H as [Hmark Hhelp].
    rewrite Hmark. cbn [flat_map]. rewrite app_nil_r.
    destruct (fieldHelp w) as [ h | ]; [ | discriminate Hhelp ].
    rewrite Hhelp. reflexivity.
  - specialize (IH H). apply Nat.ltb_lt in IH. apply Nat.ltb_lt. lia.
Qed.

Lemma shows_error_blocks (s : t) :
  existsb shows_error (fields s) = true -> blocked s = true.
Proof.
  intros H. unfold blocked, field_errors, errorFields.
  apply shows_error_collected in H. apply Nat.ltb_lt in H.
  apply Nat.ltb_lt. rewrite length_app. lia.
Qed.


(** On a page whose controls all have a help element the same defect
    shows when an error goes stale: the basic salary of 600000 was
    typed, and passed, under a gross salary of 1200000; the user then
    lowers the gross salary to 500000, and only the gross salary is
    validated again.  No form field is marked, the submit button is
    enabled, and [submitForm] sends a profile whose basic salary the
    rule of [validateField] rejects. *)
Lemma submitForm_sends_basic_salary_above_gross :
  let s0 := sample_form "30" "" "" "0" None in
  let s1 := Js.state_of (inputEvent 3 "600000" s0) in
  let s := Js.state_of (inputEvent 2 "500000" s1) in
  existsb is_error_field (fields s) = false /\
  submitDisabled s = false /\
  option_map (rejects "500000") (getElementById "basicSalary" s) =
    Some true /\
  Js.log_of (submitForm (Js.Response true (Js.Json (Js.Text "3f2a"))) s) =
    [ Fetch "POST" "/api/submit-financials" (getFormData s);
      SessionStorageSet "session_id" "3f2a";
      Navigate "/tax-results" ] /\
  property "gross_salary" (getFormData s) = Js.Number (Js.of_Z 500000) /\
  property "basic_salary" (getFormData s) = Js.Number (Js.of_Z 600000).
Proof. vm_compute. repeat split. Qed.


(** For every form state in which at least one form field carries the
    error mark together with a help element in the error colour, which
    is how [validateField] leaves a rejected control whose form field
    has a help element, [submitForm] does not send the profile to
    [/api/submit-financials]. *)
Lemma submitForm_keeps_shown_errors_back (r : reply) (s : t) :
  existsb shows_error (fields s) = true ->
  existsb is_submission (Js.log_of (submitForm r s)) = false.
Proof.
  intros H. rewrite submitForm_blocked; [ reflexivity | ].
  apply shows_error_blocks. exact H.
Qed.

Lemma submitForm_keeps_shown_errors_back_witness :
  existsb is_submission
    (Js.log_of
       (submitForm (Js.Response true (Js.Json (Js.Text "3f2a")))
          (Js.state_of
             (inputEvent 2 "200000" (page_with_help (Js.Text "3f2a"))))))
  = false.
Proof.
  apply submitForm_keeps_shown_errors_back. vm_compute. reflexivity.
Defined.

(** The session test of [submitForm] cannot be passed without a usable
    session id, so no request is sent then. *)
Lemma submitForm_missing_session_sends_nothing (r : reply) (s : t) :
  session_missing (sessionId s) = true ->
  existsb is_submission (Js.log_of (submitForm r s)) = false.
Proof.
  intros Hmissing. unfold submitForm, Js.try_catch, Js.bind.
  rewrite showValidationMessages_run.
  destruct (blocked s); cbn [negb]; [ reflexivity | ].
  cbn [Js.get sessionId set_validation].
  destruct (sessionId s) as [ | | b | n | text ]; try discriminate Hmissing;
    try reflexivity.
  cbn [session_missing] in Hmissing.
  cbn [Js.is_text Js.value_truthy].
  apply orb_true_iff in Hmissing. destruct Hmissing as [H | H]; rewrite H.
  - rewrite orb_true_r. reflexivity.
  - rewrite !orb_true_r. reflexivity.
Qed.

(** No run of [submitForm] schedules or performs the redirect to the
    start page. *)
Lemma submitForm_never_redirects_to_start (r : reply) (s : t) :
  existsb is_redirect_to_start (Js.log_of (submitForm r s)) = false.
Proof.
  unfold submitForm, Js.try_catch, Js.bind.
  rewrite showValidationMessages_run.
  destruct (blocked s); cbn [negb]; [ reflexivity | ].
  cbn [Js.get sessionId set_validation].
  destruct (negb (Js.value_truthy (sessionId s)) ||
            Js.is_text "undefined" (sessionId s) ||
            Js.is_text "null" (sessionId s)); [ reflexivity | ].
  destruct r as [ | [ | ] [ | | body ] ]; reflexivity.
Qed.

(** C7, at the failing input: the controls pass and the stored session
    id is null.  [submitForm] sends nothing, but the method it calls to
    report the expired session, [showErrorMessage], is not a method of
    the class; the call throws, the handler reports a failed
    submission, and the redirect to the start page is never
    scheduled. *)
Theorem submitForm_missing_session_fails_without_redirect (r : reply) :
  session_missing (sessionId (page_with_help Js.Null)) = true /\
  method "showErrorMessage" message_methods = None /\
  Js.log_of (submitForm r (page_with_help Js.Null)) =
    [Notify Failure "Failed to submit form. Please try again."].
Proof. repeat split. Qed.

(** *** populateForm *)

Lemma field_rule_state (gross : option string) (f s : Field) :
  Js.state_of (field_rule gross f s) = s.
Proof.
  unfold field_rule.
  repeat match goal with
  | |- context [String.eqb (name f) ?n] => destruct (String.eqb (name f) n)
  end; try reflexivity.
  destruct gross; reflexivity.
Qed.

(** [validateField] touches the marks and the help text only. *)
Lemma validateField_keeps (gross : option string) (f : Field) :
  id (Js.state_of (validateField gross f)) = id f /\
  value (Js.state_of (validateField gross f)) = value f.
Proof.
  unfold validateField, Js.bind, Js.modify, Js.get.
  cbn -[field_rule add_class clear_marks].
  match goal with
  | |- context [field_rule gross ?x ?y] =>
      pose proof (field_rule_state gross x y) as Hstate;
      destruct (field_rule gross x y) as [ s1 l1 verdict | s1 l1 e ]
  end; cbn [Js.state_of] in Hstate; subst s1.
  - destruct verdict as [ message | ];
      cbn -[add_class clear_marks];
      destruct (formField f); cbn -[add_class clear_marks]; auto.
  - cbn. auto.
Qed.

Lemma replace_nth_ids (i : nat) (f' : Field) (l : list Field) (f : Field) :
  nth_error l i = Some f -> id f' = id f ->
  map id (replace_nth i f' l) = map id l.
Proof.
  revert i. induction l as [ | x l IH ]; intros [ | i ] Hnth Hid;
    cbn in *; try discriminate.
  - injection Hnth as ->. rewrite Hid. reflexivity.
  - rewrite (IH i Hnth Hid). reflexivity.
Qed.

Lemma replace_nth_same (i : nat) (f' : Field) (l : list Field) (f : Field) :
  nth_error l i = Some f -> nth_error (replace_nth i f' l) i = Some f'.
Proof.
  revert i. induction l as [ | x l IH ]; intros [ | i ] Hnth;
    cbn in *; try discriminate; auto.
Qed.

Lemma replace_nth_other (i j : nat) (f' : Field) (l : list Field) :
  i <> j -> nth_error (replace_nth i f' l) j = nth_error l j.
Proof.
  revert i j. induction l as [ | x l IH ]; intros [ | i ] [ | j ] Hij;
    cbn; try reflexivity; try congruence.
  apply IH. congruence.
Qed.

Lemma find_index_by_ids (fieldId : string) (l l' : list Field) :
  map id l = map id l' ->
  find_index (fun f => String.eqb (id f) fieldId) l =
  find_index (fun f => String.eqb (id f) fieldId) l'.
Proof.
  revert l'. induction l as [ | x l IH ]; intros [ | y l' ] H;
    cbn in *; try discriminate; [ reflexivity | ].
  injection H as Hxy Hrest. rewrite Hxy, (IH l' Hrest). reflexivity.
Qed.

Lemma find_index_id (fieldId : string) (l : list Field) (i : nat) :
  find_index (fun f => String.eqb (id f) fieldId) l = Some i ->
  exists f, nth_error l i = Some f /\ id f = fieldId.
Proof.
  revert i. induction l as [ | x l IH ]; intros i H; cbn in H;
    [ discriminate | ].
  destruct (String.eqb (id x) fieldId) eqn:Hx.
  - injection H as <-. exists x. split; [ reflexivity | ].
    apply String.eqb_eq. exact Hx.
  - destruct (find_index _ l) as [ j | ] eqn:Hj; [ | discriminate ].
    injection H as <-. destruct (IH j eq_refl) as (f & Hf & Hid).
    exists f. auto.
Qed.

(** The fields of the page after the two steps that [populate_entry]
    takes on the [i]-th control. *)
Lemma populate_entry_found (data : list (string * Js.value))
      (key fieldId : string) (s : t) (i : nat) (f : Field) :
  find_index (fun f => String.eqb (id f) fieldId) (fields s) = Some i ->
  nth_error (fields s) i = Some f ->
  is_undefined (property key data) = false ->
  exists f',
    fields (Js.state_of (populate_entry data (key, fieldId) s)) =
      replace_nth i f' (fields s) /\
    id f' = id f /\ value f' = rendered key (property key data).
Proof.
  intros Hfind Hnth Hdefined.
  unfold populate_entry. rewrite state_of_bind. cbn [Js.get].
  rewrite Hfind, Hdefined. cbn [negb].
  rewrite state_of_bind.
  unfold with_field at 1. rewrite Hnth. cbn [Js.modify].
  set (f1 := set_value (rendered key (property key data)) f).
  set (s1 := set_fields (replace_nth i f1 (fields s)) s).
  rewrite state_of_bind.
  unfold validateFieldAt. unfold Js.bind at 1. cbn [Js.get].
  set (gross := option_map value (getElementById "grossSalary" s1)).
  unfold with_field.
  assert (Hnth1 : nth_error (fields s1) i = Some f1).
  { subst s1. cbn [fields set_fields]. eapply replace_nth_same. exact Hnth. }
  rewrite Hnth1.
  destruct (validateField_keeps gross f1) as [Hid Hvalue].
  exists (Js.state_of (validateField gross f1)).
  split; [ | split ].
  - destruct (validateField gross f1) as [ f2 l2 ok | f2 l2 e ];
      cbn [Js.state_of Js.ret fields set_fields];
      subst s1; cbn [fields set_fields];
      clear; revert i; induction (fields s) as [ | x l IH ];
      intros [ | i ]; cbn; try reflexivity; rewrite IH; reflexivity.
  - rewrite Hid. reflexivity.
  - rewrite Hvalue. reflexivity.
Qed.

(** One entry of the mapping changes no id, and no value other than
    that of the control it names. *)
Lemma populate_entry_frame (data : list (string * Js.value))
      (entry : string * string) (s : t) :
  ids (Js.state_of (populate_entry data entry s)) = ids s /\
  forall fieldId i,
    find_index (fun f => String.eqb (id f) fieldId) (fields s) = Some i ->
    snd entry <> fieldId ->
    value_at i (Js.state_of (populate_entry data entry s)) = value_at i s.
Proof.
  destruct entry as [key fid].
  destruct (find_index (fun f => String.eqb (id f) fid) (fields s))
    as [ j | ] eqn:Hfind.
  - destruct (is_undefined (property key data)) eqn:Hdefined.
    + unfold populate_entry. rewrite state_of_bind. cbn [Js.get].
      rewrite Hfind, Hdefined. cbn. auto.
    + destruct (find_index_id fid (fields s) j Hfind) as (f & Hnth & Hid).
      destruct (populate_entry_found data key fid s j f Hfind Hnth Hdefined)
        as (f' & Hfields & Hid' & _).
      unfold ids, value_at. rewrite Hfields. split.
      * eapply replace_nth_ids; eassumption.
      * intros fieldId i Hi Hother. cbn [snd] in Hother.
        destruct (find_index_id fieldId (fields s) i Hi) as (fi & Hnthi & Hidi).
        rewrite replace_nth_other; [ reflexivity | ].
        intros ->. congruence.
  - unfold populate_entry. rewrite state_of_bind. cbn [Js.get].
    rewrite Hfind. cbn. auto.
Qed.

Lemma populate_loop_frame (data : list (string * Js.value))
      (entries : list (string * string)) (s : t) :
  ids (Js.state_of (Js.for_each entries (populate_entry data) s)) = ids s /\
  forall fieldId i,
    find_index (fun f => String.eqb (id f) fieldId) (fields s) = Some i ->
    Forall (fun entry => snd entry <> fieldId) entries ->
    value_at i (Js.state_of (Js.for_each entries (populate_entry data) s)) =
    value_at i s.
Proof.
  revert s. induction entries as [ | entry rest IH ]; intros s.
  - cbn. auto.
  - cbn [Js.for_each]. rewrite state_of_bind.
    destruct (populate_entry_frame data entry s) as [Hids Hvalues].
    destruct (populate_entry data entry s) as [ s1 l1 [] | s1 l1 e ];
      cbn [Js.state_of] in Hids, Hvalues.
    + destruct (IH s1) as [Hids1 Hvalues1]. split.
      * rewrite Hids1. exact Hids.
      * intros fieldId i Hi Hrest. inversion Hrest as [ | ? ? Hhead Htail ].
        subst. transitivity (value_at i s1).
        -- apply (Hvalues1 fieldId i); [ | exact Htail ].
           rewrite <- Hi. apply find_index_by_ids. exact Hids.
        -- apply (Hvalues fieldId i); assumption.
    + split; [ exact Hids | ].
      intros fieldId i Hi Hrest. inversion Hrest; subst.
      apply (Hvalues fieldId i); assumption.
Qed.

Lemma for_each_app_normal {S E A : Type} (body : A -> Js.M S E unit)
      (a b : list A) (s s' : S) (l : list E) :
  Js.for_each (a ++ b) body s = Js.Normal s' l tt ->
  exists s1 l1 l2,
    Js.for_each a body s = Js.Normal s1 l1 tt /\
    Js.for_each b body s1 = Js.Normal s' l2 tt.
Proof.
  revert s l. induction a as [ | x a IH ]; intros s l H.
  - exists s, [], l. split; [ reflexivity | exact H ].
  - cbn [app Js.for_each] in H. unfold Js.bind in H.
    cbn [Js.for_each]. unfold Js.bind.
    destruct (body x s) as [ s0 l0 [] | s0 l0 e ]; [ | discriminate H ].
    destruct (Js.for_each (a ++ b) body s0) as [ s2 l2 [] | s2 l2 e ] eqn:Hrest;
      [ | discriminate H ].
    injection H as <- <-.
    destruct (IH s0 l2 Hrest) as (s1 & l1 & l3 & Ha & Hb).
    exists s1, (l0 ++ l1)%list, l3. rewrite Ha. auto.
Qed.

(** When [populateForm] runs to its end, the control of an optional
    amount whose stored value is the number 0 ends up empty. *)
Lemma populateForm_zero_rendered_empty (s s' : t) (log : list effect)
      (data : list (string * Js.value)) (key fieldId : string) (i : nat) :
  extractedData s = Some data ->
  In (key, fieldId) fieldMappings ->
  is_optional key = true ->
  is_number_zero (property key data) = true ->
  find_index (fun f => String.eqb (id f) fieldId) (fields s) = Some i ->
  populateForm s = Js.Normal s' log tt ->
  value_at i s' = Some "".
Proof.
  intros Hdata Hin Hoptional Hzero Hfind Hrun.
  assert (Hdefined : is_undefined (property key data) = false).
  { destruct (property key data); try discriminate Hzero; reflexivity. }
  assert (Hrendered : rendered key (property key data) = "").
  { unfold rendered. rewrite Hoptional, Hzero. reflexivity. }
  assert (Hsplit : exists before after,
             fieldMappings = (before ++ (key, fieldId) :: after)%list /\
             Forall (fun entry => snd entry <> fieldId) after).
  { cbn in Hin.
    repeat (destruct Hin as [Hin | Hin];
            [ injection Hin as <- <-; try discriminate Hoptional | ]);
      try contradiction.
    - exists (firstn 14 fieldMappings), (skipn 15 fieldMappings).
      split; [ reflexivity | ].
      repeat constructor; cbn; discriminate.
    - exists (firstn 15 fieldMappings), (skipn 16 fieldMappings).
      split; [ reflexivity | ].
      repeat constructor; cbn; discriminate. }
  destruct Hsplit as (before & after & Hmappings & Hafter).
  unfold populateForm, Js.bind in Hrun. cbn [Js.get] in Hrun.
  rewrite Hdata, Hmappings in Hrun.
  destruct (Js.for_each (before ++ (key, fieldId) :: after)
                        (populate_entry data) s)
    as [ s3 l3 [] | s3 l3 e ] eqn:Hloop; [ | discriminate Hrun ].
  assert (Hs' : fields s' = fields s3).
  { unfold updateFormValidation, Js.bind in Hrun. cbn in Hrun.
    injection Hrun as <- _. reflexivity. }
  unfold value_at. rewrite Hs'. fold (value_at i s3).
  destruct (for_each_app_normal _ _ _ _ _ _ Hloop)
    as (s1 & l1 & l2 & Hbefore & Hrest).
  cbn [Js.for_each] in Hrest. unfold Js.bind in Hrest.
  destruct (populate_entry data (key, fieldId) s1)
    as [ s2 l2' [] | s2 l2' e ] eqn:Hentry; [ | discriminate Hrest ].
  destruct (Js.for_each after (populate_entry data) s2)
    as [ s3' l3' [] | s3' l3' e ] eqn:Hafterrun; [ | discriminate Hrest ].
  injection Hrest as <- _.
  (* the ids, and so the index of the control, are those of [s] *)
  destruct (populate_loop_frame data before s) as [Hids1 _].
  rewrite Hbefore in Hids1. cbn [Js.state_of] in Hids1.
  assert (Hfind1 : find_index (fun f => String.eqb (id f) fieldId) (fields s1)
                   = Some i).
  { rewrite <- Hfind. apply find_index_by_ids. exact Hids1. }
  destruct (find_index_id fieldId (fields s1) i Hfind1) as (f & Hnth & Hid).
  destruct (populate_entry_found data key fieldId s1 i f Hfind1 Hnth Hdefined)
    as (f' & Hfields & Hid' & Hvalue).
  rewrite Hentry in Hfields. cbn [Js.state_of] in Hfields.
  assert (Hfind2 : find_index (fun f => String.eqb (id f) fieldId) (fields s2)
                   = Some i).
  { rewrite <- Hfind1. apply find_index_by_ids. rewrite Hfields.
    eapply replace_nth_ids; eassumption. }
  destruct (populate_loop_frame data after s2) as [_ Hvalues].
  specialize (Hvalues fieldId i Hfind2 Hafter).
  rewrite Hafterrun in Hvalues. cbn [Js.state_of] in Hvalues.
  rewrite Hvalues. unfold value_at. rewrite Hfields.
  rewrite (replace_nth_same i f' (fields s1) f Hnth). cbn [option_map].
  rewrite Hvalue, Hrendered. reflexivity.
Qed.

(** *** getFormData *)

Lemma property_of_fields (g : string -> Js.value) (names : list string)
      (rest : list (string * Js.value)) (n : string) :
  In n names ->
  property n (map (fun k => (k, g k)) names ++ rest) = g n.
Proof.
  induction names as [ | k names IH ]; intros Hin; [ contradiction | ].
  cbn [map app property].
  destruct (String.eqb k n) eqn:Hk.
  - apply String.eqb_eq in Hk. subst k. reflexivity.
  - destruct Hin as [-> | Hin]; [ | exact (IH Hin) ].
    rewrite String.eqb_refl in Hk. discriminate Hk.
Qed.

Lemma property_getFormData (s : t) (n : string) :
  In n fieldNames -> property n (getFormData s) = serialized s n.
Proof. intros Hin. unfold getFormData. apply property_of_fields. exact Hin. Qed.

(** An empty input is an unparseable one, and a blank one. *)
Lemma empty_input_unparseable :
  Js.parseFloat "" = Js.NaN /\ Js.parseInt "" = Js.NaN /\ Js.trim "" = "".
Proof. repeat split. Qed.

(** C8, as stated, fails.  The age is a numeric field other than the two
    optional amounts, and [getFormData] serializes its empty input as
    null, not as 0. *)
Lemma getFormData_empty_age_is_null :
  let s := sample_form "" "" "" "" None in
  In "age" fieldNames /\ is_optional "age" = false /\
  property "age" (getFormData s) = Js.Null /\
  property "age" (getFormData s) <> Js.Number (Js.Fin 0).
Proof.
  cbv zeta. split; [ | split; [ | split ] ].
  - cbn. tauto.
  - reflexivity.
  - reflexivity.
  - vm_compute. discriminate.
Qed.

(** C8, amended.  In [getFormData], the two optional amounts
    [other_deductions] and [other_income] serialize an empty (or blank)
    input as null, and the age serializes an empty or unparseable input
    as null; every other numeric field serializes an empty or
    unparseable input as 0.  When [populateForm] runs to its end, it
    leaves the control of [other_deductions] or [other_income] empty
    if the stored value is the number 0. *)
Theorem optional_amounts_null_others_zero (s : t) :
  (forall n f,
     In n fieldNames -> queryByName n s = Some f ->
     (is_optional n = true -> Js.trim (value f) = "" ->
      property n (getFormData s) = Js.Null) /\
     (n = "age" -> Js.parseInt (value f) = Js.NaN ->
      property n (getFormData s) = Js.Null) /\
     (is_optional n = false -> n <> "age" -> n <> "financial_year" ->
      Js.parseFloat (value f) = Js.NaN ->
      property n (getFormData s) = Js.Number (Js.Fin 0))) /\
  (forall data key fieldId i s' log,
     extractedData s = Some data ->
     In (key, fieldId) fieldMappings ->
     is_optional key = true ->
     is_number_zero (property key data) = true ->
     find_index (fun f => String.eqb (id f) fieldId) (fields s) = Some i ->
     populateForm s = Js.Normal s' log tt ->
     value_at i s' = Some "").
Proof.
  split.
  - intros n f Hin Hfield. rewrite (property_getFormData s n Hin).
    unfold serialized. rewrite Hfield. repeat split.
    + intros Hoptional Hblank. unfold is_optional in Hoptional.
      destruct (String.eqb n "financial_year") eqn:Hfy.
      { apply String.eqb_eq in Hfy. subst n. discriminate Hoptional. }
      destruct (String.eqb n "age") eqn:Hage.
      { apply String.eqb_eq in Hage. subst n. discriminate Hoptional. }
      rewrite Hoptional, Hblank. reflexivity.
    + intros -> Hnan. cbn. rewrite Hnan. reflexivity.
    + intros Hoptional Hage Hfy Hnan. unfold is_optional in Hoptional.
      apply String.eqb_neq in Hage, Hfy.
      rewrite Hfy, Hage, Hoptional, Hnan. reflexivity.
  - intros data key fieldId i s' log Hdata Hin Hoptional Hzero Hfind Hrun.
    eapply populateForm_zero_rendered_empty; eassumption.
Qed.

Lemma optional_amounts_null_others_zero_witness :
  let s := sample_form "" "17" "  " "n/a" (Some stored_zero) in
  property "other_income" (getFormData s) = Js.Null /\
  property "age" (getFormData s) = Js.Null /\
  property "tds" (getFormData s) = Js.Number (Js.Fin 0) /\
  value_at 4 (Js.state_of (populateForm s)) = Some "".
Proof.
  cbv zeta.
  pose proof (optional_amounts_null_others_zero
                (sample_form "" "17" "  " "n/a" (Some stored_zero)))
    as [Hfields Hpopulate].
  repeat apply conj.
  - refine (proj1 (Hfields "other_income"
                     (control "otherIncome" "other_income" "  ") _ _) _ _);
      try reflexivity.
    cbn. tauto.
  - refine (proj1 (proj2 (Hfields "age" (control "age" "age" "") _ _)) _ _);
      try reflexivity.
    cbn. tauto.
  - refine (proj2 (proj2 (Hfields "tds" (control "tds" "tds" "n/a") _ _))
              _ _ _ _);
      try reflexivity; try discriminate.
    cbn. tauto.
  - refine (Hpopulate stored_zero "other_deductions" "otherDeductions" 4%nat
              _ (Js.log_of (populateForm
                   (sample_form "" "17" "  " "n/a" (Some stored_zero))))
              _ _ _ _ _ _);
      try (vm_compute; reflexivity).
    cbn. tauto.
Defined.

End ReviewFacts.

(** ** The document uploader *)

Section UploaderFacts.

Import DocumentUploader.

Lemma invariant_same_setup (u u' : t) :
  same_setup u u' -> invariant u -> invariant u'.
Proof.
  intros (Hfiles & Htype & Hsize & Hcount) (H1 & H2 & H3 & H4).
  unfold invariant, capacity, multiple in *.
  rewrite Hfiles, Htype, Hsize, Hcount. auto.
Qed.

Lemma Forall_firstn {A} (P : A -> Prop) (n : nat) (l : list A) :
  Forall P l -> Forall P (firstn n l).
Proof.
  revert n. induction l as [ | x l IH ]; intros [ | n ] H; cbn;
    try constructor; inversion H; subst; auto.
Qed.

Lemma Forall_skipn {A} (P : A -> Prop) (n : nat) (l : list A) :
  Forall P l -> Forall P (skipn n l).
Proof.
  revert n. induction l as [ | x l IH ]; intros [ | n ] H; cbn; auto.
  inversion H; subst; auto.
Qed.

(** [validateFile] keeps exactly the files whose type mentions [pdf] and
    whose size is within the limit, and changes nothing. *)
Lemma filter_valid_run (files : list File) (u : t) :
  exists log,
    filter_valid files u =
    Js.Normal u log
      (filter (fun file => is_pdf file && negb (maxFileSize u <? size file))
              files).
Proof.
  induction files as [ | file rest IH ].
  - exists []. reflexivity.
  - destruct IH as [log Hrest].
    cbn [filter_valid filter]. unfold validateFile, is_pdf, Js.bind.
    cbn [Js.get].
    destruct (Js.includes "pdf" (type file)); cbn [negb andb].
    + destruct (maxFileSize u <? size file); cbn [negb Js.emit Js.ret];
        rewrite Hrest; eexists; reflexivity.
    + cbn [Js.emit Js.ret]. rewrite Hrest. eexists; reflexivity.
Qed.

Lemma filter_valid_acceptable (files : list File) (u : t) :
  maxFileSize u = 10485760 ->
  Forall acceptable
    (filter (fun file => is_pdf file && negb (maxFileSize u <? size file))
            files).
Proof.
  intros Hlimit. apply Forall_forall. intros file Hin.
  apply filter_In in Hin. destruct Hin as [_ Hok].
  apply andb_prop in Hok. destruct Hok as [Hpdf Hsize].
  apply negb_true_iff, Z.ltb_ge in Hsize. rewrite Hlimit in Hsize.
  split; assumption.
Qed.

Lemma check_each_frame (work : list (File * Js.fetched bool)) (u : t) :
  same_setup u (Js.state_of (check_each work u)).
Proof.
  revert u. induction work as [ | [file answer] rest IH ]; intros u.
  - cbn. repeat split.
  - cbn [check_each]. rewrite state_of_bind. cbn [Js.emit].
    destruct answer as [ | [ | ] is_password_protected ].
    + cbn. repeat split.
    + rewrite state_of_bind. cbn [Js.get]. rewrite state_of_bind.
      cbn [Js.put]. rewrite state_of_bind.
      set (u1 := set_filePasswordStatus _ u).
      specialize (IH u1).
      destruct (check_each rest u1) as [ s1 l1 found | s1 l1 e ];
        cbn [Js.state_of Js.ret] in *; exact IH.
    + apply IH.
Qed.

Lemma checkPasswordProtection_frame (answers : list (Js.fetched bool))
      (u : t) :
  same_setup u (Js.state_of (checkPasswordProtection answers u)).
Proof.
  unfold checkPasswordProtection. rewrite state_of_bind. cbn [Js.emit].
  rewrite state_of_try_catch. unfold Js.bind. cbn [Js.get].
  pose proof (check_each_frame (with_answers (uploadedFiles u) answers) u)
    as Hframe.
  destruct (check_each (with_answers (uploadedFiles u) answers) u)
    as [ s1 l1 found | s1 l1 e ]; cbn [Js.state_of] in Hframe.
  - destruct found; cbn; exact Hframe.
  - cbn. exact Hframe.
Qed.

Lemma processFiles_invariant (files : list File)
      (answers : list (Js.fetched bool)) (u : t) :
  invariant u -> invariant (Js.state_of (processFiles files answers u)).
Proof.
  intros Hinv. pose proof Hinv as (Hcount & Hlimit & Hlength & Hfiles).
  unfold processFiles. rewrite state_of_bind. cbn [Js.get].
  destruct (isClearingFiles u); [ exact Hinv | ].
  rewrite state_of_bind.
  destruct (filter_valid_run files u) as [log Hvalid]. rewrite Hvalid.
  pose proof (filter_valid_acceptable files u Hlimit) as Hacceptable.
  set (validFiles := filter _ files) in *.
  rewrite state_of_bind.
  (* the state after the files have been stored *)
  assert (Hstored : exists u1 log1,
    (if multiple u
     then
       Js.modify (fun u => set_uploadedFiles (uploadedFiles u ++ validFiles) u) ;;;
       u1 <- Js.get ;;
       (if maxFiles u1 <? Z.of_nat (length (uploadedFiles u1))
        then
          Js.modify (fun u => set_uploadedFiles
                                (slice0 (maxFiles u) (uploadedFiles u)) u) ;;;
          Js.emit (ShowError
            ("Maximum " ++ Js.show_nat (maxFiles u1) ++
             " files allowed. Only first " ++ Js.show_nat (maxFiles u1) ++
             " files will be processed."))
        else Js.ret tt) ;;;
       Js.emit UpdateFileList
     else
       Js.modify (set_uploadedFiles (slice0 1 validFiles)) ;;;
       Js.emit UpdateSingleFileStatus) u = Js.Normal u1 log1 tt /\
    invariant u1).
  { unfold invariant, capacity in *.
    destruct (multiple u) eqn:Hmode.
    - unfold Js.bind. cbn [Js.modify Js.get maxFiles set_uploadedFiles
                           uploadedFiles].
      destruct (maxFiles u <? Z.of_nat (length (uploadedFiles u ++ validFiles)))
        eqn:Hover; cbn [Js.modify Js.emit Js.ret];
        eexists; eexists; (split; [ reflexivity | ]);
        unfold multiple in *; cbn; rewrite Hmode; repeat split; auto.
      + rewrite Hcount. unfold slice0. rewrite length_firstn. lia.
      + apply Forall_firstn. apply Forall_app. auto.
      + apply Z.ltb_ge in Hover. lia.
      + apply Forall_app. auto.
    - unfold Js.bind. cbn [Js.modify Js.emit].
      eexists; eexists; (split; [ reflexivity | ]).
      unfold multiple in *; cbn -[slice0]; rewrite Hmode; repeat split; auto.
      + unfold slice0. rewrite length_firstn. lia.
      + apply Forall_firstn. exact Hacceptable. }
  destruct Hstored as (u1 & log1 & Hrun & Hinv1).
  rewrite Hrun. rewrite state_of_bind. cbn [Js.get].
  rewrite state_of_bind.
  destruct (0 <? length (uploadedFiles u1))%nat.
  - pose proof (checkPasswordProtection_frame answers u1) as Hframe.
    destruct (checkPasswordProtection answers u1) as [ u2 l2 [] | u2 l2 e ];
      cbn [Js.state_of Js.emit] in *;
      exact (invariant_same_setup u1 u2 Hframe Hinv1).
  - cbn. exact Hinv1.
Qed.

Lemma splice1_length {A} (index : Z) (l : list A) :
  (length (splice1 index l) <= length l)%nat.
Proof.
  unfold splice1. rewrite length_app, length_firstn, length_skipn. lia.
Qed.

Lemma splice1_Forall {A} (P : A -> Prop) (index : Z) (l : list A) :
  Forall P l -> Forall P (splice1 index l).
Proof.
  intros H. unfold splice1. apply Forall_app. split.
  - apply Forall_firstn. exact H.
  - apply (Forall_skipn P (S _) l H).
Qed.

Lemma handle_invariant (e : event) (u : t) :
  invariant u -> invariant (Js.state_of (handle e u)).
Proof.
  intros Hinv. pose proof Hinv as (Hcount & Hlimit & Hlength & Hfiles).
  destruct e as [ selected | files answers | index | | | ]; cbn [handle].
  - unfold invariant, capacity, multiple. cbn.
    repeat split; auto. destruct (String.eqb selected _); lia.
  - apply processFiles_invariant. exact Hinv.
  - unfold removeFile, checkPasswordSectionVisibility.
    repeat (rewrite state_of_bind; cbn [Js.modify Js.emit Js.get]).
    set (u1 := set_uploadedFiles _ u).
    assert (Hinv1 : invariant u1).
    { unfold invariant, capacity, multiple in *. subst u1. cbn -[splice1].
      repeat split; auto.
      - pose proof (splice1_length index (uploadedFiles u)). lia.
      - apply splice1_Forall. exact Hfiles. }
    destruct (length (uploadedFiles u1) =? 0)%nat; [ exact Hinv1 | ].
    destruct (existsb _ (uploadedFiles u1)); exact Hinv1.
  - unfold invariant, capacity, multiple in *. cbn.
    repeat split; auto. destruct (String.eqb (documentType u) _); lia.
  - unfold invariant, capacity, multiple in *. cbn.
    repeat split; auto. destruct (String.eqb (documentType u) _); lia.
  - exact Hinv.
Qed.

Lemma constructor_invariant : invariant constructor.
Proof.
  unfold invariant, capacity, multiple. cbn. repeat split; auto. lia.
Qed.

Lemma run_invariant (events : list event) (u : t) :
  invariant u -> invariant (run u events).
Proof.
  revert u. induction events as [ | e rest IH ]; intros u Hinv; cbn [run].
  - exact Hinv.
  - apply IH. apply handle_invariant. exact Hinv.
Qed.

(** C10.  Whatever happened to the uploader since its construction,
    after a call of [processFiles] the list [uploadedFiles] holds at
    most 4 files in multiple-document mode and at most 1 file in any
    other mode, and each of them is a PDF, by its MIME type, of at most
    10485760 bytes. *)
Theorem processFiles_keeps_upload_limits (events : list event)
        (files : list File) (answers : list (Js.fetched bool)) :
  Z.of_nat (length (uploadedFiles
                      (run constructor
                           (events ++ [ProcessFiles files answers])))) <=
    (if multiple (run constructor (events ++ [ProcessFiles files answers]))
     then 4 else 1) /\
  Forall (fun file => is_pdf file = true /\ size file <= 10485760)
         (uploadedFiles
            (run constructor (events ++ [ProcessFiles files answers]))).
Proof.
  destruct (run_invariant (events ++ [ProcessFiles files answers]) constructor
              constructor_invariant) as (_ & _ & Hlength & Hfiles).
  split; [ exact Hlength | exact Hfiles ].
Qed.

End UploaderFacts.

(** ** The comparison core *)

Section CoreFacts.

Import TaxCore.
Local Open Scope Q_scope.

Lemma sum_nonnegative (l : list Q) : Forall (fun x => 0 <= x) l -> 0 <= sum l.
Proof.
  induction 1 as [ | x l Hx Hl IH ]; cbn [sum fold_right].
  - apply Qle_refl.
  - change (fold_right Qplus 0 l) with (sum l). lra.
Qed.

Lemma within_nonnegative (income : Q) (s : Slab) : 0 <= within income s.
Proof. unfold within. apply Q.le_max_l. Qed.

Lemma slab_taxes_nonnegative (income : Q) (l : list Slab) :
  (forall s, In s l -> 0 <= rate s) ->
  Forall (fun x => 0 <= x) (map (slab_tax income) l).
Proof.
  intros Hrates. apply Forall_forall. intros x Hin.
  apply in_map_iff in Hin. destruct Hin as (s & <- & Hs).
  unfold slab_tax. apply Qmult_le_0_compat.
  - apply Hrates. exact Hs.
  - apply within_nonnegative.
Qed.

(** C3.  With tax tables that have no negative rate, the total tax that
    the Regime Calculator computes for a profile under either regime is
    at least 0, and the cess is exactly 4% of the tax after the
    rebate. *)
Theorem regime_total_nonnegative_cess_four_percent
        (rules : TaxRules) (r : regime) (p : FinancialProfile) :
  well_formed rules ->
  0 <= total_tax (calculate rules r p) /\
  cess_amount (calculate rules r p) =
    (4 # 100) * tax_after_rebate (calculate rules r p) /\
  total_tax (calculate rules r p) =
    tax_after_rebate (calculate rules r p) + cess_amount (calculate rules r p).
Proof.
  intros Hrules. unfold calculate.
  cbn [total_tax cess_amount tax_after_rebate].
  split; [ | split; reflexivity ].
  set (taxable := gross_salary p + or_default (other_income p) -
                  deductions rules r p).
  assert (Htax : 0 <= sum (map (slab_tax taxable) (slabs rules r))).
  { apply sum_nonnegative, slab_taxes_nonnegative.
    intros s Hs. exact (Hrules r s Hs). }
  destruct (Qlt_le_dec taxable (rebate_threshold rules r)); lra.
Qed.

Lemma rules_2024_25_well_formed : well_formed rules_2024_25.
Proof.
  intros r s Hin. destruct r; cbn in Hin;
    repeat (destruct Hin as [<- | Hin]; [ cbn; discriminate | ]);
    contradiction.
Qed.

Lemma regime_total_nonnegative_cess_four_percent_witness :
  0 <= total_tax (calculate rules_2024_25 Old example_profile) /\
  cess_amount (calculate rules_2024_25 Old example_profile) =
    (4 # 100) * tax_after_rebate (calculate rules_2024_25 Old example_profile).
Proof.
  destruct (regime_total_nonnegative_cess_four_percent
              rules_2024_25 Old example_profile rules_2024_25_well_formed)
    as (Htotal & Hcess & _).
  split; [ exact Htotal | exact Hcess ].
Defined.

(** C2.  For every pair of outputs of the Regime Calculator, the best
    regime is the one whose total tax is strictly lower, and it is the
    new regime, stored as [new], when the two totals are equal. *)
Theorem best_regime_lower_total_new_on_tie (old new : RegimeResult) :
  (total_tax old < total_tax new -> best_regime old new = Old) /\
  (total_tax new < total_tax old -> best_regime old new = New) /\
  (total_tax old == total_tax new ->
   best_regime old new = New /\ regime_name (best_regime old new) = "new").
Proof.
  unfold best_regime.
  destruct (Qlt_le_dec (total_tax old) (total_tax new)) as [Hlt | Hle].
  - split; [ reflexivity | ]. split; intros H; lra.
  - split; [ intros H; lra | ]. split; [ reflexivity | ].
    intros _. split; reflexivity.
Qed.

Lemma best_regime_lower_total_new_on_tie_witness :
  best_regime (calculate rules_2024_25 Old example_profile)
              (calculate rules_2024_25 New example_profile) = Old /\
  best_regime (calculate rules_2024_25 New example_profile)
              (calculate rules_2024_25 Old example_profile) = New /\
  best_regime (calculate rules_2024_25 Old example_profile)
              (calculate rules_2024_25 Old example_profile) = New.
Proof.
  split; [ | split ].
  - refine (proj1 (best_regime_lower_total_new_on_tie _ _) _).
    vm_compute. reflexivity.
  - refine (proj1 (proj2 (best_regime_lower_total_new_on_tie _ _)) _).
    vm_compute. reflexivity.
  - refine (proj1 (proj2 (proj2 (best_regime_lower_total_new_on_tie _ _)) _)).
    vm_compute. reflexivity.
Defined.

(** *** The draft store *)

Local Open Scope Z_scope.

Lemma insert_recent_In (d s : Session) (l : list Session) :
  In d (insert_recent s l) <-> d = s \/ In d l.
Proof.
  induction l as [ | x l IH ]; cbn [insert_recent].
  - cbn. intuition.
  - destruct (created_at x <=? created_at s); cbn [In]; [ intuition | ].
    rewrite IH. intuition.
Qed.

Lemma most_recent_first_In (d : Session) (l : list Session) :
  In d (most_recent_first l) <-> In d l.
Proof.
  induction l as [ | x l IH ]; cbn [most_recent_first fold_right In].
  - reflexivity.
  - change (fold_right insert_recent [] l) with (most_recent_first l).
    rewrite insert_recent_In, IH. intuition.
Qed.

Lemma insert_recent_sorted (s : Session) (l : list Session) :
  StronglySorted not_older l -> StronglySorted not_older (insert_recent s l).
Proof.
  induction 1 as [ | x l Hsorted IH Hx ]; cbn [insert_recent].
  - constructor; constructor.
  - destruct (created_at x <=? created_at s) eqn:Hcmp.
    + apply Z.leb_le in Hcmp. constructor.
      * constructor; assumption.
      * constructor; [ exact Hcmp | ].
        rewrite Forall_forall in *. intros y Hy.
        specialize (Hx y Hy). unfold not_older in *. lia.
    + apply Z.leb_gt in Hcmp. constructor; [ exact IH | ].
      rewrite Forall_forall in *. intros y Hy.
      apply insert_recent_In in Hy. destruct Hy as [-> | Hy].
      * unfold not_older. lia.
      * apply Hx. exact Hy.
Qed.

Lemma most_recent_first_sorted (l : list Session) :
  StronglySorted not_older (most_recent_first l).
Proof.
  induction l as [ | x l IH ]; cbn [most_recent_first fold_right].
  - constructor.
  - apply insert_recent_sorted. exact IH.
Qed.

(** The listing leaves no live draft of the user out. *)
Lemma list_drafts_complete (now : Z) (user : string) (store : list Session)
      (d : Session) :
  In d store -> is_draft d = true -> user_id d = user ->
  expired now d = false ->
  In d (list_drafts now user store).
Proof.
  intros Hin Hdraft Huser Hlive. unfold list_drafts.
  apply most_recent_first_In, filter_In. split; [ exact Hin | ].
  rewrite Hdraft, Huser, String.eqb_refl, Hlive. reflexivity.
Qed.

(** C6.  A draft whose [draft_expires_at] lies before the time at which
    [list_drafts] is evaluated is not in its output, and the output is
    ordered by creation time, the most recent first. *)
Theorem list_drafts_hides_expired_most_recent_first
        (now : Z) (user : string) (store : list Session) :
  (forall d t, draft_expires_at d = Some t -> t < now ->
               ~ In d (list_drafts now user store)) /\
  StronglySorted not_older (list_drafts now user store).
Proof.
  split.
  - intros d t Hexpiry Hpast Hin. unfold list_drafts in Hin.
    apply most_recent_first_In, filter_In in Hin. destruct Hin as [_ Hkept].
    apply andb_prop in Hkept. destruct Hkept as [_ Hlive].
    unfold expired in Hlive. rewrite Hexpiry in Hlive.
    apply negb_true_iff, Z.ltb_ge in Hlive. lia.
  - apply most_recent_first_sorted.
Qed.

Lemma list_drafts_hides_expired_most_recent_first_witness :
  ~ In (draft "a" (Some 900) 100) (list_drafts 1000 "u-17" sample_store) /\
  map session_id (list_drafts 1000 "u-17" sample_store) = ["d"; "b"; "c"].
Proof.
  split.
  - refine (proj1 (list_drafts_hides_expired_most_recent_first
                     1000 "u-17" sample_store) _ 900 _ _).
    + reflexivity.
    + reflexivity.
  - reflexivity.
Defined.

End CoreFacts.

(* ================================================================== *)
(** * Part III: further properties of the controllers *)
(* ================================================================== *)

(** ** The AI advisor: what a submission does besides counting rounds *)

Section AdvisorExchanges.

Import AIAdvisor.

(** X1.  [submitUserResponse] does nothing at all, neither to the page
    nor to the service, when a submission is already in progress or when
    the answer box holds only white space. *)
Theorem submitUserResponse_ignores_blank_or_busy
        (a : t) (reply : Js.fetched ProcessReply) :
  isProcessing a = true \/ Js.trim (userResponse a) = "" ->
  submitUserResponse reply a = Js.Normal a [] tt.
Proof.
  intros H. unfold submitUserResponse, Js.bind. cbn [Js.get].
  destruct (isProcessing a); [ reflexivity | ].
  destruct H as [H | H]; [ discriminate H | ].
  rewrite H. reflexivity.
Qed.

Lemma submitUserResponse_ignores_blank_or_busy_witness :
  submitUserResponse sample_final
                     (set_userResponse (" " ++ Js.nbsp) constructor) =
  Js.Normal (set_userResponse (" " ++ Js.nbsp) constructor) [] tt.
Proof.
  apply submitUserResponse_ignores_blank_or_busy. right. reflexivity.
Defined.

(** X2.  When the exchange with the service fails (the request is
    rejected, the status is not OK, or the reply lacks [success]),
    [submitUserResponse] has sent exactly one request, carrying the
    current round, the question shown and the trimmed answer; it shows
    the service-unavailable error, re-enables the button last, and
    leaves the page as it was, the typed answer included. *)
Theorem submitUserResponse_failed_exchange
        (a : t) (reply : Js.fetched ProcessReply) :
  isProcessing a = false -> Js.trim (userResponse a) <> "" ->
  accepted reply = false ->
  submitUserResponse reply a =
  Js.Normal a
    [ SetSubmitButtonLoading true;
      PostProcessResponse (sessionId a) (questionText a)
                          (Js.trim (userResponse a)) (currentRound a);
      ShowError unavailable;
      SetSubmitButtonLoading false ] tt.
Proof.
  intros Hidle Htext Hfailed.
  unfold submitUserResponse, Js.bind at 1. cbn [Js.get].
  rewrite Hidle, (trim_nonempty_truthy _ Htext). cbn [negb].
  destruct a as [ sid cur bound busy conv qtext answer ].
  cbn in Hidle. subst busy.
  destruct reply as [ | [ | ] data ]; try reflexivity.
  cbn in Hfailed. cbn. rewrite Hfailed. reflexivity.
Qed.

Lemma submitUserResponse_failed_exchange_witness :
  Js.log_of (submitUserResponse Js.Rejected
               (set_userResponse (Js.nbsp ++ "Yes, in Pune ") constructor)) =
  [ SetSubmitButtonLoading true;
    PostProcessResponse None "" "Yes, in Pune" 1;
    ShowError unavailable;
    SetSubmitButtonLoading false ].
Proof.
  rewrite (submitUserResponse_failed_exchange
             (set_userResponse (Js.nbsp ++ "Yes, in Pune ") constructor)
             Js.Rejected).
  - reflexivity.
  - reflexivity.
  - vm_compute. discriminate.
  - reflexivity.
Defined.

(** X3.  When the service accepts an answer and asks a further question,
    [submitUserResponse] shows that question under the round number of
    the reply, empties the answer box, and keeps everything else. *)
Theorem submitUserResponse_next_question
        (a : t) (data : ProcessReply) :
  isProcessing a = false -> Js.trim (userResponse a) <> "" ->
  success data = true -> is_final data = false ->
  submitUserResponse (Js.Response true data) a =
  Js.Normal
    {| sessionId := sessionId a;
       currentRound := round data;
       maxRounds := maxRounds a;
       isProcessing := false;
       conversationStarted := conversationStarted a;
       questionText := question data;
       userResponse := "" |}
    [ SetSubmitButtonLoading true;
      PostProcessResponse (sessionId a) (questionText a)
                          (Js.trim (userResponse a)) (currentRound a);
      DisplayQuestion (question data) (round data);
      SetSubmitButtonLoading false ] tt.
Proof.
  intros Hidle Htext Hsuccess Hfinal.
  unfold submitUserResponse, Js.bind at 1. cbn [Js.get].
  rewrite Hidle, (trim_nonempty_truthy _ Htext). cbn [negb].
  cbn. rewrite Hsuccess, Hfinal. reflexivity.
Qed.

Lemma submitUserResponse_next_question_witness :
  currentRound
    (Js.state_of
       (submitUserResponse
          (Js.Response true
             {| success := true; is_final := false; round := 2;
                question := "Any home loan?"; conversation_summary := "" |})
          (set_userResponse "Yes, in Pune" constructor))) = 2.
Proof.
  rewrite submitUserResponse_next_question; reflexivity || (cbn; discriminate).
Defined.

(** X4.  Without a session id ([getSessionId] finds nothing, or an empty
    string), [startConversation] sends no request: it records what was
    found and shows the session error. *)
Theorem startConversation_without_session
        (a : t) (found : option string) (reply : Js.fetched StartReply) :
  found = None \/ found = Some "" ->
  startConversation found reply a =
  Js.Normal (set_sessionId found a)
    [ ShowError
        "Session ID not found. Please start from the tax results page." ] tt.
Proof. intros [-> | ->]; reflexivity. Qed.

Lemma startConversation_without_session_witness :
  Js.log_of (startConversation None sample_start constructor) =
  [ ShowError
      "Session ID not found. Please start from the tax results page." ].
Proof.
  rewrite (startConversation_without_session constructor None sample_start).
  - reflexivity.
  - left. reflexivity.
Defined.

End AdvisorExchanges.

(** ** The review form: the gates around a submission *)

Section ReviewGates.

Import FinancialDataReview.

(** [validateField] runs to its end on a control that has a form field,
    on a page that has a gross salary control. *)
Lemma validateField_completes (g : string) (f : Field) (w : FormField) :
  formField f = Some w ->
  exists log,
    validateField (Some g) f =
    Js.Normal (Js.state_of (validateField (Some g) f)) log
              (negb (rejects g f)).
Proof.
  intros Hw.
  destruct f as [ i n v cl ff ]. cbn in Hw. subst ff.
  unfold validateField, Js.bind, Js.modify, Js.get.
  cbn -[field_rule add_class clear_marks has_class].
  match goal with
  | |- context [field_rule (Some g) ?x ?y] =>
      destruct (field_rule_verdict g x y) as (verdict & Hrun & Hverdict);
      rewrite Hrun;
      change (rejects g x) with
        (rejects g {| id := i; name := n; value := v; classList := cl;
                      formField := Some w |})
        in Hverdict
  end.
  rewrite <- Hverdict.
  destruct verdict as [ message | ]; eexists; reflexivity.
Qed.

Lemma existsb_nth {A} (p : A -> bool) (l : list A) (i : nat) (x : A) :
  nth_error l i = Some x -> p x = true -> existsb p l = true.
Proof.
  intros Hnth Hp. apply existsb_exists. exists x. split; [ | exact Hp ].
  eapply nth_error_In. exact Hnth.
Qed.

Lemma error_field_listed (l : list Field) :
  existsb is_error_field l = true ->
  (length
     (flat_map (fun f => match formField f with
                         | Some w => if has_class "error" (wrapperClasses w)
                                     then [w] else []
                         | None => []
                         end) l) =? 0)%nat = false.
Proof.
  induction l as [ | f l IH ]; cbn [existsb flat_map]; [ discriminate | ].
  intros H. rewrite length_app. apply Nat.eqb_neq.
  apply orb_true_iff in H. destruct H as [H | H].
  - unfold is_error_field in H. destruct (formField f); [ | discriminate H ].
    rewrite H. cbn. lia.
  - apply IH, Nat.eqb_neq in H. lia.
Qed.

Lemma updateFormValidation_on_error (s : t) :
  existsb is_error_field (fields s) = true ->
  updateFormValidation s = Js.Normal (set_submitDisabled true s) [] tt.
Proof.
  intros H. unfold updateFormValidation, Js.bind, Js.get, Js.modify.
  cbn -[existsb]. unfold errorFields.
  rewrite (error_field_listed _ H), andb_false_r. reflexivity.
Qed.

(** The class list of the form field after [validateField]. *)
Lemma validateField_wrapper (g : string) (f : Field) (w : FormField) :
  formField f = Some w ->
  option_map wrapperClasses
    (formField (Js.state_of (validateField (Some g) f))) =
  Some (add_class (if rejects g f then "error" else "success")
                  (clear_marks (wrapperClasses w))).
Proof.
  intros Hw.
  destruct f as [ i n v cl ff ]. cbn in Hw. subst ff.
  unfold validateField, Js.bind, Js.modify, Js.get.
  cbn -[field_rule add_class clear_marks has_class].
  match goal with
  | |- context [field_rule (Some g) ?x ?y] =>
      destruct (field_rule_verdict g x y) as (verdict & Hrun & Hverdict);
      rewrite Hrun;
      change (rejects g x) with
        (rejects g {| id := i; name := n; value := v; classList := cl;
                      formField := Some w |})
        in Hverdict
  end.
  rewrite <- Hverdict.
  destruct verdict as [ message | ]; reflexivity.
Qed.

Lemma no_error_field_listed (l : list Field) :
  existsb is_error_field l = false ->
  (length
     (flat_map (fun f => match formField f with
                         | Some w => if has_class "error" (wrapperClasses w)
                                     then [w] else []
                         | None => []
                         end) l) =? 0)%nat = true.
Proof.
  induction l as [ | f l IH ]; cbn [existsb flat_map]; [ reflexivity | ].
  intros H. apply orb_false_iff in H. destruct H as [Hf Hl].
  rewrite length_app. apply Nat.eqb_eq. apply IH, Nat.eqb_eq in Hl.
  unfold is_error_field in Hf. destruct (formField f); [ | cbn; lia ].
  rewrite Hf. cbn. lia.
Qed.

(** X5.  After [updateFormValidation] the submit button is disabled
    exactly when one of the controls [financial_year], [age],
    [gross_salary], [basic_salary] is present but empty or not above 0,
    or some form field carries the error mark. *)
Theorem updateFormValidation_disabled_iff (s : t) :
  submitDisabled (Js.state_of (updateFormValidation s)) =
  existsb (required_missing s)
          ["financial_year"; "age"; "gross_salary"; "basic_salary"] ||
  existsb is_error_field (fields s).
Proof.
  destruct (existsb is_error_field (fields s)) eqn:Hmarks.
  - rewrite (updateFormValidation_on_error s Hmarks), orb_true_r.
    reflexivity.
  - unfold updateFormValidation, Js.bind, Js.get, Js.modify.
    cbn -[existsb]. unfold errorFields.
    rewrite (no_error_field_listed _ Hmarks), andb_true_r, orb_false_r.
    apply negb_involutive.
Qed.

(** X6.  On a page with a gross salary control, typing a value that
    [validateField] rejects into a control that has a form field leaves
    that form field marked as an error and the submit button
    disabled. *)
Theorem inputEvent_rejected_value_disables_submit
        (s : t) (i : nat) (typed : string) (f : Field) (w : FormField)
        (gross : Field) :
  nth_error (fields s) i = Some f ->
  formField f = Some w ->
  getElementById "grossSalary"
    (set_fields (replace_nth i (set_value typed f) (fields s)) s)
    = Some gross ->
  rejects (value gross) (set_value typed f) = true ->
  submitDisabled (Js.state_of (inputEvent i typed s)) = true /\
  option_map is_error_field
    (nth_error (fields (Js.state_of (inputEvent i typed s))) i) = Some true.
Proof.
  intros Hnth Hw Hgross Hrejected.
  set (f1 := set_value typed f) in *.
  set (s1 := set_fields (replace_nth i f1 (fields s)) s) in *.
  assert (Hnth1 : nth_error (fields s1) i = Some f1).
  { subst s1. cbn [fields set_fields]. eapply replace_nth_same. exact Hnth. }
  assert (Hw1 : formField f1 = Some w) by exact Hw.
  destruct (validateField_completes (value gross) f1 w Hw1) as [log Hrun].
  set (f2 := Js.state_of (validateField (Some (value gross)) f1)) in *.
  assert (Hmark : is_error_field f2 = true).
  { pose proof (validateField_wrapper (value gross) f1 w Hw1) as Hff.
    fold f2 in Hff. unfold is_error_field.
    destruct (formField f2) as [ w2 | ]; [ | discriminate Hff ].
    cbn [option_map] in Hff. injection Hff as ->.
    rewrite Hrejected. apply has_class_add. }
  set (s2 := set_fields (replace_nth i f2 (fields s1)) s1).
  assert (Hnth2 : nth_error (fields s2) i = Some f2).
  { subst s2. cbn [fields set_fields]. eapply replace_nth_same. exact Hnth1. }
  assert (Hevent : inputEvent i typed s =
                   Js.Normal (set_submitDisabled true s2) log tt).
  { unfold inputEvent, Js.bind.
    unfold with_field at 1. rewrite Hnth. cbn [Js.modify].
    fold f1. fold s1.
    unfold validateFieldAt, Js.bind. cbn [Js.get].
    rewrite Hgross. cbn [option_map].
    unfold with_field. rewrite Hnth1, Hrun. fold s2.
    rewrite updateFormValidation_on_error
      by (eapply existsb_nth; eassumption).
    rewrite !app_nil_r. reflexivity. }
  rewrite Hevent. cbn [Js.state_of submitDisabled set_submitDisabled fields].
  split; [ reflexivity | ].
  rewrite Hnth2. cbn [option_map]. rewrite Hmark. reflexivity.
Qed.

Lemma inputEvent_rejected_value_disables_submit_witness :
  submitDisabled
    (Js.state_of (inputEvent 2 "200000" (page_with_help (Js.Text "3f2a"))))
  = true.
Proof.
  refine (proj1 (inputEvent_rejected_value_disables_submit
                   (page_with_help (Js.Text "3f2a")) 2 "200000"
                   (control "deduction80c" "deduction_80c" "")
                   plain_wrapper
                   (control "grossSalary" "gross_salary" "1200000")
                   _ _ _ _)); reflexivity.
Defined.

(** The messages about the two required salaries make [blocked] hold. *)
Lemma required_error_blocks (s : t) (n : string) :
  n = "gross_salary" \/ n = "basic_salary" ->
  match queryByName n s with
  | Some field => Js.trim (value field) = ""
  | None => True
  end ->
  blocked s = true /\
  In (getFieldLabel n ++ " is required")
     (field_errors s ++ required_errors s).
Proof.
  intros Hn Hblank.
  assert (Hin : In (getFieldLabel n ++ " is required") (required_errors s)).
  { unfold required_errors. apply in_flat_map. exists n. split.
    - destruct Hn as [-> | ->]; cbn; auto.
    - destruct (queryByName n s) as [ field | ].
      + rewrite Hblank. cbn. auto.
      + cbn. auto. }
  split.
  - unfold blocked. apply Nat.ltb_lt.
    destruct (field_errors s ++ required_errors s)%list eqn:Hall.
    + assert (Hnil : required_errors s = []).
      { destruct (field_errors s); [ exact Hall | discriminate Hall ]. }
      rewrite Hnil in Hin. contradiction.
    + cbn. lia.
  - apply in_or_app. right. exact Hin.
Qed.

(** X7.  When the gross salary or the basic salary control is missing
    from the page or holds only white space, [submitForm] sends nothing
    and performs no other effect; it shows the validation panel, which
    lists the message that the salary is required. *)
Theorem submitForm_requires_both_salaries (r : reply) (s : t) (n : string) :
  n = "gross_salary" \/ n = "basic_salary" ->
  match queryByName n s with
  | Some field => Js.trim (value field) = ""
  | None => True
  end ->
  exists shown,
    submitForm r s = Js.Normal (set_validation true shown s) [] tt /\
    In (getFieldLabel n ++ " is required") shown.
Proof.
  intros Hn Hblank.
  destruct (required_error_blocks s n Hn Hblank) as [Hblocked Hin].
  exists (field_errors s ++ required_errors s)%list. split; [ | exact Hin ].
  unfold submitForm, Js.try_catch, Js.bind.
  rewrite showValidationMessages_run, Hblocked. reflexivity.
Qed.

Lemma submitForm_requires_both_salaries_witness :
  Js.log_of
    (submitForm (Js.Response true (Js.Json (Js.Text "3f2a")))
       (set_fields [ control "grossSalary" "gross_salary" "1200000";
                     control "basicSalary" "basic_salary" "  " ]
                   (page_with_help (Js.Text "3f2a")))) = [].
Proof.
  destruct (submitForm_requires_both_salaries
              (Js.Response true (Js.Json (Js.Text "3f2a")))
              (set_fields [ control "grossSalary" "gross_salary" "1200000";
                            control "basicSalary" "basic_salary" "  " ]
                          (page_with_help (Js.Text "3f2a")))
              "basic_salary" (or_intror eq_refl) eq_refl)
    as (shown & Hrun & _).
  rewrite Hrun. reflexivity.
Defined.

(** X8.  On a page that passes [showValidationMessages] and holds a
    usable session id, [submitForm] sends exactly one request, the form
    data to [/api/submit-financials].  If the reply is OK and its body
    decodes to a value other than null, it adopts and stores the
    [session_id] read from that value, even an absent one, and goes to
    the results page; in every other case (request rejected, status not
    OK, body that is not JSON or is null) it reports a failed
    submission, keeps the session id and does not leave the page. *)
Theorem submitForm_outcome (r : reply) (s : t) :
  blocked s = false ->
  usable_session (sessionId s) = true ->
  submitForm r s =
  match r with
  | Js.Response true (Js.Json session_id) =>
      Js.Normal
        (set_sessionId session_id (set_validation false (validationList s) s))
        [ Fetch "POST" "/api/submit-financials" (getFormData s);
          SessionStorageSet "session_id" (Js.show session_id);
          Navigate "/tax-results" ] tt
  | _ =>
      Js.Normal (set_validation false (validationList s) s)
        [ Fetch "POST" "/api/submit-financials" (getFormData s);
          Notify Failure "Failed to submit form. Please try again." ] tt
  end.
Proof.
  intros Hopen Husable.
  unfold submitForm, Js.try_catch, Js.bind.
  rewrite showValidationMessages_run, Hopen. cbn [negb Js.get].
  cbn [sessionId set_validation].
  assert (Htest : negb (Js.value_truthy (sessionId s)) ||
                  Js.is_text "undefined" (sessionId s) ||
                  Js.is_text "null" (sessionId s) = false).
  { unfold usable_session in Husable.
    apply andb_prop in Husable. destruct Husable as [Husable Hnull].
    apply andb_prop in Husable. destruct Husable as [Htruthy Hundefined].
    apply negb_true_iff in Hnull, Hundefined.
    rewrite Htruthy, Hnull, Hundefined. reflexivity. }
  rewrite Htest.
  destruct r as [ | [ | ] [ | | body ] ]; reflexivity.
Qed.

Lemma submitForm_outcome_witness :
  Js.log_of (submitForm (Js.Response true Js.JsonNull)
                        (page_with_help (Js.Text "3f2a"))) =
  [ Fetch "POST" "/api/submit-financials"
          (getFormData (page_with_help (Js.Text "3f2a")));
    Notify Failure "Failed to submit form. Please try again." ].
Proof.
  rewrite (submitForm_outcome (Js.Response true Js.JsonNull)
                              (page_with_help (Js.Text "3f2a")));
    reflexivity.
Defined.

(** X9.  [submitForm] and [saveDraft] never throw: whatever the page
    and the reply, they run to their end, every failure having been
    turned into a notification or a validation message. *)
Theorem submitForm_and_saveDraft_complete (r : reply) (s : t) :
  (exists s' log, submitForm r s = Js.Normal s' log tt) /\
  (exists s' log, saveDraft r s = Js.Normal s' log tt).
Proof.
  split.
  - unfold submitForm, Js.try_catch, Js.bind.
    rewrite showValidationMessages_run.
    destruct (blocked s); cbn [negb Js.get]; [ eexists; eexists; reflexivity | ].
    destruct (negb (Js.value_truthy _) || _ || _).
    + eexists; eexists; reflexivity.
    + destruct r as [ | [ | ] [ | | body ] ]; eexists; eexists; reflexivity.
  - unfold saveDraft, Js.try_catch, Js.bind. cbn [Js.get Js.emit].
    destruct r as [ | [ | ] [ | | body ] ]; eexists; eexists; reflexivity.
Qed.

End ReviewGates.

(** ** The review form: what is sent *)

Section ReviewRequests.

Import FinancialDataReview.
Import FinancialDataReviewDrafts.

Lemma property_past_fields (g : string -> Js.value) (names : list string)
      (rest : list (string * Js.value)) (n : string) :
  ~ In n names ->
  property n (map (fun k => (k, g k)) names ++ rest) = property n rest.
Proof.
  induction names as [ | k names IH ]; intros Hout; [ reflexivity | ].
  cbn [map app property].
  destruct (String.eqb_spec k n) as [-> | Hk].
  - contradiction Hout. left. reflexivity.
  - apply IH. intros Hin. apply Hout. right. exact Hin.
Qed.

Lemma getFormData_envelope_fields (s : t) :
  property "status" (getFormData s) = Js.Text "completed" /\
  property "is_draft" (getFormData s) = Js.Bool false /\
  property "session_id" (getFormData s) =
    (if usable_session (sessionId s) then sessionId s else Js.Undefined).
Proof.
  unfold getFormData.
  rewrite !property_past_fields by (cbn; intuition discriminate).
  destruct (usable_session (sessionId s)); repeat split.
Qed.

(** X10.  The data that [getFormData] builds always has the nineteen
    field names as keys, in their fixed order, followed by [session_id]
    if and only if the stored session id is usable (not null, absent,
    empty, ['undefined'] or ['null']), in which case it is that id,
    and by [status = 'completed'] and [is_draft = false]. *)
Theorem getFormData_envelope (s : t) :
  map fst (getFormData s) =
    (fieldNames ++
     (if usable_session (sessionId s) then ["session_id"] else []) ++
     ["status"; "is_draft"])%list /\
  property "session_id" (getFormData s) =
    (if usable_session (sessionId s) then sessionId s else Js.Undefined) /\
  property "status" (getFormData s) = Js.Text "completed" /\
  property "is_draft" (getFormData s) = Js.Bool false.
Proof.
  destruct (getFormData_envelope_fields s) as (Hstatus & Hdraft & Hsession).
  repeat split; try assumption.
  unfold getFormData. rewrite !map_app, map_map. cbn [fst].
  rewrite map_id. destruct (usable_session (sessionId s)); reflexivity.
Qed.

(** X11.  For a field whose control is missing from the form,
    [getFormData] still sends the key, with a default: ['2024-25'] for
    the financial year, null for the age, and 0 for every amount. *)
Theorem getFormData_missing_control (s : t) (n : string) :
  In n fieldNames -> queryByName n s = None ->
  property n (getFormData s) =
    if String.eqb n "financial_year" then Js.Text "2024-25"
    else if String.eqb n "age" then Js.Null
    else Js.Number (Js.Fin 0).
Proof.
  intros Hin Hmissing. rewrite (property_getFormData s n Hin).
  unfold serialized. rewrite Hmissing. reflexivity.
Qed.

Lemma getFormData_missing_control_witness :
  property "tds" (getFormData (page_with_help Js.Null)) =
  Js.Number (Js.Fin 0).
Proof.
  rewrite (getFormData_missing_control (page_with_help Js.Null) "tds").
  - reflexivity.
  - cbn. tauto.
  - reflexivity.
Defined.

(** [saveDraft] validates nothing: whatever the state of the form,
    it sends the form data to [/api/save-draft].  If the reply is OK
    and its body decodes to a value other than null, it adopts and
    stores the [draft_id] read from it, even an absent one, and reports
    success; in every other case it reports the failure and keeps the
    session id. *)
Theorem saveDraft_outcome (r : reply) (s : t) :
  saveDraft r s =
  match r with
  | Js.Response true (Js.Json draft_id) =>
      Js.Normal (set_sessionId draft_id s)
        [ Fetch "POST" "/api/save-draft" (getFormData s);
          SessionStorageSet "session_id" (Js.show draft_id);
          Notify Success "Draft saved successfully!" ] tt
  | _ =>
      Js.Normal s
        [ Fetch "POST" "/api/save-draft" (getFormData s);
          Notify Failure "Failed to save draft. Please try again." ] tt
  end.
Proof. destruct r as [ | [ | ] [ | | body ] ]; reflexivity. Qed.

(** X12.  The request by which [saveDraft] saves a draft describes it as
    a completed, non-draft profile: its body has [status = 'completed']
    and [is_draft = false]. *)
Theorem saveDraft_sends_completed_status (r : reply) (s : t) :
  exists body rest,
    Js.log_of (saveDraft r s) = Fetch "POST" "/api/save-draft" body :: rest /\
    property "status" body = Js.Text "completed" /\
    property "is_draft" body = Js.Bool false.
Proof.
  destruct (getFormData_envelope_fields s) as (Hstatus & Hdraft & _).
  exists (getFormData s).
  destruct r as [ | [ | ] [ | | body ] ]; eexists; (split; [ reflexivity | ]);
    split; assumption.
Qed.

(** X13.  After a draft save whose OK reply decodes to a value other
    than null in which no usable [draft_id] is found (absent, null,
    ['undefined'] or ['null']), [submitForm] sends nothing: the page has
    lost its session.  An OK reply whose body is not JSON or is null
    leaves the session id as it was. *)
Theorem submitForm_after_draft_without_id
        (draft_id : Js.value) (s : t) (r : reply) :
  session_missing draft_id = true ->
  existsb is_submission
    (Js.log_of
       (submitForm r
          (Js.state_of (saveDraft (Js.Response true (Js.Json draft_id)) s))))
  = false /\
  sessionId (Js.state_of (saveDraft (Js.Response true Js.NotJson) s)) =
    sessionId s /\
  sessionId (Js.state_of (saveDraft (Js.Response true Js.JsonNull) s)) =
    sessionId s.
Proof.
  intros Hmissing. split; [ | split; reflexivity ].
  apply submitForm_missing_session_sends_nothing. exact Hmissing.
Qed.

Lemma submitForm_after_draft_without_id_witness :
  existsb is_submission
    (Js.log_of
       (submitForm (Js.Response true (Js.Json (Js.Text "3f2a")))
          (Js.state_of
             (saveDraft (Js.Response true (Js.Json Js.Undefined))
                        (page_with_help (Js.Text "3f2a"))))))
  = false.
Proof.
  exact (proj1 (submitForm_after_draft_without_id
                  Js.Undefined (page_with_help (Js.Text "3f2a"))
                  (Js.Response true (Js.Json (Js.Text "3f2a"))) eq_refl)).
Defined.

(** X14.  [checkForDraft] asks the server for the drafts and then shows
    nothing, whatever the answer: the method it calls to show the first
    draft is not a method of the class, and the exception is swallowed
    by its handler. *)
Theorem checkForDraft_never_notifies (r : Js.fetched (list Js.value))
        (s : t) :
  checkForDraft r s = Js.Normal s [Fetch "GET" "/api/drafts" []] tt.
Proof.
  destruct r as [ | [ | ] [ | first rest ] ]; reflexivity.
Qed.

End ReviewRequests.

(** ** The review form: filling the controls *)

Section ReviewPopulate.

Import FinancialDataReview.

Lemma fieldMappings_ids_distinct : NoDup (map snd fieldMappings).
Proof.
  cbn.
  repeat (constructor;
          [ cbn; intros H;
            repeat (destruct H as [H | H]; [ discriminate H | ]); exact H | ]).
  constructor.
Qed.

Lemma distinct_after {A B} (f : A -> B) (before : list A) (x : A)
      (after : list A) :
  NoDup (map f (before ++ x :: after)) ->
  Forall (fun y => f y <> f x) after /\ Forall (fun y => f y <> f x) before.
Proof.
  rewrite map_app. cbn [map]. intros Hdistinct.
  apply NoDup_remove_2 in Hdistinct.
  split; apply Forall_forall; intros y Hy Heq; apply Hdistinct;
    apply in_or_app; [ right | left ]; rewrite <- Heq; apply in_map; exact Hy.
Qed.

(** An entry whose key has no stored value does nothing. *)
Lemma populate_entry_undefined (data : list (string * Js.value))
      (key fieldId : string) (s : t) :
  is_undefined (property key data) = true ->
  populate_entry data (key, fieldId) s = Js.Normal s [] tt.
Proof.
  intros Hundefined. unfold populate_entry, Js.bind. cbn [Js.get].
  destruct (find_index _ (fields s)); [ | reflexivity ].
  rewrite Hundefined. reflexivity.
Qed.

Lemma populate_loop_keeps (data : list (string * Js.value))
      (entries : list (string * string)) (s : t) (fieldId : string)
      (i : nat) :
  find_index (fun f => String.eqb (id f) fieldId) (fields s) = Some i ->
  Forall (fun entry => snd entry <> fieldId \/
                       is_undefined (property (fst entry) data) = true)
         entries ->
  value_at i (Js.state_of (Js.for_each entries (populate_entry data) s)) =
  value_at i s.
Proof.
  revert s. induction entries as [ | [key fid] rest IH ];
    intros s Hfind Hall; [ reflexivity | ].
  inversion Hall as [ | ? ? Hhead Htail ]. subst.
  cbn [Js.for_each]. rewrite state_of_bind.
  destruct Hhead as [Hother | Hundefined].
  - destruct (populate_entry_frame data (key, fid) s) as [Hids Hvalues].
    specialize (Hvalues fieldId i Hfind Hother).
    destruct (populate_entry data (key, fid) s) as [ s1 l1 [] | s1 l1 e ];
      cbn [Js.state_of] in Hids, Hvalues; [ | exact Hvalues ].
    rewrite IH; [ exact Hvalues | | exact Htail ].
    rewrite <- Hfind. apply find_index_by_ids. exact Hids.
  - cbn [fst] in Hundefined.
    rewrite (populate_entry_undefined data key fid s Hundefined).
    apply IH; assumption.
Qed.

(** X15.  [populateForm] leaves alone every control that the mapping
    names but for which the extracted data holds no value: it keeps the
    value it had, whether or not [populateForm] runs to its end. *)
Theorem populateForm_keeps_controls_without_data
        (s : t) (data : list (string * Js.value)) (key fieldId : string)
        (i : nat) :
  extractedData s = Some data ->
  In (key, fieldId) fieldMappings ->
  property key data = Js.Undefined ->
  find_index (fun f => String.eqb (id f) fieldId) (fields s) = Some i ->
  value_at i (Js.state_of (populateForm s)) = value_at i s.
Proof.
  intros Hdata Hin Hundefined Hfind.
  unfold populateForm. rewrite state_of_bind. cbn [Js.get].
  rewrite Hdata, state_of_bind.
  assert (Hall : Forall (fun entry => snd entry <> fieldId \/
                           is_undefined (property (fst entry) data) = true)
                        fieldMappings).
  { destruct (in_split _ _ Hin) as (before & after & Hsplit).
    pose proof fieldMappings_ids_distinct as Hdistinct.
    rewrite Hsplit in Hdistinct |- *.
    destruct (distinct_after snd before (key, fieldId) after Hdistinct)
      as [Hafter Hbefore].
    apply Forall_app. split; [ | constructor ].
    - eapply Forall_impl; [ | exact Hbefore ]. cbn. auto.
    - right. cbn [fst]. rewrite Hundefined. reflexivity.
    - eapply Forall_impl; [ | exact Hafter ]. cbn. auto. }
  pose proof (populate_loop_keeps data fieldMappings s fieldId i Hfind Hall)
    as Hkept.
  destruct (Js.for_each fieldMappings (populate_entry data) s)
    as [ s1 l1 [] | s1 l1 e ]; cbn [Js.state_of] in Hkept |- *;
    [ | exact Hkept ].
  rewrite <- Hkept. reflexivity.
Qed.

Lemma populateForm_keeps_controls_without_data_witness :
  value_at 6 (Js.state_of
                (populateForm
                   (sample_form "" "17" "  " "4200" (Some stored_zero)))) =
  Some "4200".
Proof.
  rewrite (populateForm_keeps_controls_without_data
             (sample_form "" "17" "  " "4200" (Some stored_zero))
             stored_zero "tds" "tds" 6); try reflexivity.
  cbn. tauto.
Defined.



End ReviewPopulate.

(** ** The document uploader: which files are kept *)

Section UploaderFiles.

Import DocumentUploader.
Import DocumentUploaderPage.


Lemma slice0_all {A} (n : Z) (l : list A) :
  (n <? Z.of_nat (length l)) = false -> slice0 n l = l.
Proof.
  intros H. apply Z.ltb_ge in H. unfold slice0. apply firstn_all2. lia.
Qed.

(** X18.  Outside the clearing window, [processFiles] keeps, of the
    files it is given, those whose type mentions [pdf] and whose size is
    within the limit.  In multiple-document mode it appends them to the
    files already held and cuts the list after [maxFiles] files; in any
    other mode it replaces the files held by the first of them, so that
    a selection without a valid file empties the list. *)
Theorem processFiles_selection (u : t) (files : list File)
        (answers : list (Js.fetched bool)) :
  isClearingFiles u = false ->
  uploadedFiles (Js.state_of (processFiles files answers u)) =
    if multiple u
    then slice0 (maxFiles u)
                (uploadedFiles u ++ filter (passes (maxFileSize u)) files)
    else slice0 1 (filter (passes (maxFileSize u)) files).
Proof.
  intros Hopen.
  unfold processFiles. rewrite state_of_bind. cbn [Js.get]. rewrite Hopen.
  rewrite state_of_bind.
  destruct (filter_valid_run files u) as [log Hvalid]. rewrite Hvalid.
  change (filter _ files) with (filter (passes (maxFileSize u)) files).
  set (validFiles := filter _ files).
  rewrite state_of_bind.
  assert (Hstored : exists u1 log1,
    (if multiple u
     then
       Js.modify (fun u => set_uploadedFiles (uploadedFiles u ++ validFiles) u) ;;;
       u1 <- Js.get ;;
       (if maxFiles u1 <? Z.of_nat (length (uploadedFiles u1))
        then
          Js.modify (fun u => set_uploadedFiles
                                (slice0 (maxFiles u) (uploadedFiles u)) u) ;;;
          Js.emit (ShowError
            ("Maximum " ++ Js.show_nat (maxFiles u1) ++
             " files allowed. Only first " ++ Js.show_nat (maxFiles u1) ++
             " files will be processed."))
        else Js.ret tt) ;;;
       Js.emit UpdateFileList
     else
       Js.modify (set_uploadedFiles (slice0 1 validFiles)) ;;;
       Js.emit UpdateSingleFileStatus) u = Js.Normal u1 log1 tt /\
    uploadedFiles u1 =
      if multiple u
      then slice0 (maxFiles u) (uploadedFiles u ++ validFiles)
      else slice0 1 validFiles).
  { destruct (multiple u).
    - unfold Js.bind. cbn [Js.modify Js.get maxFiles set_uploadedFiles
                           uploadedFiles].
      destruct (maxFiles u <? Z.of_nat (length (uploadedFiles u ++ validFiles)))
        eqn:Hover; cbn [Js.modify Js.emit Js.ret];
        eexists; eexists; (split; [ reflexivity | ]); cbn.
      + reflexivity.
      + symmetry. apply slice0_all. exact Hover.
    - unfold Js.bind. cbn [Js.modify Js.emit].
      eexists; eexists; (split; [ reflexivity | ]). reflexivity. }
  destruct Hstored as (u1 & log1 & Hrun & Hfiles).
  rewrite Hrun. rewrite state_of_bind. cbn [Js.get].
  rewrite state_of_bind.
  destruct (0 <? length (uploadedFiles u1))%nat.
  - pose proof (checkPasswordProtection_frame answers u1) as (Hsame & _).
    destruct (checkPasswordProtection answers u1) as [ u2 l2 [] | u2 l2 e ];
      cbn [Js.state_of Js.emit] in *; rewrite Hsame; exact Hfiles.
  - cbn. exact Hfiles.
Qed.

Lemma processFiles_selection_witness :
  uploadedFiles
    (Js.state_of
       (processFiles
          [ {| fileName := "photo.png"; type := "image/png"; size := 2048 |} ]
          []
          (set_uploadedFiles [sample_pdf "slip.pdf" 4096] constructor))) = [].
Proof.
  rewrite processFiles_selection; reflexivity.
Defined.

Lemma nth_error_splice {A} (l : list A) (i j : nat) :
  (i < length l)%nat ->
  nth_error (firstn i l ++ skipn (S i) l) j =
  nth_error l (if (j <? i)%nat then j else S j).
Proof.
  revert i j. induction l as [ | x l IH ]; intros i j Hi; [ cbn in Hi; lia | ].
  destruct i as [ | i ].
  - cbn. reflexivity.
  - cbn [firstn skipn app]. destruct j as [ | j ]; [ reflexivity | ].
    cbn [nth_error]. rewrite IH by (cbn in Hi; lia).
    change (S j <? S i)%nat with (j <? i)%nat.
    destruct (j <? i)%nat; reflexivity.
Qed.

(** X19.  [removeFile] with an index within the list removes exactly the
    file at that index: the list gets one shorter, the files before the
    index stay in place and those after it move up by one.  With an
    index at or beyond the end it removes nothing. *)
Theorem removeFile_removes_exactly (u : t) (index : Z) :
  (0 <= index < Z.of_nat (length (uploadedFiles u)) ->
   S (length (uploadedFiles (Js.state_of (removeFile index u)))) =
     length (uploadedFiles u) /\
   forall j,
     nth_error (uploadedFiles (Js.state_of (removeFile index u))) j =
     nth_error (uploadedFiles u)
               (if (j <? Z.to_nat index)%nat then j else S j)) /\
  (Z.of_nat (length (uploadedFiles u)) <= index ->
   uploadedFiles (Js.state_of (removeFile index u)) = uploadedFiles u).
Proof.
  assert (Hstate : uploadedFiles (Js.state_of (removeFile index u)) =
                   splice1 index (uploadedFiles u)).
  { unfold removeFile, checkPasswordSectionVisibility.
    repeat (rewrite state_of_bind; cbn [Js.modify Js.emit Js.get]).
    set (u1 := set_uploadedFiles _ u).
    destruct (length (uploadedFiles u1) =? 0)%nat; [ reflexivity | ].
    destruct (existsb _ (uploadedFiles u1)); reflexivity. }
  rewrite Hstate. unfold splice1.
  set (l := uploadedFiles u). split.
  - intros Hrange.
    assert (Hneg : (index <? 0) = false) by (apply Z.ltb_ge; lia).
    rewrite Hneg, Z.min_l by lia.
    assert (Hi : (Z.to_nat index < length l)%nat) by lia.
    split.
    + rewrite length_app, length_firstn, length_skipn. lia.
    + intros j. apply nth_error_splice. exact Hi.
  - intros Hbeyond.
    assert (Hneg : (index <? 0) = false) by (apply Z.ltb_ge; lia).
    rewrite Hneg, Z.min_r by lia. rewrite Nat2Z.id.
    rewrite firstn_all, skipn_all2 by lia. apply app_nil_r.
Qed.

Lemma removeFile_removes_exactly_witness :
  S (length
       (uploadedFiles
          (Js.state_of
             (removeFile 1
                (set_uploadedFiles
                   [ sample_pdf "jan.pdf" 10; sample_pdf "feb.pdf" 20;
                     sample_pdf "mar.pdf" 30 ]
                   (set_documentType "salary_slip_multiple" constructor)))))) =
  3%nat.
Proof.
  apply (proj1 (removeFile_removes_exactly
                  (set_uploadedFiles
                     [ sample_pdf "jan.pdf" 10; sample_pdf "feb.pdf" 20;
                       sample_pdf "mar.pdf" 30 ]
                     (set_documentType "salary_slip_multiple" constructor))
                  1)).
  cbn. lia.
Defined.

End UploaderFiles.

(** ** The upload page: the upload and the drafts *)

Section UploaderPage.

Import DocumentUploader.
Import DocumentUploaderPage.

(** X20.  Without a selected file [processDocuments] uploads nothing: it
    only asks for a file. *)
Theorem processDocuments_without_files (r : upload_reply) (p : page) :
  uploadedFiles (uploader p) = [] ->
  processDocuments r p =
  Js.Normal p [ShowErrorBanner "Please select at least one file to process."]
            tt.
Proof.
  intros Hempty. unfold processDocuments, Js.bind. cbn [Js.get].
  rewrite Hempty. reflexivity.
Qed.

Lemma processDocuments_without_files_witness :
  Js.log_of (processDocuments (UploadStatus "OK") (sample_page constructor)) =
  [ShowErrorBanner "Please select at least one file to process."].
Proof.
  rewrite processDocuments_without_files; reflexivity.
Defined.

Lemma processDocuments_ran (r : upload_reply) (p : page) :
  uploadedFiles (uploader p) <> [] ->
  exists after,
    processDocuments r p =
      Js.Normal p
        (ShowProgress ::
         Upload (userId p) (documentType (uploader p))
                (if Js.str_truthy (getCurrentPassword p)
                 then Some (getCurrentPassword p) else None)
                (uploadedFiles (uploader p)) :: after) tt /\
    existsb is_upload after = false.
Proof.
  intros Hfiles. unfold processDocuments, Js.bind at 1. cbn [Js.get].
  destruct (uploadedFiles (uploader p)) as [ | file rest ] eqn:Hheld;
    [ congruence | ].
  cbn [length Nat.eqb].
  destruct r as [ message | statusText | result ];
    [ | | destruct (upload_success result) eqn:Hsuccess ];
    eexists; (split; [ cbn; rewrite ?Hsuccess; reflexivity | ]);
    reflexivity.
Qed.

(** X21.  With files selected, [processDocuments] sends exactly one
    upload, carrying the user id, the document type, the files held,
    and the password typed into the input of the current mode unless it
    is empty.  It leaves the page for the review form only when the
    reply says [success], after storing the session id, the extracted
    data and the processing summary; in every other case it stays,
    reports the failure and hides the progress bar. *)
Theorem processDocuments_outcome (r : upload_reply) (p : page) :
  uploadedFiles (uploader p) <> [] ->
  exists after,
    processDocuments r p =
      Js.Normal p
        (ShowProgress ::
         Upload (userId p) (documentType (uploader p))
                (if Js.str_truthy (getCurrentPassword p)
                 then Some (getCurrentPassword p) else None)
                (uploadedFiles (uploader p)) :: after) tt /\
    existsb is_upload after = false /\
    match r with
    | UploadBody result =>
        if upload_success result then
          after =
            [ StorageSet "session_id" (Js.show (upload_session_id result));
              StorageSet "extracted_data" (extracted_data_json result);
              StorageSet "processing_summary"
                         (processing_summary_json result);
              GoTo "/review-form" ]
        else
          existsb leaves_page after = false /\
          last after ShowProgress = HideProgress
    | _ =>
        existsb leaves_page after = false /\
        last after ShowProgress = HideProgress
    end.
Proof.
  intros Hfiles. unfold processDocuments, Js.bind at 1. cbn [Js.get].
  destruct (uploadedFiles (uploader p)) as [ | file rest ] eqn:Hheld;
    [ congruence | ].
  cbn [length Nat.eqb].
  destruct r as [ message | statusText | result ];
    [ | | destruct (upload_success result) eqn:Hsuccess ];
    eexists; (split; [ cbn; rewrite ?Hsuccess; reflexivity | ]);
    cbn; rewrite ?Hsuccess; auto.
Qed.

Lemma processDocuments_outcome_witness :
  exists after,
    Js.log_of
      (processDocuments
         (UploadStatus "Service Unavailable")
         (sample_page (set_uploadedFiles [sample_pdf "slip.pdf" 4096]
                                         constructor))) =
    ShowProgress ::
    Upload "user_k3x9_m1" "salary_slip_single" None
           [sample_pdf "slip.pdf" 4096] :: after.
Proof.
  destruct (processDocuments_outcome
              (UploadStatus "Service Unavailable")
              (sample_page (set_uploadedFiles [sample_pdf "slip.pdf" 4096]
                                              constructor)))
    as (after & Hrun & _).
  - cbn. discriminate.
  - exists after. rewrite Hrun. reflexivity.
Defined.

(** X22.  Whatever happened to the uploader since its construction, the
    upload that [processDocuments] sends carries at least one and at
    most 4 files in multiple-document mode, exactly 1 file in any other
    mode, and each file is a PDF, by its MIME type, of at most 10485760
    bytes. *)
Theorem processDocuments_uploads_within_limits
        (events : list event) (r : upload_reply) (p : page)
        (user ty : string) (password : option string) (files : list File) :
  uploader p = run constructor events ->
  In (Upload user ty password files) (Js.log_of (processDocuments r p)) ->
  ty = documentType (uploader p) /\
  (1 <= length files)%nat /\
  Z.of_nat (length files) <= (if multiple (uploader p) then 4 else 1) /\
  Forall (fun file => is_pdf file = true /\ size file <= 10485760) files.
Proof.
  intros Hreached Hsent.
  pose proof (run_invariant events constructor constructor_invariant)
    as (_ & _ & Hlength & Hfiles).
  rewrite <- Hreached in Hlength, Hfiles.
  destruct (uploadedFiles (uploader p)) as [ | file rest ] eqn:Hheld.
  - rewrite (processDocuments_without_files r p Hheld) in Hsent.
    cbn in Hsent. destruct Hsent as [Hsent | []]. discriminate Hsent.
  - assert (Hnonempty : uploadedFiles (uploader p) <> [])
      by (rewrite Hheld; discriminate).
    destruct (processDocuments_ran r p Hnonempty) as (after & Hrun & Hnone).
    rewrite Hrun in Hsent. cbn [Js.log_of] in Hsent.
    destruct Hsent as [Hsent | [Hsent | Hsent]].
    + discriminate Hsent.
    + injection Hsent as _ <- _ <-. rewrite Hheld in *.
      repeat split; try assumption. cbn. lia.
    + exfalso. assert (Hany : existsb is_upload after = true).
      { apply existsb_exists. eexists. split; [ exact Hsent | reflexivity ]. }
      rewrite Hnone in Hany. discriminate Hany.
Qed.

Lemma processDocuments_uploads_within_limits_witness :
  Forall (fun file => is_pdf file = true /\ size file <= 10485760)
         [sample_pdf "jan.pdf" 10; sample_pdf "mar.pdf" 30].
Proof.
  refine (proj2 (proj2 (proj2
    (processDocuments_uploads_within_limits
       [ DocumentTypeChange "salary_slip_multiple"; ClearFilesTimer;
         ProcessFiles
           [ sample_pdf "jan.pdf" 10;
             {| fileName := "feb.png"; type := "image/png"; size := 20 |};
             sample_pdf "mar.pdf" 30 ] [] ]
       (UploadStatus "Service Unavailable")
       (sample_page
          (run constructor
             [ DocumentTypeChange "salary_slip_multiple"; ClearFilesTimer;
               ProcessFiles
                 [ sample_pdf "jan.pdf" 10;
                   {| fileName := "feb.png"; type := "image/png";
                      size := 20 |};
                   sample_pdf "mar.pdf" 30 ] [] ]))
       "user_k3x9_m1" "salary_slip_multiple" (Some "s3cret")
       [sample_pdf "jan.pdf" 10; sample_pdf "mar.pdf" 30] _ _)))).
  - reflexivity.
  - vm_compute. right. left. reflexivity.
Defined.

(** X23.  [checkForDrafts] never leaves the page in its loading state:
    whatever the server answers, and whether or not the first draft is
    null, the last thing it does is to show the upload interface, with
    or without the banner of the draft. *)
Theorem checkForDrafts_ends_with_interface
        (r : Js.fetched drafts_body) (p : page) :
  exists before final,
    checkForDrafts r p =
      Js.Normal p (ShowLoadingState :: GetDrafts (userId p) :: before ++ [final])
                tt /\
    shows_interface final = true.
Proof.
  unfold checkForDrafts, showDraftOptionBanner.
  destruct r as [ | [ | ] [ | [ | [ d | ] rest ] ] ];
    try (exists [], ShowUploadInterface; split; reflexivity).
  - destruct (draftDateElement p) eqn:Hdate.
    + exists [ShowDraftDate (created_at d)], (ShowDraftOptionBanner (Some d)).
      unfold Js.try_catch, Js.bind. cbn. rewrite Hdate. cbn. auto.
    + exists [], (ShowDraftOptionBanner (Some d)).
      unfold Js.try_catch, Js.bind. cbn. rewrite Hdate. cbn. auto.
  - destruct (draftDateElement p) eqn:Hdate.
    + exists [], ShowUploadInterface.
      unfold Js.try_catch, Js.bind. cbn. rewrite Hdate. cbn. auto.
    + exists [], (ShowDraftOptionBanner None).
      unfold Js.try_catch, Js.bind. cbn. rewrite Hdate. cbn. auto.
Qed.

(** X24.  [discardDraft] sends the DELETE request only after the user
    has confirmed; without confirmation it does nothing.  After a
    confirmation it shows the upload interface and a success message
    when the reply is OK, and an error message otherwise, and it never
    throws. *)
Theorem discardDraft_outcome (draftId : Js.value) (confirmed : bool)
        (r : Js.fetched unit) (p : page) :
  discardDraft draftId confirmed r p =
  Js.Normal p
    (if confirmed then
       DeleteDraft (userId p) draftId ::
       match r with
       | Js.Response true _ =>
           [ ShowUploadInterface;
             ShowSuccessMessage "Draft discarded successfully!" ]
       | _ => [ShowErrorMessage "Failed to discard draft. Please try again."]
       end
     else []) tt.
Proof.
  destruct confirmed; [ | reflexivity ].
  destruct r as [ | [ | ] [] ]; reflexivity.
Qed.

(** X25.  [loadDraft] goes to the review form only when the draft
    arrives with an OK status, and then it has stored the id of the
    draft, its financial data and the mark [is_draft = 'true'], in this
    order, before leaving; otherwise it stores nothing, stays on the
    page and raises an alert. *)
Theorem loadDraft_outcome (draftId : Js.value) (r : Js.fetched LoadedDraft)
        (p : page) :
  loadDraft draftId r p =
  Js.Normal p
    (GetDraft (userId p) draftId ::
     match r with
     | Js.Response true draft =>
         [ StorageSet "session_id" (Js.show (loaded_draft_id draft));
           StorageSet "extracted_data" (financial_data_json draft);
           StorageSet "is_draft" "true";
           GoTo "/review-form" ]
     | _ => [Alert "Failed to load draft. Please try again."]
     end) tt.
Proof. destruct r as [ | [ | ] draft ]; reflexivity. Qed.

End UploaderPage.

(** ** The user id cookie *)

Section CookieFacts.

Import CookieManager.

Lemma free_of_app (c : ascii) (a b : string) :
  free_of c (a ++ b) <-> free_of c a /\ free_of c b.
Proof.
  induction a as [ | d a IH ]; cbn [append free_of].
  - tauto.
  - rewrite IH. tauto.
Qed.

Lemma split_free (sep : ascii) (s : string) :
  free_of sep s -> split sep s = [s].
Proof.
  induction s as [ | c s IH ]; cbn [free_of split]; [ reflexivity | ].
  intros [Hc Hs]. apply Ascii.eqb_neq in Hc. rewrite Hc, (IH Hs).
  reflexivity.
Qed.

Lemma split_at (sep : ascii) (a b : string) :
  free_of sep a -> split sep (a ++ String sep b) = a :: split sep b.
Proof.
  induction a as [ | c a IH ]; cbn [free_of append split].
  - intros _. rewrite Ascii.eqb_refl. reflexivity.
  - intros [Hc Ha]. apply Ascii.eqb_neq in Hc. rewrite Hc, (IH Ha).
    reflexivity.
Qed.

Lemma pair_text_free (p : string * string) :
  well_formed p -> free_of ";" (pair_text p).
Proof.
  intros (Hname & Hvalue & _ & _). unfold pair_text.
  apply free_of_app. split; [ exact Hname | ].
  cbn. split; [ discriminate | exact Hvalue ].
Qed.

(** The pieces into which [getCookie] cuts the cookie string. *)
Lemma split_cookie_string (jar : list (string * string)) :
  Forall well_formed jar ->
  split ";" (cookie_string jar) =
  match jar with
  | [] => [EmptyString]
  | p :: rest => pair_text p :: map (fun q => String " " (pair_text q)) rest
  end.
Proof.
  induction 1 as [ | p rest Hp Hrest IH ]; [ reflexivity | ].
  destruct rest as [ | q rest ].
  - cbn [cookie_string map]. apply split_free, pair_text_free. exact Hp.
  - change (cookie_string (p :: q :: rest))
      with (pair_text p ++ String ";" (String " " (cookie_string (q :: rest)))).
    rewrite split_at by (apply pair_text_free; exact Hp).
    cbn [split]. change (Ascii.eqb " " ";") with false. cbn iota.
    rewrite IH. reflexivity.
Qed.

Lemma strip_spaces_length (s : string) :
  (String.length (strip_spaces s) <= String.length s)%nat.
Proof.
  induction s as [ | c s IH ]; [ cbn; lia | ].
  cbn [strip_spaces].
  destruct c as [ [ | ] [ | ] [ | ] [ | ] [ | ] [ | ] [ | ] [ | ] ];
    cbn [String.length]; try lia.
Qed.

Lemma strip_spaces_pair (p : string * string) :
  well_formed p -> strip_spaces (pair_text p) = pair_text p.
Proof.
  intros (_ & _ & _ & Hstart). unfold pair_text.
  destruct (fst p) as [ | c n ]; [ reflexivity | ].
  destruct (Ascii.eqb_spec c " ") as [-> | Hc].
  - exfalso. cbn [strip_spaces] in Hstart.
    pose proof (strip_spaces_length n) as Hlen.
    rewrite Hstart in Hlen. cbn [String.length] in Hlen. lia.
  - cbn [append strip_spaces].
    destruct c as [ [ | ] [ | ] [ | ] [ | ] [ | ] [ | ] [ | ] [ | ] ];
      try reflexivity.
    contradiction Hc. reflexivity.
Qed.

Lemma starts_with_pair (name n v : string) :
  free_of "=" name -> free_of "=" n ->
  Js.starts_with (name ++ "=") (n ++ String "=" v) = String.eqb n name.
Proof.
  revert n. induction name as [ | a name IH ]; intros [ | c n ];
    cbn [free_of append Js.starts_with String.eqb].
  - intros _ _. reflexivity.
  - intros _ [Hc _]. apply Ascii.eqb_neq in Hc.
    rewrite Ascii.eqb_sym, Hc. reflexivity.
  - intros [Ha _] _. apply Ascii.eqb_neq in Ha. rewrite Ha. reflexivity.
  - intros [_ Hname] [_ Hn]. rewrite (IH n Hname Hn), Ascii.eqb_sym.
    reflexivity.
Qed.

Lemma drop_name (name v : string) :
  Js.drop (String.length (name ++ "=")) (name ++ String "=" v) = v.
Proof. induction name as [ | a name IH ]; [ reflexivity | exact IH ]. Qed.

Lemma find_cookie_piece (name : string) (p : string * string)
      (rest : list string) :
  well_formed p -> free_of "=" name ->
  find_cookie (name ++ "=") (pair_text p :: rest) =
    (if String.eqb (fst p) name then Some (snd p)
     else find_cookie (name ++ "=") rest) /\
  find_cookie (name ++ "=") (String " " (pair_text p) :: rest) =
    (if String.eqb (fst p) name then Some (snd p)
     else find_cookie (name ++ "=") rest).
Proof.
  intros Hp Hname.
  assert (Hpiece : find_cookie (name ++ "=") (pair_text p :: rest) =
                   if String.eqb (fst p) name then Some (snd p)
                   else find_cookie (name ++ "=") rest).
  { cbn [find_cookie]. rewrite (strip_spaces_pair p Hp).
    unfold pair_text. destruct Hp as (_ & _ & Hfree & _).
    change (fst p ++ "=" ++ snd p) with (fst p ++ String "=" (snd p)).
    rewrite (starts_with_pair name (fst p) (snd p) Hname Hfree).
    destruct (String.eqb_spec (fst p) name) as [-> | _]; [ | reflexivity ].
    rewrite drop_name. reflexivity. }
  split; [ exact Hpiece | ].
  rewrite <- Hpiece. reflexivity.
Qed.

Lemma getCookie_cookie_string
        (jar : list (string * string)) (name : string) :
  Forall well_formed jar -> free_of "=" name ->
  getCookie (cookie_string jar) name = first_value name jar.
Proof.
  intros Hjar Hname. unfold getCookie.
  rewrite (split_cookie_string jar Hjar).
  destruct Hjar as [ | p rest Hp Hrest ]; [ destruct name; reflexivity | ].
  destruct (find_cookie_piece name p
              (map (fun q => String " " (pair_text q)) rest) Hp Hname)
    as [Hfirst _].
  rewrite Hfirst. destruct p as [n v]. cbn [first_value fst snd].
  destruct (String.eqb n name); [ reflexivity | ].
  clear Hfirst Hp. induction Hrest as [ | q rest Hq Hrest IH ];
    [ reflexivity | ].
  cbn [map].
  destruct (find_cookie_piece name q
              (map (fun q => String " " (pair_text q)) rest) Hq Hname)
    as [_ Hnext].
  rewrite Hnext. destruct q as [m w]. cbn [first_value fst snd].
  destruct (String.eqb m name); [ reflexivity | exact IH ].
Qed.

(** X26.  On the cookie string of a set of well-formed cookies,
    [getCookie] returns the value of the first cookie with exactly the
    name asked for, and null when there is none; a cookie whose name
    only begins or ends with that name is not mistaken for it. *)
Theorem getCookie_finds_first_value
        (jar : list (string * string)) (name : string) :
  Forall well_formed jar -> free_of "=" name ->
  getCookie (cookie_string jar) name = first_value name jar.
Proof. exact (getCookie_cookie_string jar name). Qed.

Lemma getCookie_finds_first_value_witness :
  getCookie
    (cookie_string [ ("theme", "dark"); ("tax_app_user_id_old", "user_a");
                     ("tax_app_user_id", "user_k3x9_m1") ])
    "tax_app_user_id" = Some "user_k3x9_m1".
Proof.
  rewrite getCookie_finds_first_value.
  - reflexivity.
  - repeat constructor; cbn; intuition discriminate.
  - cbn. intuition discriminate.
Defined.

(** X27.  [getOrCreateUserId] always returns a non-empty id.  It returns
    the stored id and writes nothing when the cookie holds a non-empty
    id; otherwise, also when the cookie is present with an empty value
    and [hasUserId] says yes, it returns a fresh id and writes it into
    the cookie, to expire 30 days later. *)
Theorem getOrCreateUserId_outcome
        (cookie random36 now36 : string) (now : Z) :
  fst (getOrCreateUserId cookie random36 now36 now) <> "" /\
  match getCurrentUserId cookie with
  | Some (String c stored) =>
      getOrCreateUserId cookie random36 now36 now = (String c stored, [])
  | _ =>
      getOrCreateUserId cookie random36 now36 now =
      (generateUserId random36 now36,
       [ WriteCookie COOKIE_NAME (generateUserId random36 now36)
                     (now + 2592000000) ])
  end /\
  (getCurrentUserId cookie = Some "" -> hasUserId cookie = true).
Proof.
  unfold getOrCreateUserId, getCurrentUserId, hasUserId, setCookie,
    COOKIE_EXPIRY_DAYS.
  destruct (getCookie cookie COOKIE_NAME) as [ [ | c stored ] | ];
    cbn [Js.str_truthy fst]; repeat split; try discriminate;
    try (f_equal; f_equal; f_equal; lia).
Qed.

Lemma getOrCreateUserId_outcome_witness :
  hasUserId "theme=dark; tax_app_user_id=" = true.
Proof.
  apply (proj2 (proj2 (getOrCreateUserId_outcome
                         "theme=dark; tax_app_user_id=" "0.4fzyo82mvyr"
                         "lx2k9a" 1700000000000))).
  reflexivity.
Defined.

Lemma free_of_drop (c : ascii) (n : nat) (s : string) :
  free_of c s -> free_of c (Js.drop n s).
Proof.
  revert s. induction n as [ | n IH ]; intros [ | d s ] H; cbn; auto.
  apply IH. exact (proj2 H).
Qed.

Lemma free_of_take (c : ascii) (n : nat) (s : string) :
  free_of c s -> free_of c (take n s).
Proof.
  revert s. induction n as [ | n IH ]; intros [ | d s ] H; cbn; auto.
  destruct H as [Hd Hs]. split; [ exact Hd | exact (IH s Hs) ].
Qed.

Lemma generateUserId_free (random36 now36 : string) :
  free_of ";" random36 -> free_of ";" now36 ->
  free_of ";" (generateUserId random36 now36).
Proof.
  intros Hrandom Hnow. unfold generateUserId, substr.
  apply free_of_app. split; [ cbn; intuition discriminate | ].
  apply free_of_app. split; [ apply free_of_take, free_of_drop; exact Hrandom | ].
  cbn. split; [ discriminate | exact Hnow ].
Qed.

Lemma first_value_added (name v : string) (jar : list (string * string)) :
  first_value name jar = None ->
  first_value name (jar ++ [(name, v)]) = Some v.
Proof.
  induction jar as [ | [n w] jar IH ]; cbn [app first_value].
  - intros _. rewrite String.eqb_refl. reflexivity.
  - destruct (String.eqb n name); [ discriminate | exact IH ].
Qed.

(** X28.  The id that [getOrCreateUserId] creates is found again: once
    the cookie it wrote is among the cookies of the page, the next call
    returns the same id and writes nothing, whatever the random number
    and the time of that call. *)
Theorem getOrCreateUserId_stable
        (jar : list (string * string)) (random36 now36 : string) (now : Z)
        (random36' now36' : string) (now' : Z) :
  Forall well_formed jar ->
  first_value COOKIE_NAME jar = None ->
  free_of ";" random36 -> free_of ";" now36 ->
  getOrCreateUserId
    (cookie_string
       (jar ++ [ (COOKIE_NAME,
                  fst (getOrCreateUserId (cookie_string jar)
                                         random36 now36 now)) ]))
    random36' now36' now' =
  (generateUserId random36 now36, []).
Proof.
  intros Hjar Hnone Hrandom Hnow.
  assert (Hname : free_of "=" COOKIE_NAME) by (cbn; intuition discriminate).
  assert (Hfresh : fst (getOrCreateUserId (cookie_string jar)
                                          random36 now36 now) =
                   generateUserId random36 now36).
  { unfold getOrCreateUserId.
    rewrite (getCookie_cookie_string jar COOKIE_NAME Hjar Hname), Hnone.
    reflexivity. }
  rewrite Hfresh.
  assert (Hjar' : Forall well_formed
                    (jar ++ [(COOKIE_NAME, generateUserId random36 now36)])).
  { apply Forall_app. split; [ exact Hjar | ]. constructor; [ | constructor ].
    unfold well_formed. cbn [fst snd].
    repeat split; try (cbn; intuition discriminate).
    apply generateUserId_free; assumption. }
  unfold getOrCreateUserId.
  rewrite (getCookie_cookie_string _ COOKIE_NAME Hjar' Hname).
  rewrite (first_value_added _ _ _ Hnone). reflexivity.
Qed.

Lemma getOrCreateUserId_stable_witness :
  getOrCreateUserId
    (cookie_string
       [ ("theme", "dark");
         (COOKIE_NAME,
          fst (getOrCreateUserId (cookie_string [("theme", "dark")])
                                 "0.4fzyo82mvyr" "lx2k9a" 1700000000000)) ])
    "0.9zzzzzzzzzzz" "lx2kzz" 1700000999000 =
  (generateUserId "0.4fzyo82mvyr" "lx2k9a", []).
Proof.
  apply (getOrCreateUserId_stable [("theme", "dark")]).
  - repeat constructor; cbn; intuition discriminate.
  - reflexivity.
  - cbn; intuition discriminate.
  - cbn; intuition discriminate.
Defined.

End CookieFacts.

(** ** The tax results page *)

Section ResultsFacts.

Import TaxResults.

Lemma updateRecommendations_run (found : option RecommendationList) (s : t) :
  match found with
  | Some NotAList => False
  | Some (ListOf entries) => forallb listed entries = true
  | Some NoList | None => True
  end ->
  exists shown,
    updateRecommendations found s = Js.Normal s shown tt /\
    existsb is_error_state shown = false /\
    existsb is_request shown = false.
Proof.
  intros Hfound. unfold updateRecommendations, Js.bind. cbn [Js.emit].
  destruct found as [ [ | | entries ] | ]; try contradiction;
    try (eexists; repeat split; reflexivity).
  assert (Hloop : Js.for_each entries appendRecommendation s =
                  Js.Normal s (appended entries) tt /\
                  existsb is_error_state (appended entries) = false /\
                  existsb is_request (appended entries) = false).
  { induction entries as [ | [ rec | ] rest IH ]; cbn in Hfound.
    - repeat split.
    - destruct (IH Hfound) as (Hrun & Hquiet & Hsilent).
      cbn [Js.for_each appended]. unfold Js.bind.
      cbn [appendRecommendation Js.emit]. rewrite Hrun.
      repeat split; assumption.
    - discriminate Hfound. }
  destruct Hloop as (Hrun & Hquiet & Hsilent). rewrite Hrun.
  exists (ClearRecommendations :: appended entries). repeat split; assumption.
Qed.

(** The run of [calculateTax] on a complete reply whose recommendations
    can be displayed, up to the choice of the option. *)
Lemma calculateTax_complete_run (results : Results) (best : Js.value)
      (s : t) :
  complete results best ->
  presentable results = true ->
  exists shown,
    calculateTax (TaxBody results) s =
    (if existsb (String.eqb (Js.show best ++ "RegimeOption")) regime_options
     then
       Js.Normal
         (set_selectedRegime best (set_taxResults (Some results) s))
         (ShowLoading :: PostCalculateTax (sessionId s) :: HideLoading ::
          shown ++ [CheckOption (Js.show best ++ "RegimeOption")]) tt
     else
       Js.Normal
         (set_selectedRegime best (set_taxResults (Some results) s))
         (ShowLoading :: PostCalculateTax (sessionId s) :: HideLoading ::
          shown ++
          [ShowErrorState
             "Tax calculation failed: TypeError: Cannot set properties of null"])
         tt) /\
    existsb is_error_state shown = false /\
    existsb is_request shown = false.
Proof.
  intros (details & old & new & c & Hdetails & Hold & Holdtotal & Hnew &
          Hnewtotal & Hcomparison & Hbest) Hpresentable.
  destruct (updateRecommendations_run (recommendations results)
              (set_taxResults (Some results) s))
    as (listed_recs & Hrecs & Hquiet & Hsilent).
  { unfold presentable in Hpresentable.
    destruct (recommendations results) as [ [ | | entries ] | ];
      try exact I; [ discriminate Hpresentable | exact Hpresentable ]. }
  exists ([ UpdateSummary details;
            UpdateRegimeCard "old" (Some old);
            UpdateRegimeCard "new" (Some new);
            SetOptionTax "oldRegimeOptionTax" (total_tax old);
            SetOptionTax "newRegimeOptionTax" (total_tax new) ] ++
          listed_recs)%list.
  split; [ | split ].
  - unfold calculateTax, displayResults, updateRegimeSelection,
      Js.try_catch, Js.bind.
    cbn [Js.emit Js.get Js.modify taxResults set_taxResults].
    rewrite Hdetails. cbn [Js.emit Js.get Js.modify taxResults set_taxResults].
    rewrite Hdetails, Hold, Holdtotal, Hnew, Hnewtotal, Hcomparison, Hbest.
    cbn [Js.emit]. rewrite Hrecs.
    cbn [Js.emit Js.modify].
    destruct (existsb _ regime_options); [ reflexivity | ].
    unfold Js.throw, showError, Js.emit. cbn [app].
    rewrite app_nil_r. reflexivity.
  - rewrite existsb_app, Hquiet. reflexivity.
  - rewrite existsb_app, Hsilent. reflexivity.
Qed.

(** When the recommendations of the reply cannot be displayed,
    [displayResults] throws before it selects a regime: [calculateTax]
    ends on the error screen and the selection is what it was. *)
Lemma calculateTax_recommendations_throw (results : Results)
      (best : Js.value) (s : t) :
  complete results best ->
  presentable results = false ->
  selectedRegime (Js.state_of (calculateTax (TaxBody results) s)) =
    selectedRegime s /\
  exists before message,
    Js.log_of (calculateTax (TaxBody results) s) =
    (before ++ [ShowErrorState ("Tax calculation failed: " ++ message)])%list.
Proof.
  intros (details & old & new & c & Hdetails & Hold & Holdtotal & Hnew &
          Hnewtotal & Hcomparison & Hbest) Hpresentable.
  assert (Hrecs : exists shown message,
             updateRecommendations (recommendations results)
                                   (set_taxResults (Some results) s) =
             Js.Thrown (set_taxResults (Some results) s) shown message).
  { unfold presentable in Hpresentable.
    unfold updateRecommendations, Js.bind. cbn [Js.emit].
    destruct (recommendations results) as [ [ | | entries ] | ];
      try discriminate Hpresentable.
    - eexists. eexists. reflexivity.
    - assert (Hloop : exists shown message,
                 Js.for_each entries appendRecommendation
                             (set_taxResults (Some results) s) =
                 Js.Thrown (set_taxResults (Some results) s) shown message).
      { induction entries as [ | [ rec | ] rest IH ]; cbn in Hpresentable.
        - discriminate Hpresentable.
        - destruct (IH Hpresentable) as (shown & message & Hrun).
          cbn [Js.for_each]. unfold Js.bind.
          cbn [appendRecommendation Js.emit]. rewrite Hrun.
          eexists. eexists. reflexivity.
        - cbn [Js.for_each]. unfold Js.bind.
          cbn [appendRecommendation Js.throw].
          eexists. eexists. reflexivity. }
      destruct Hloop as (shown & message & Hrun). rewrite Hrun.
      eexists. eexists. reflexivity. }
  destruct Hrecs as (shown & message & Hrecs).
  unfold calculateTax, displayResults, updateRegimeSelection,
    Js.try_catch, Js.bind.
  cbn [Js.emit Js.get Js.modify taxResults set_taxResults].
  rewrite Hdetails. cbn [Js.emit Js.get Js.modify taxResults set_taxResults].
  rewrite Hdetails, Hold, Holdtotal, Hnew, Hnewtotal.
  cbn [Js.emit]. rewrite Hrecs.
  cbn [showError Js.emit Js.state_of Js.log_of selectedRegime set_taxResults].
  split; [ reflexivity | ].
  exists (ShowLoading :: PostCalculateTax (sessionId s) :: HideLoading ::
          UpdateSummary details ::
          UpdateRegimeCard "old" (Some old) ::
          UpdateRegimeCard "new" (Some new) ::
          SetOptionTax "oldRegimeOptionTax" (total_tax old) ::
          SetOptionTax "newRegimeOptionTax" (total_tax new) :: shown),
         message.
  reflexivity.
Qed.

(** X29.  When the reply of [/api/calculate-tax] is complete, its
    recommendations can be displayed (there are none, or they are an
    array without a null entry) and it names [old] or [new] as the best
    regime, [calculateTax] shows the results without an error, with the
    option of the best regime checked and that regime selected; if the
    user then saves without changing the selection, the regime sent to
    [/api/select-regime] is the best regime of the reply. *)
Theorem calculateTax_selects_best_regime
        (results : Results) (best : string) (s : t)
        (r : Js.fetched unit) :
  complete results (Js.Text best) ->
  presentable results = true ->
  best = "old" \/ best = "new" ->
  selectedRegime (Js.state_of (calculateTax (TaxBody results) s)) =
    Js.Text best /\
  existsb is_error_state (Js.log_of (calculateTax (TaxBody results) s))
    = false /\
  In (CheckOption (best ++ "RegimeOption"))
     (Js.log_of (calculateTax (TaxBody results) s)) /\
  exists after,
    Js.log_of (saveRegimeSelection r
                 (Js.state_of (calculateTax (TaxBody results) s))) =
    PostSelectRegime (sessionId s) (Js.Text best) :: after.
Proof.
  intros Hcomplete Hpresentable Hbest.
  destruct (calculateTax_complete_run results (Js.Text best) s Hcomplete
              Hpresentable)
    as (shown & Hrun & Hquiet & _).
  assert (Hoption : existsb (String.eqb (Js.show (Js.Text best) ++
                                         "RegimeOption")) regime_options
                    = true)
    by (destruct Hbest as [-> | ->]; reflexivity).
  rewrite Hoption in Hrun. rewrite Hrun.
  cbn [Js.state_of Js.log_of selectedRegime set_selectedRegime Js.show].
  repeat split.
  - cbn [existsb is_error_state orb]. rewrite existsb_app, Hquiet.
    reflexivity.
  - do 3 right. apply in_or_app. right. left. reflexivity.
  - unfold saveRegimeSelection, Js.try_catch, Js.bind. cbn [Js.get].
    cbn [selectedRegime set_selectedRegime sessionId set_taxResults].
    assert (Htruthy : Js.value_truthy (Js.Text best) = true)
      by (destruct Hbest as [-> | ->]; reflexivity).
    rewrite Htruthy. cbn [negb Js.emit].
    destruct r as [ | [ | ] [] ]; eexists; reflexivity.
Qed.

Lemma calculateTax_selects_best_regime_witness :
  selectedRegime
    (Js.state_of
       (calculateTax (TaxBody (sample_results (Js.Text "old")))
                     (set_sessionId (Js.Text "3f2a") constructor))) =
  Js.Text "old".
Proof.
  refine (proj1 (calculateTax_selects_best_regime
                   (sample_results (Js.Text "old")) "old"
                   (set_sessionId (Js.Text "3f2a") constructor)
                   (Js.Response true tt) _ _ _)).
  - unfold complete. repeat eexists.
  - reflexivity.
  - left. reflexivity.
Defined.

Lemma append_length (a b : string) :
  String.length (a ++ b) = (String.length a + String.length b)%nat.
Proof. induction a as [ | c a IH ]; cbn; [ reflexivity | rewrite IH; lia ]. Qed.

Lemma append_cancel_r (a b c : string) : a ++ c = b ++ c -> a = b.
Proof.
  revert b. induction a as [ | x a IH ]; intros [ | y b ] H.
  - reflexivity.
  - apply (f_equal String.length) in H. rewrite !append_length in H.
    cbn in H. lia.
  - apply (f_equal String.length) in H. rewrite !append_length in H.
    cbn in H. lia.
  - cbn [append] in H. injection H as -> H. rewrite (IH b H). reflexivity.
Qed.

(** X30.  When the reply is complete and its recommendations can be
    displayed, but its best regime is neither [old] nor [new],
    [calculateTax] ends on the error screen although the results have
    arrived, and the unknown value has been taken as the selected
    regime. *)
Theorem calculateTax_unknown_best_regime
        (results : Results) (best : Js.value) (s : t) :
  complete results best ->
  presentable results = true ->
  Js.show best <> "old" -> Js.show best <> "new" ->
  selectedRegime (Js.state_of (calculateTax (TaxBody results) s)) = best /\
  taxResults (Js.state_of (calculateTax (TaxBody results) s)) =
    Some results /\
  exists before message,
    Js.log_of (calculateTax (TaxBody results) s) =
    (before ++ [ShowErrorState ("Tax calculation failed: " ++ message)])%list.
Proof.
  intros Hcomplete Hpresentable Hold Hnew.
  destruct (calculateTax_complete_run results best s Hcomplete Hpresentable)
    as (shown & Hrun & _ & _).
  assert (Hoption : existsb (String.eqb (Js.show best ++ "RegimeOption"))
                            regime_options = false).
  { cbn [existsb regime_options]. apply orb_false_iff. split.
    - apply String.eqb_neq. intros Heq. apply Hold.
      apply (append_cancel_r _ "old" "RegimeOption" Heq).
    - rewrite orb_false_r. apply String.eqb_neq. intros Heq. apply Hnew.
      apply (append_cancel_r _ "new" "RegimeOption" Heq). }
  rewrite Hoption in Hrun. rewrite Hrun.
  cbn [Js.state_of Js.log_of selectedRegime taxResults set_selectedRegime
       set_taxResults].
  repeat split.
  exists (ShowLoading :: PostCalculateTax (sessionId s) :: HideLoading :: shown),
         "TypeError: Cannot set properties of null".
  reflexivity.
Qed.

Lemma calculateTax_unknown_best_regime_witness :
  selectedRegime
    (Js.state_of
       (calculateTax (TaxBody (sample_results (Js.Text "either")))
                     (set_sessionId (Js.Text "3f2a") constructor))) =
  Js.Text "either".
Proof.
  refine (proj1 (calculateTax_unknown_best_regime
                   (sample_results (Js.Text "either")) (Js.Text "either")
                   (set_sessionId (Js.Text "3f2a") constructor) _ _ _ _)).
  - unfold complete. repeat eexists.
  - reflexivity.
  - cbn. discriminate.
  - cbn. discriminate.
Defined.

End ResultsFacts.
